(** * Volatility analyzer and live scanner: a shallow embedding

    The development follows two programs of the repository:

    - [intraday_swing_analyzer.py]: the window statistics engine
      ([compute_intraday_stats], [_compute_window_stats]), the result cache
      ([process_ticker], [save_cache], [load_cache]) and the ranker
      ([aggregate_results], [rank_results]);
    - [nasdaq_volatility_scanner.py]: the live Z-score ([compute_zscore]) and
      the alerting step with its cooldown ledger
      ([VolatilityScanner.process_ticker]).

    Around them it follows the code they are called from and call: the
    fetchers of the two programs ([get_intraday_data]), the batches and the
    ledger cleanup of [scan_cycle], [process_ticker_batch], the files of
    [export_to_csv], and, in the dashboard, the files [app.py] reads, its
    [get_ticker_metrics] and the insights of [ai_analysis.py]
    ([analyze_ticker_metrics]).

    Numbers are IEEE binary64 values (the kernel's primitive floats), as in
    numpy's [float64]; counters and lengths are integers. The routines of
    numpy and pandas that the programs call are written out from their
    documented behaviour in module [Np]. The natural logarithm
    of the platform, the business-day resampling of pandas and the
    [argsort] behind [sort_values] are parameters of the sections that use
    them; module [Platform] has an executable instance of each, for running
    the definitions on the histories of module [Scenario]. *)

From Stdlib Require Import ZArith List Floats Uint63 Permutation Sorted Lia.
From stdpp Require Import base option list gmap strings pretty sorting.

Set Warnings "-register-all".

(** ** Numeric routines of numpy, on binary64 values *)

Module Np.

Local Open Scope float_scope.

(** [float(n)] for a length or a counter. *)
Definition of_nat (n : nat) : float :=
  PrimFloat.of_uint63 (Uint63.of_Z (Z.of_nat n)).

Definition isnan (x : float) : bool := is_nan x.
Definition isinf (x : float) : bool := is_infinity x.

(** A value that is neither NaN nor infinite. *)
Definition finite (x : float) : bool := negb (isnan x || isinf x).

(** [np.sum]: the elements are added from the left. (numpy adds the blocks
    of a long array pairwise; the two sums can differ in the last bits.) *)
Definition sum (xs : list float) : float := fold_left PrimFloat.add xs 0.

(** [np.mean]. On the empty array this is 0/0. *)
Definition mean (xs : list float) : float := sum xs / of_nat (length xs).

(** [np.std(xs, ddof=1)]: the square root of the sum of squared deviations
    over [n - 1]. *)
Definition std_ddof1 (xs : list float) : float :=
  let m := mean xs in
  let sq := map (fun x => (x - m) * (x - m)) xs in
  PrimFloat.sqrt (sum sq / (of_nat (length xs) - 1)).

(** [np.max] and [np.min]: a NaN operand wins. *)
Definition max2 (a b : float) : float :=
  if isnan a then a else if isnan b then b else if a <? b then b else a.
Definition min2 (a b : float) : float :=
  if isnan a then a else if isnan b then b else if b <? a then b else a.

Definition max (xs : list float) : float :=
  match xs with [] => nan | x :: r => fold_left max2 r x end.
Definition min (xs : list float) : float :=
  match xs with [] => nan | x :: r => fold_left min2 r x end.

(** [np.sort] on an array without NaN: ascending insertion. *)
Fixpoint insert (x : float) (s : list float) : list float :=
  match s with
  | [] => [x]
  | y :: r => if x <? y then x :: y :: r else y :: insert x r
  end.
Definition sort (xs : list float) : list float := fold_right insert [] xs.

Definition nth_f (s : list float) (i : nat) : float := nth i s nan.

(** [np.median]: NaN as soon as one element is NaN, else the middle element
    of the sorted array, or the mean of the two middle ones. *)
Definition median (xs : list float) : float :=
  if existsb isnan xs then nan else
  let s := sort xs in
  let n := length xs in
  if Nat.even n
  then (nth_f s (n / 2 - 1) + nth_f s (n / 2)) / 2
  else nth_f s (n / 2) / 1.

(** The floor of a non-negative index below [n], as a position. *)
Definition floor_index (v : float) (n : nat) : nat :=
  length (filter (fun k => of_nat k <=? v) (seq 1 (n - 1))).

(** numpy's interpolation between two neighbours. *)
Definition lerp (a b t : float) : float :=
  let d := b - a in
  if 0.5 <=? t then b - d * (1 - t) else a + d * t.

(** [np.percentile(xs, q)], default method (linear): with the array sorted,
    the virtual index is [(n - 1) * (q / 100)], and the result interpolates
    between the elements at its floor and at the next position. *)
Definition percentile (xs : list float) (q : float) : float :=
  if existsb isnan xs then nan else
  let s := sort xs in
  let n := length xs in
  let v := of_nat (n - 1) * (q / 100) in
  let i := floor_index v n in
  let j := Nat.min (i + 1) (n - 1) in
  lerp (nth_f s i) (nth_f s j) (v - of_nat i).

(** [np.log]: NaN on NaN and below zero, minus infinity at zero, infinity at
    infinity; on a positive finite argument the value is that of the
    logarithm [ln] of the platform. *)
Definition log (ln : float -> float) (x : float) : float :=
  if isnan x then nan
  else if x <? 0 then nan
  else if x =? 0 then neg_infinity
  else if x =? infinity then infinity
  else ln x.

(** [np.sum(xs > t)]: how many elements exceed [t]. *)
Definition count_gt (xs : list float) (t : float) : nat :=
  length (filter (fun x => t <? x) xs).

(** [np.diff]. *)
Definition diff (xs : list float) : list float :=
  zip_with (fun later earlier => later - earlier) (tail xs) xs.

(** [a[-n:]] for [n > 0]: the last [n] elements, all of them when there are
    fewer. *)
Definition lastn {A} (n : nat) (l : list A) : list A := drop (length l - n) l.

End Np.

(** ** Python numbers

    A number of the programs is a Python [float] or [int], or a numpy scalar
    ([np.float64], [np.int64]); the difference matters when a value is
    written to JSON. *)

Inductive num :=
  | PyFloat (f : float)
  | NpFloat64 (f : float)
  | PyInt (z : Z)
  | NpInt64 (z : Z).

(** The value of a number in a float64 column or comparison. *)
Definition Z_to_float (z : Z) : float :=
  if (z <? 0)%Z then PrimFloat.opp (Np.of_nat (Z.to_nat (- z)))
  else Np.of_nat (Z.to_nat z).

Definition num_float (n : num) : float :=
  match n with
  | PyFloat f | NpFloat64 f => f
  | PyInt z | NpInt64 z => Z_to_float z
  end.

Definition num_int (n : num) : Z :=
  match n with
  | PyInt z | NpInt64 z => z
  | PyFloat _ | NpFloat64 _ => 0%Z
  end.

(** A number is finite when it is an integer or a float other than NaN and
    the two infinities. *)
Definition num_finite (n : num) : bool :=
  match n with
  | PyFloat f | NpFloat64 f => Np.finite f
  | PyInt _ | NpInt64 _ => true
  end.

(** ** The window statistics engine ([intraday_swing_analyzer.py]) *)

Module Analyzer.

Definition MIN_DAYS_REQUIRED : nat := 5.
Definition SWING_THRESHOLDS : list float := [2.0%float; 3.0%float].

(** The dictionary key of a threshold, [f'swing_{int(threshold)}pct']. *)
Definition swing_key (threshold : float) : string :=
  if (threshold =? 2)%float then "swing_2pct"
  else if (threshold =? 3)%float then "swing_3pct"
  else "swing_pct".
Definition BATCH_SIZE : nat := 100.
Definition CACHE_EXPIRY_HOURS : Z := 1.

(** One OHLCV row of a price history; [bar_time] is the index timestamp in
    nanoseconds. *)
Record Bar := {
  bar_time : Z;
  bar_open : float;
  bar_high : float;
  bar_low : float;
  bar_close : float;
  bar_volume : float
}.

(** A price history as the fetcher returns it. [datetime_index] tells whether
    the index is a [DatetimeIndex]. *)
Record DataFrame := {
  datetime_index : bool;
  bars : list Bar
}.

(** A row of [daily_data] once the columns [IntradayRange] and [LogReturn]
    are added. (The column [RealizedVol] is written by the program and never
    read; it is left out.) *)
Record DailyRow := {
  row_bar : Bar;
  IntradayRange : float;
  LogReturn : float
}.

(** The record [_compute_window_stats] returns, field by field. *)
Record WindowStats := {
  avg_intraday_range : num;
  std_intraday_range : num;
  daily_std_dev : num;
  median_intraday_range : num;
  max_intraday_range : num;
  min_intraday_range : num;
  realized_volatility : num;
  consistency_score : num;
  swing_2pct_days : num;
  swing_3pct_days : num;
  extreme_move_days : num;
  ultra_extreme_move_days : num;
  days_in_window : num;
  std_dev_25th : num;
  std_dev_50th : num;
  std_dev_75th : num;
  std_dev_90th : num;
  std_dev_95th : num;
  std_dev_99th : num;
  min_range_pct : num;
  max_range_pct : num;
  range_spread_pct : num
}.

(** The record [compute_intraday_stats] returns. *)
Record TickerStats := {
  ticker : string;
  total_days : nat;
  today : option WindowStats;
  last_3_days : option WindowStats;
  last_7_days : option WindowStats;
  last_30_days : option WindowStats;
  last_3_months : option WindowStats;
  last_1_year : option WindowStats
}.

(** The numeric fields of a window record, in the order of the dictionary. *)
Definition window_fields (w : WindowStats) : list (string * num) :=
  [ ("avg_intraday_range", avg_intraday_range w);
    ("std_intraday_range", std_intraday_range w);
    ("daily_std_dev", daily_std_dev w);
    ("median_intraday_range", median_intraday_range w);
    ("max_intraday_range", max_intraday_range w);
    ("min_intraday_range", min_intraday_range w);
    ("realized_volatility", realized_volatility w);
    ("consistency_score", consistency_score w);
    ("swing_2pct_days", swing_2pct_days w);
    ("swing_3pct_days", swing_3pct_days w);
    ("extreme_move_days", extreme_move_days w);
    ("ultra_extreme_move_days", ultra_extreme_move_days w);
    ("days_in_window", days_in_window w);
    ("std_dev_25th", std_dev_25th w);
    ("std_dev_50th", std_dev_50th w);
    ("std_dev_75th", std_dev_75th w);
    ("std_dev_90th", std_dev_90th w);
    ("std_dev_95th", std_dev_95th w);
    ("std_dev_99th", std_dev_99th w);
    ("min_range_pct", min_range_pct w);
    ("max_range_pct", max_range_pct w);
    ("range_spread_pct", range_spread_pct w) ].

(** The windows of a ticker record, in the order of the dictionary. *)
Definition ticker_windows (s : TickerStats) : list (string * option WindowStats) :=
  [ ("today", today s);
    ("last_3_days", last_3_days s);
    ("last_7_days", last_7_days s);
    ("last_30_days", last_30_days s);
    ("last_3_months", last_3_months s);
    ("last_1_year", last_1_year s) ].

(** Every numeric field of a window record is finite. *)
Definition window_all_finite (w : WindowStats) : bool :=
  forallb (fun kv => num_finite kv.2) (window_fields w).

(** The percentile ladder of a window record, from the 25th to the 99th. *)
Definition ladder (w : WindowStats) : list float :=
  map num_float
    [ std_dev_25th w; std_dev_50th w; std_dev_75th w;
      std_dev_90th w; std_dev_95th w; std_dev_99th w ].

Fixpoint non_decreasing (l : list float) : bool :=
  match l with
  | a :: (b :: _) as r => (a <=? b)%float && non_decreasing r
  | _ => true
  end.

(** The ladder does not decrease: p25 <= p50 <= p75 <= p90 <= p95 <= p99. *)
Definition ladder_monotone (w : WindowStats) : bool := non_decreasing (ladder w).

(** *** Timestamps: is the history intraday? *)

Definition HOUR_NS : Z := 3600 * 10 ^ 9.

(** [index.to_series().diff()] without its leading NaT. *)
Definition time_diffs (ts : list Z) : list Z :=
  zip_with (fun later earlier => later - earlier)%Z (tail ts) ts.

(** Twice the median of the gaps (twice, to stay in the integers when two
    middle gaps are averaged); [None] is NaT, the median of no gap. *)
Definition median_gap_twice (ts : list Z) : option Z :=
  let d := merge_sort Z.le (time_diffs ts) in
  let n := length d in
  if Nat.eqb n 0 then None
  else if Nat.even n
       then Some (nth (n / 2 - 1) d 0 + nth (n / 2) d 0)%Z
       else Some (2 * nth (n / 2) d 0)%Z.

(** [avg_diff_minutes < 60]: the median gap is below one hour. A NaT median
    gives NaN minutes, and the comparison is false. *)
Definition looks_intraday (ts : list Z) : bool :=
  match median_gap_twice ts with
  | Some m => (m <? 2 * HOUR_NS)%Z
  | None => false
  end.

Section Engine.

Local Open Scope float_scope.

(** The natural logarithm on a positive finite argument (libm's [log]). *)
Variable ln : float -> float.

(** [data.resample('B').agg({...}).dropna()]: the bars of each business day
    merged into one row, the days without a bar dropped. *)
Variable resample_B : list Bar -> list Bar.

(** The daily series of a history: resampled when the index is a
    [DatetimeIndex] whose median gap is under an hour, copied otherwise. *)
Definition to_daily (data : DataFrame) : list Bar :=
  if datetime_index data then
    if looks_intraday (map bar_time (bars data))
    then resample_B (bars data)
    else bars data
  else bars data.

(** [(High - Low) / Open * 100]. *)
Definition intraday_range (b : Bar) : float :=
  ((bar_high b - bar_low b) / bar_open b) * 100.

(** The two derived columns; [Close.shift(1)] starts with NaN. *)
Definition add_columns (daily : list Bar) : list DailyRow :=
  zip_with
    (fun b prev_close =>
       {| row_bar := b;
          IntradayRange := intraday_range b;
          LogReturn := Np.log ln (bar_close b / prev_close) |})
    daily (nan :: map bar_close daily).

(** [dropna(subset=['IntradayRange'])]: rows whose range is NaN go; an
    infinite range is not a missing value and stays. *)
Definition dropna_range (rows : list DailyRow) : list DailyRow :=
  filter (fun r => negb (Np.isnan (IntradayRange r))) rows.

(** The filtered daily series: what the windows are cut from. *)
Definition filtered_daily (data : DataFrame) : list DailyRow :=
  dropna_range (add_columns (to_daily data)).

(** Replace NaN and the infinities by the literal [0.0]. *)
Definition sanitize (x : float) : num :=
  if Np.isnan x || Np.isinf x then PyFloat 0 else NpFloat64 x.

(** A percentile of the ladder: [float(np.percentile(ranges, q))], then the
    replacement of NaN and Inf by [0.0]. *)
Definition ladder_entry (ranges : list float) (q : float) : num :=
  let value := Np.percentile ranges q in
  if Np.isnan value || Np.isinf value then PyFloat 0 else PyFloat value.

(** [_compute_window_stats(window_data)]: [None] on an empty slice. A
    number keeps the type Python gives it: [np.float64] for what numpy
    returns, [float] for the literal [0.0] and for [float(...)], [np.int64]
    for [np.sum] of a comparison, [int] for [int(...)] and [len(...)]. *)
Definition _compute_window_stats (window_data : list DailyRow) : option WindowStats :=
  match window_data with
  | [] => None
  | _ :: _ =>
    let ranges := map IntradayRange window_data in
    let log_returns :=
      filter (fun x => negb (Np.isnan x)) (map LogReturn window_data) in
    let avg_range0 := NpFloat64 (Np.mean ranges) in
    let std_range0 :=
      if (1 <? length ranges)%nat then NpFloat64 (Np.std_ddof1 ranges)
      else PyFloat 0 in
    let median_range := Np.median ranges in
    let max_range := Np.max ranges in
    let min_range := Np.min ranges in
    let avg_range :=
      if Np.isnan (num_float avg_range0) || Np.isinf (num_float avg_range0)
      then PyFloat 0 else avg_range0 in
    let std_range :=
      if Np.isnan (num_float std_range0) || Np.isinf (num_float std_range0)
      then PyFloat 0 else std_range0 in
    let daily_std :=
      if negb (Np.isnan (num_float std_range) || Np.isinf (num_float std_range))
      then std_range else PyFloat 0 in
    let std_usable :=
      (0 <? num_float std_range)
      && negb (Np.isnan (num_float std_range))
      && negb (Np.isinf (num_float std_range)) in
    let realized_vol :=
      if (1 <? length log_returns)%nat then
        let std_log := Np.std_ddof1 log_returns in
        if (0 <? std_log) && negb (Np.isnan std_log) && negb (Np.isinf std_log)
        then sanitize (std_log * PrimFloat.sqrt 252 * 100)
        else PyFloat 0
      else PyFloat 0 in
    let consistency :=
      if std_usable
      then sanitize (num_float avg_range / num_float std_range)
      else PyFloat 0 in
    let swing_counts :=
      map (fun threshold =>
             (swing_key threshold,
              NpInt64 (Z.of_nat (Np.count_gt ranges threshold))))
          SWING_THRESHOLDS in
    let swing (key : string) :=
      default (PyInt 0) (snd <$> find (fun kv => String.eqb kv.1 key) swing_counts) in
    let mean_range := Np.mean ranges in
    let sigma_days (k : float) :=
      if std_usable then
        if negb (Np.isnan mean_range || Np.isinf mean_range)
        then PyInt (Z.of_nat (Np.count_gt ranges (mean_range + k * num_float std_range)))
        else PyInt 0
      else PyInt 0 in
    Some
      {| avg_intraday_range := avg_range;
         std_intraday_range := std_range;
         daily_std_dev := daily_std;
         median_intraday_range := NpFloat64 median_range;
         max_intraday_range := NpFloat64 max_range;
         min_intraday_range := NpFloat64 min_range;
         realized_volatility := realized_vol;
         consistency_score := consistency;
         swing_2pct_days := swing "swing_2pct";
         swing_3pct_days := swing "swing_3pct";
         extreme_move_days := sigma_days 2;
         ultra_extreme_move_days := sigma_days 3;
         days_in_window := PyInt (Z.of_nat (length window_data));
         std_dev_25th := ladder_entry ranges 25;
         std_dev_50th := ladder_entry ranges 50;
         std_dev_75th := ladder_entry ranges 75;
         std_dev_90th := ladder_entry ranges 90;
         std_dev_95th := ladder_entry ranges 95;
         std_dev_99th := ladder_entry ranges 99;
         min_range_pct := NpFloat64 min_range;
         max_range_pct := NpFloat64 max_range;
         range_spread_pct := NpFloat64 (max_range - min_range) |}
  end.

(** [compute_intraday_stats(data, ticker)]. The three guards return [None];
    on a frame that has its five columns nothing in the body raises, so the
    [except] branch, which also returns [None], adds no case. *)
Definition compute_intraday_stats (data : option DataFrame) (ticker : string)
  : option TickerStats :=
  match data with
  | None => None
  | Some data =>
    if (length (bars data) <? MIN_DAYS_REQUIRED)%nat then None else
    let daily_data := to_daily data in
    if (length daily_data <? MIN_DAYS_REQUIRED)%nat then None else
    let daily_data := dropna_range (add_columns daily_data) in
    if (length daily_data <? MIN_DAYS_REQUIRED)%nat then None else
    let n := length daily_data in
    Some
      {| ticker := ticker;
         total_days := n;
         today :=
           if (0 <? n)%nat then _compute_window_stats (Np.lastn 1 daily_data)
           else None;
         last_3_days :=
           if (3 <=? n)%nat then _compute_window_stats (Np.lastn 3 daily_data)
           else None;
         last_7_days :=
           if (7 <=? n)%nat then _compute_window_stats (Np.lastn 7 daily_data)
           else None;
         last_30_days :=
           if (30 <=? n)%nat then _compute_window_stats (Np.lastn 30 daily_data)
           else None;
         last_3_months :=
           if (60 <=? n)%nat then _compute_window_stats (Np.lastn 90 daily_data)
           else None;
         last_1_year :=
           if (180 <=? n)%nat then _compute_window_stats (Np.lastn 252 daily_data)
           else None |}
  end.

End Engine.

(** *** The result cache and the per-ticker step *)

(** A cache entry, [{'timestamp': ..., 'stats': ...}]. Times are in
    microseconds, the resolution of [datetime]; the timestamp is an option
    because the program reads it with a default. *)
Record CacheEntry := {
  timestamp : option Z;
  stats : option TickerStats
}.

(** [datetime.fromisoformat('2000-01-01')], in microseconds since 1970. *)
Definition T2000 : Z := 946684800 * 10 ^ 6.

Definition CACHE_EXPIRY_US : Z := CACHE_EXPIRY_HOURS * 3600 * 10 ^ 6.

(** What one call of [process_ticker] leaves behind: the value returned, the
    cache after the call, and whether the fetcher was called. *)
Record Processed := {
  returned : option TickerStats;
  cache_after : option (gmap string CacheEntry);
  fetched : bool
}.

Section Orchestrator.

Variable ln : float -> float.
Variable resample_B : list Bar -> list Bar.

(** [process_ticker(ticker, cache)]. [now_lookup] and [now_store] are the two
    readings of [datetime.now()]; [get_intraday_data] is the fetcher as it
    answers during this call. *)
Definition process_ticker
    (get_intraday_data : string -> string -> option DataFrame)
    (now_lookup now_store : Z)
    (ticker : string) (cache : option (gmap string CacheEntry)) : Processed :=
  let hit :=
    match cache with
    | Some c =>
      if bool_decide (c = ∅) then None
      else match c !! ticker with
           | Some cached_data =>
             let cache_time := default T2000 (timestamp cached_data) in
             if (now_lookup - cache_time <? CACHE_EXPIRY_US)%Z
             then Some (stats cached_data)
             else None
           | None => None
           end
    | None => None
    end in
  match hit with
  | Some cached_stats =>
    {| returned := cached_stats; cache_after := cache; fetched := false |}
  | None =>
    match get_intraday_data ticker "2mo" with
    | None => {| returned := None; cache_after := cache; fetched := true |}
    | Some data =>
      let stats := compute_intraday_stats ln resample_B (Some data) ticker in
      let cache' :=
        match cache with
        | Some c =>
          Some (<[ticker := {| timestamp := Some now_store; stats := stats |}]> c)
        | None => None
        end in
      {| returned := stats; cache_after := cache'; fetched := true |}
    end
  end.

End Orchestrator.

(** *** Aggregation and ranking *)

Record Aggregated := {
  agg_all : list TickerStats;
  agg_stocks : list TickerStats;
  agg_etfs : list TickerStats
}.

(** [aggregate_results]: absent records and records without a ticker are
    skipped; a ticker is an ETF when the ['etfs'] list names it. *)
Definition aggregate_results
    (all_stats : list (option TickerStats))
    (ticker_types : gmap string (list string)) : Aggregated :=
  let etf_tickers : gset string :=
    list_to_set (default [] (ticker_types !! "etfs")) in
  let kept :=
    filter (fun s => negb (String.eqb (ticker s) "")) (omap id all_stats) in
  {| agg_all := kept;
     agg_stocks := filter (fun s => negb (bool_decide (ticker s ∈ etf_tickers))) kept;
     agg_etfs := filter (fun s => bool_decide (ticker s ∈ etf_tickers)) kept |}.

Inductive Window :=
  | Wtoday | Wlast_3_days | Wlast_7_days
  | Wlast_30_days | Wlast_3_months | Wlast_1_year.

(** [stat.get(window)]. *)
Definition get_window (stat : TickerStats) (window : Window) : option WindowStats :=
  match window with
  | Wtoday => today stat
  | Wlast_3_days => last_3_days stat
  | Wlast_7_days => last_7_days stat
  | Wlast_30_days => last_30_days stat
  | Wlast_3_months => last_3_months stat
  | Wlast_1_year => last_1_year stat
  end.

(** A row of the frame built from [valid_stats]: its index label (the
    position in [valid_stats]), the ticker and the window record. *)
Record Row := {
  row_label : nat;
  row_ticker : string;
  row_stats : WindowStats
}.

Inductive cell := CStr (s : string) | CNum (n : num).

(** [df[name]] on one row. *)
Definition column (name : string) (r : Row) : option cell :=
  if String.eqb name "ticker" then Some (CStr (row_ticker r))
  else CNum <$> (snd <$> find (fun kv => String.eqb kv.1 name)
                              (window_fields (row_stats r))).

(** A ranking table: for each row its index label and the selected cells. *)
Definition Table := list (nat * list (string * cell)).

(** [sorted_df[[...]]]. *)
Definition select (cols : list string) (df : list Row) : Table :=
  map (fun r => (row_label r, omap (fun c => pair c <$> column c r) cols)) df.

(** [DataFrame.sort_values(by, ascending=...)] with the default
    [kind='quicksort'] and [na_position='last'], as pandas computes it: the
    missing keys are set aside, the others are handed to numpy's [argsort]
    (reversed first, and the answer reversed back, when the order is
    descending), and the rows are taken in the order of the indexer. *)
Section SortValues.

Context {K : Type}.

(** [isna] on a key. *)
Variable isna : K -> bool.

(** [keys.argsort(kind='quicksort')]: positions that put the keys in
    ascending order. *)
Variable argsort : list K -> list nat.

Definition nargsort (items : list K) (ascending : bool) : list nat :=
  let tagged := zip (seq 0 (length items)) items in
  let live := filter (fun p => negb (isna p.2)) tagged in
  let nan_idx := (filter (fun p => isna p.2) tagged).*1 in
  let live := if ascending then live else rev live in
  let non_nans := live.*2 in
  let non_nan_idx := live.*1 in
  let indexer := omap (fun j => non_nan_idx !! j) (argsort non_nans) in
  let indexer := if ascending then indexer else rev indexer in
  indexer ++ nan_idx.

Definition sort_values {R} (df : list R) (by_key : R -> K) (ascending : bool)
  : list R :=
  omap (fun i => df !! i) (nargsort (map by_key df) ascending).

End SortValues.

Section Ranker.

(** numpy's [argsort] on a float64 column and on an int64 column. *)
Variable argsort_float : list float -> list nat.
Variable argsort_int : list Z -> list nat.

Definition float_column (f : WindowStats -> num) (r : Row) : float :=
  num_float (f (row_stats r)).
Definition int_column (f : WindowStats -> num) (r : Row) : Z :=
  num_int (f (row_stats r)).

Definition sort_by_float (f : WindowStats -> num) (df : list Row) : list Row :=
  sort_values Np.isnan argsort_float df (float_column f) false.
Definition sort_by_int (f : WindowStats -> num) (df : list Row) : list Row :=
  sort_values (fun _ => false) argsort_int df (int_column f) false.

(** The rows kept for the consistency ranking:
    [df[df['consistency_score'].notna() & (df['consistency_score'] != np.inf)]]. *)
Definition consistency_rows (df : list Row) : list Row :=
  filter (fun r =>
            let c := float_column consistency_score r in
            negb (Np.isnan c) && negb (c =? infinity)%float) df.

(** The frame of a category: one row per record that has the window. *)
Definition valid_rows (stats_list : list TickerStats) (window : Window) : list Row :=
  imap (fun i tw => {| row_label := i; row_ticker := tw.1; row_stats := tw.2 |})
       (omap (fun stat => pair (ticker stat) <$> get_window stat window) stats_list).

(** The five sorted frames of a category, before the columns are selected. *)
Definition highest_avg_range (df : list Row) : list Row :=
  sort_by_float avg_intraday_range df.
Definition most_consistent (df : list Row) : list Row :=
  sort_by_float consistency_score (consistency_rows df).
Definition most_2pct_swings (df : list Row) : list Row :=
  sort_by_int swing_2pct_days df.
Definition most_3pct_swings (df : list Row) : list Row :=
  sort_by_int swing_3pct_days df.
Definition most_extreme_moves (df : list Row) : list Row :=
  sort_by_int extreme_move_days df.

Definition category_rankings (df : list Row) : list (string * Table) :=
  [ ("highest_avg_range",
     select ["ticker"; "avg_intraday_range"; "std_intraday_range";
             "consistency_score"; "swing_2pct_days"; "swing_3pct_days";
             "extreme_move_days"]
            (highest_avg_range df));
    ("most_consistent",
     select ["ticker"; "consistency_score"; "avg_intraday_range";
             "std_intraday_range"; "swing_2pct_days"; "swing_3pct_days"]
            (most_consistent df));
    ("most_2pct_swings",
     select ["ticker"; "swing_2pct_days"; "swing_3pct_days";
             "avg_intraday_range"; "extreme_move_days"; "days_in_window"]
            (most_2pct_swings df));
    ("most_3pct_swings",
     select ["ticker"; "swing_3pct_days"; "swing_2pct_days";
             "avg_intraday_range"; "extreme_move_days"; "days_in_window"]
            (most_3pct_swings df));
    ("most_extreme_moves",
     select ["ticker"; "extreme_move_days"; "avg_intraday_range";
             "std_intraday_range"; "swing_2pct_days"; "swing_3pct_days"]
            (most_extreme_moves df)) ].

(** [rank_results(aggregated_results, window)]: a category without a valid
    record has no entry. *)
Definition rank_results (aggregated_results : Aggregated) (window : Window)
  : list (string * list (string * Table)) :=
  omap (fun cat : string * list TickerStats =>
          let df := valid_rows cat.2 window in
          match df with
          | [] => None
          | _ :: _ => Some (cat.1, category_rankings df)
          end)
       [ ("all", agg_all aggregated_results);
         ("stocks", agg_stocks aggregated_results);
         ("etfs", agg_etfs aggregated_results) ].

End Ranker.

(** *** Cache persistence: [save_cache], [_convert_numpy_types], [load_cache] *)

(** The Python values a cache holds. A dictionary keeps its insertion
    order. *)
Inductive pyval :=
  | PNone
  | PBool (b : bool)
  | PStr (s : string)
  | PNum (n : num)
  | PList (items : list pyval)
  | PTuple (items : list pyval)
  | PDict (entries : list (string * pyval)).

(** A JSON document. Python writes a float with [repr], the shortest decimal
    string that reads back as the same binary64 value, and writes and reads
    NaN, Infinity and -Infinity as such: the file is modelled by the tree of
    values it denotes. *)
Inductive json :=
  | JNull
  | JBool (b : bool)
  | JInt (z : Z)
  | JFloat (f : float)
  | JString (s : string)
  | JArray (items : list json)
  | JObject (entries : list (string * json)).

(** [_convert_numpy_types(obj)]. *)
Fixpoint _convert_numpy_types (obj : pyval) : pyval :=
  match obj with
  | PDict entries =>
    PDict (map (fun kv => (kv.1, _convert_numpy_types kv.2)) entries)
  | PList items | PTuple items => PList (map _convert_numpy_types items)
  | PNum (NpInt64 z) => PNum (PyInt z)
  | PNum (NpFloat64 f) => PNum (PyFloat f)
  | other => other
  end.

(** The body of the inner loop of [save_cache], for one value of an entry. *)
Definition convert_entry_value (v : pyval) : pyval :=
  match v with
  | PNum (NpInt64 z) => PNum (PyInt z)
  | PNum (NpFloat64 f) => PNum (PyFloat f)
  | PDict _ => _convert_numpy_types v
  | other => other
  end.

(** [cache_serializable] as [save_cache] builds it. *)
Definition cache_serializable (cache : list (string * pyval)) : list (string * pyval) :=
  map (fun kv =>
         match kv.2 with
         | PDict value =>
           (kv.1, PDict (map (fun e => (e.1, convert_entry_value e.2)) value))
         | other => (kv.1, other)
         end)
      cache.

(** [json.dump(..., default=str)]: a Python [int], a [float] (and
    [np.float64], which is a subclass of [float]), a string, a list, a tuple
    and a dictionary have a JSON form; anything else, such as [np.int64], is
    passed to [str] and written as a string. *)
Fixpoint json_dump (v : pyval) : json :=
  match v with
  | PNone => JNull
  | PBool b => JBool b
  | PStr s => JString s
  | PNum (PyInt z) => JInt z
  | PNum (PyFloat f) | PNum (NpFloat64 f) => JFloat f
  | PNum (NpInt64 z) => JString (pretty z)
  | PList items | PTuple items => JArray (map json_dump items)
  | PDict entries => JObject (map (fun kv => (kv.1, json_dump kv.2)) entries)
  end.

(** [json.load]. *)
Fixpoint json_load (j : json) : pyval :=
  match j with
  | JNull => PNone
  | JBool b => PBool b
  | JInt z => PNum (PyInt z)
  | JFloat f => PNum (PyFloat f)
  | JString s => PStr s
  | JArray items => PList (map json_load items)
  | JObject entries => PDict (map (fun kv => (kv.1, json_load kv.2)) entries)
  end.

(** [save_cache(cache)]: the document written to [CACHE_FILE]. *)
Definition save_cache (cache : list (string * pyval)) : json :=
  json_dump (PDict (cache_serializable cache)).

(** [load_cache()]: the empty dictionary when the file is missing. *)
Definition load_cache (file : option json) : pyval :=
  match file with
  | Some document => json_load document
  | None => PDict []
  end.

(** The dictionaries the engine and the orchestrator build. *)
Definition window_obj (w : WindowStats) : pyval :=
  PDict (map (fun kv => (kv.1, PNum kv.2)) (window_fields w)).

Definition ticker_obj (s : TickerStats) : pyval :=
  PDict (("ticker", PStr (ticker s))
         :: ("total_days", PNum (PyInt (Z.of_nat (total_days s))))
         :: map (fun kw => (kw.1, from_option window_obj PNone kw.2))
                (ticker_windows s)).

(** [{'timestamp': datetime.now().isoformat(), 'stats': stats}]. *)
Definition entry_obj (isoformat : string) (stats : option TickerStats) : pyval :=
  PDict [ ("timestamp", PStr isoformat);
          ("stats", from_option ticker_obj PNone stats) ].

(** The native counterpart of a number: same value, Python's own type. *)
Definition native_num (n : num) : num :=
  match n with
  | NpInt64 z => PyInt z
  | NpFloat64 f => PyFloat f
  | other => other
  end.

Definition is_native (n : num) : bool :=
  match n with PyInt _ | PyFloat _ => true | _ => false end.

(** Two numbers of the same kind with the same value. *)
Definition same_value (a b : num) : Prop :=
  match a, b with
  | (PyFloat f | NpFloat64 f), (PyFloat g | NpFloat64 g) => f = g
  | (PyInt x | NpInt64 x), (PyInt y | NpInt64 y) => x = y
  | _, _ => False
  end.

End Analyzer.

(** ** The live scanner ([nasdaq_volatility_scanner.py]) *)

Module Scanner.

Import Analyzer.

Definition VOLATILITY_WINDOW_DAYS : nat := 20.
Definition MIN_BARS_REQUIRED : nat := 100.
Definition Z_SCORE_THRESHOLD : float := 2.0%float.
Definition ALERT_COOLDOWN_HOURS : Z := 1.

(** [timedelta(hours=ALERT_COOLDOWN_HOURS)], in microseconds. *)
Definition ALERT_COOLDOWN_US : Z := ALERT_COOLDOWN_HOURS * 3600 * 10 ^ 6.

(** The [stats] dictionary of a Z-score. *)
Record ZStats := {
  mean_return : float;
  std_return : float;
  current_return : float;
  current_price : float;
  previous_price : float;
  bars_used : nat
}.

Section Zscore.

Local Open Scope float_scope.

Variable ln : float -> float.

Definition last_f (xs : list float) : float := List.last xs nan.

(** [closes[-2]]. *)
Definition last_but_one (xs : list float) : float :=
  nth (length xs - 2) xs nan.

(** The trailing returns the statistics are taken over, for a history long
    enough to have any: [log_returns[-window_size:]]. *)
Definition window_size (log_returns : list float) : nat :=
  Nat.min (length log_returns) (VOLATILITY_WINDOW_DAYS * 78).

(** [compute_zscore(data)]: the Z-score, the percent move and the stats,
    or [None]. Nothing in the body raises on a frame with a [Close] column. *)
Definition compute_zscore (data : option DataFrame)
  : option (float * float * ZStats) :=
  match data with
  | None => None
  | Some data =>
    if (length (bars data) <? MIN_BARS_REQUIRED)%nat then None else
    let closes := map bar_close (bars data) in
    let log_returns := Np.diff (map (Np.log ln) closes) in
    if (length log_returns <? MIN_BARS_REQUIRED)%nat then None else
    let window_size := window_size log_returns in
    if (window_size <? 50)%nat then None else
    let recent_returns := Np.lastn window_size log_returns in
    let mean_return := Np.mean recent_returns in
    let std_return := Np.std_ddof1 recent_returns in
    if (std_return =? 0) || Np.isnan std_return then None else
    let current_return := last_f log_returns in
    let zscore := (current_return - mean_return) / std_return in
    let percent_move :=
      if (2 <=? length closes)%nat
      then ((last_f closes - last_but_one closes) / last_but_one closes) * 100
      else 0 in
    let stats :=
      {| mean_return := mean_return;
         std_return := std_return;
         current_return := current_return;
         current_price := last_f closes;
         previous_price :=
           if (2 <=? length closes)%nat then last_but_one closes
           else last_f closes;
         bars_used := length recent_returns |} in
    Some (zscore, percent_move, stats)
  end.

End Zscore.

(** An alert dictionary. *)
Record Alert := {
  alert_ticker : string;
  alert_zscore : float;
  alert_percent_move : float;
  alert_stats : ZStats;
  alert_timestamp : Z
}.

(** The state of a [VolatilityScanner]; [alert_history] is the cooldown
    ledger, ticker to time of last alert (microseconds). *)
Record VolatilityScanner := {
  tickers : list string;
  alert_history : gmap string Z;
  scan_count : nat;
  alerts_sent : nat;
  errors : nat
}.

(** What awaiting the fetcher gives: an exception, or its return value. *)
Inductive Fetched :=
  | Raised
  | Returned (data : option DataFrame).

(** The successive readings of [datetime.now()] in one call. *)
Record Clock := {
  at_cooldown_check : Z;
  at_alert : Z;
  at_history_update : Z
}.

Section Alerting.

Variable ln : float -> float.

(** [VolatilityScanner.process_ticker(ticker)]: the alert returned, if any,
    and the scanner afterwards. *)
Definition process_ticker (self : VolatilityScanner) (fetch : Fetched)
    (clock : Clock) (ticker : string) : option Alert * VolatilityScanner :=
  match fetch with
  | Raised =>
    (None,
     {| tickers := tickers self; alert_history := alert_history self;
        scan_count := scan_count self; alerts_sent := alerts_sent self;
        errors := S (errors self) |})
  | Returned None => (None, self)
  | Returned (Some data) =>
    match compute_zscore ln (Some data) with
    | None => (None, self)
    | Some (zscore, percent_move, stats) =>
      if (Z_SCORE_THRESHOLD <? abs zscore)%float then
        let in_cooldown :=
          match alert_history self !! ticker with
          | Some last_alert =>
            (at_cooldown_check clock - last_alert <? ALERT_COOLDOWN_US)%Z
          | None => false
          end in
        if in_cooldown then (None, self)
        else
          (Some {| alert_ticker := ticker;
                   alert_zscore := zscore;
                   alert_percent_move := percent_move;
                   alert_stats := stats;
                   alert_timestamp := at_alert clock |},
           {| tickers := tickers self;
              alert_history :=
                <[ticker := at_history_update clock]> (alert_history self);
              scan_count := scan_count self;
              alerts_sent := alerts_sent self;
              errors := errors self |})
      else (None, self)
    end
  end.

End Alerting.

End Scanner.

(** ** Executable stand-ins for the parameters

    The sections above take the logarithm of the platform, the business-day
    resampling of pandas and numpy's [argsort] as parameters. To run the
    definitions on concrete inputs this module supplies an instance of each;
    the theorems below hold for every instance. *)

Module Platform.

Import Analyzer.

Local Open Scope float_scope.

(** *** A logarithm: exponent and mantissa, then the series of
    [2 * atanh ((m - 1) / (m + 1))] *)

Definition LN2 : float := 0x1.62e42fefa39efp-1.

(** [1/(2k+1) + t2 * (1/(2k+3) + ...)], [terms] terms from [k] on. *)
Fixpoint atanh_tail (t2 : float) (k terms : nat) : float :=
  match terms with
  | O => 0
  | S terms' => 1 / Np.of_nat (2 * k + 1) + t2 * atanh_tail t2 (S k) terms'
  end.

Definition SQRT_HALF : float := 0x1.6a09e667f3bcdp-1.

(** [x = m * 2 ^ exponent] with [m] between [sqrt(1/2)] and [sqrt(2)]. *)
Definition ln (x : float) : float :=
  let (m0, e) := frshiftexp x in
  let low := m0 <? SQRT_HALF in
  let m := if low then m0 * 2 else m0 in
  let exponent :=
    PrimFloat.of_uint63 e - Z_to_float FloatOps.shift - (if low then 1 else 0) in
  let t := (m - 1) / (m + 1) in
  exponent * LN2 + 2 * t * atanh_tail (t * t) 0 24.

(** *** A resampling: consecutive bars of one calendar day become one row *)

Definition DAY_NS : Z := 86400 * 10 ^ 9.

Definition day_of (b : Bar) : Z := (bar_time b / DAY_NS)%Z.

(** Open of the first bar, highest high, lowest low, close of the last bar,
    summed volume. *)
Definition merge_bar (acc b : Bar) : Bar :=
  {| bar_time := bar_time acc;
     bar_open := bar_open acc;
     bar_high := if bar_high acc <? bar_high b then bar_high b else bar_high acc;
     bar_low := if bar_low b <? bar_low acc then bar_low b else bar_low acc;
     bar_close := bar_close b;
     bar_volume := bar_volume acc + bar_volume b |}.

Fixpoint group_days (current : Bar) (rest : list Bar) : list Bar :=
  match rest with
  | [] => [current]
  | b :: rest' =>
    if (day_of b =? day_of current)%Z
    then group_days (merge_bar current b) rest'
    else current :: group_days b rest'
  end.

Definition has_nan (b : Bar) : bool :=
  Np.isnan (bar_open b) || Np.isnan (bar_high b) || Np.isnan (bar_low b)
  || Np.isnan (bar_close b) || Np.isnan (bar_volume b).

Definition resample_B (bs : list Bar) : list Bar :=
  filter (fun b => negb (has_nan b))
         (match bs with [] => [] | b :: rest => group_days b rest end).

(** *** A sort by insertion, on positions

    [argsort_stable] puts a position after the positions already placed
    whose key is not larger: it returns the positions in ascending order of
    key, and equal keys keep their order. *)
Section Insertion.

Context {K : Type}.
Variable lt : K -> K -> bool.
Variable keys : list K.

Definition key_lt (i j : nat) : bool :=
  match keys !! i, keys !! j with
  | Some a, Some b => lt a b
  | _, _ => false
  end.

Fixpoint place_after (i : nat) (placed : list nat) : list nat :=
  match placed with
  | [] => [i]
  | j :: rest => if key_lt i j then i :: j :: rest else j :: place_after i rest
  end.

End Insertion.

Definition argsort_stable {K} (lt : K -> K -> bool) (keys : list K) : list nat :=
  fold_left (fun placed i => place_after lt keys i placed) (seq 0 (length keys)) [].

End Platform.

(** ** Concrete histories, caches and scanners *)

Module Scenario.

Import Analyzer.

Local Open Scope float_scope.

(** A daily bar on day [day]. *)
Definition daily_bar (day : nat) (o h l c : float) : Bar :=
  {| bar_time := Z.of_nat day * Platform.DAY_NS;
     bar_open := o; bar_high := h; bar_low := l; bar_close := c;
     bar_volume := 1000 |}.

(** An ordinary day: open 8, high 9, low 8, close 8.5; its range is 12.5. *)
Definition ordinary (day : nat) : Bar := daily_bar day 8 9 8 8.5.

(** A day without a price: every field is zero, and the range is 0/0. *)
Definition blank (day : nat) : Bar := daily_bar day 0 0 0 0.

(** A day whose open is reported as zero while the rest of the bar is
    ordinary: the range is 1/0 * 100. *)
Definition zero_open (day : nat) : Bar := daily_bar day 0 9 8 8.5.

Definition daily_history (bs : list Bar) : DataFrame :=
  {| datetime_index := true; bars := bs |}.

(** Five daily rows, of which three have a range. *)
Definition three_valid_rows : DataFrame :=
  daily_history [ordinary 0; blank 1; ordinary 2; blank 3; ordinary 4].

(** Five ordinary days. *)
Definition five_days : DataFrame := daily_history (map ordinary (seq 0 5)).

(** Nine daily rows, the last with a zero open. *)
Definition zero_open_history : DataFrame :=
  daily_history (map ordinary (seq 0 8) ++ [zero_open 8]).

(** Sixty and one hundred and eighty ordinary days. *)
Definition sixty_days : DataFrame := daily_history (map ordinary (seq 0 60)).
Definition half_year : DataFrame := daily_history (map ordinary (seq 0 180)).

(** The engine on the stand-ins of [Platform]. *)
Definition stats_of (data : DataFrame) (name : string) : option TickerStats :=
  compute_intraday_stats Platform.ln Platform.resample_B (Some data) name.

(** A fetcher that always answers with the same history. *)
Definition always (data : DataFrame) : string -> string -> option DataFrame :=
  fun _ _ => Some data.

(** Two tickers with the same history, hence with equal ranking keys. *)
Definition twins : list (option TickerStats) :=
  [stats_of five_days "AAA"; stats_of five_days "BBB"].

(** The frame of the today window for the two twins. *)
Definition twin_rows : list Row :=
  valid_rows (agg_all (aggregate_results twins ∅)) Wtoday.

(** *** Five-minute closes for the live scanner *)

Definition FIVE_MIN_NS : Z := 300 * 10 ^ 9.

Definition closes_history (closes : list float) : DataFrame :=
  {| datetime_index := true;
     bars :=
       imap (fun i c =>
               {| bar_time := Z.of_nat i * FIVE_MIN_NS;
                  bar_open := c; bar_high := c; bar_low := c; bar_close := c;
                  bar_volume := 1000 |})
            closes |}.

(** 106 closes: a halving, three round trips to four times the price, a
    long flat stretch, and a final doubling. The 105 log returns have mean
    zero and a standard deviation of half the last return. *)
Definition boundary_closes : list float :=
  [2; 1; 4; 1; 4; 1; 4; 1] ++ repeat 1 97 ++ [2].

(** The same history ending on a jump to sixteen times the price. *)
Definition spike_closes : list float :=
  [2; 1; 4; 1; 4; 1; 4; 1] ++ repeat 1 97 ++ [16].

(** 120 equal closes: every return is zero. *)
Definition flat_closes : list float := repeat 8 120.

(** 60 closes: too short a history. *)
Definition short_closes : list float := repeat 8 60.

Definition noon : Z := 12 * 3600 * 10 ^ 6.

Definition fresh_scanner : Scanner.VolatilityScanner :=
  {| Scanner.tickers := ["AAA"];
     Scanner.alert_history := ∅;
     Scanner.scan_count := 0;
     Scanner.alerts_sent := 0;
     Scanner.errors := 0 |}.

(** A scanner that alerted on AAA at noon. *)
Definition alerted_scanner : Scanner.VolatilityScanner :=
  {| Scanner.tickers := ["AAA"];
     Scanner.alert_history := {[ "AAA" := noon ]};
     Scanner.scan_count := 1;
     Scanner.alerts_sent := 1;
     Scanner.errors := 0 |}.

(** Three clock readings, [minutes] after noon. *)
Definition clock_after (minutes : Z) : Scanner.Clock :=
  let t := (noon + minutes * 60 * 10 ^ 6)%Z in
  {| Scanner.at_cooldown_check := t;
     Scanner.at_alert := (t + 1)%Z;
     Scanner.at_history_update := (t + 2)%Z |}.

End Scenario.

(** ** The properties, as predicates on the definitions above *)

Module Statements.

Import Analyzer.

(** The two shortest windows are present and the four longer ones absent. *)
Definition short_window_pattern (st : TickerStats) : Prop :=
  is_Some (today st) /\ is_Some (last_3_days st)
  /\ last_7_days st = None /\ last_30_days st = None
  /\ last_3_months st = None /\ last_1_year st = None.

(** With exactly three valid rows the engine returns a record with the
    short-window pattern. *)
Definition three_rows_give_short_windows
    (ln : float -> float) (resample_B : list Bar -> list Bar)
    (data : DataFrame) (name : string) : Prop :=
  length (filtered_daily ln resample_B data) = 3 ->
  exists st,
    compute_intraday_stats ln resample_B (Some data) name = Some st
    /\ short_window_pattern st.

(** Every window record of a ticker record holds finite numbers only. *)
Definition all_windows_finite (st : TickerStats) : Prop :=
  forall name w, (name, Some w) ∈ ticker_windows st -> window_all_finite w = true.

(** A window of a history is present: the engine returns a record, and the
    record has the window. *)
Definition window_present
    (ln : float -> float) (resample_B : list Bar -> list Bar)
    (data : DataFrame) (window : Window) : bool :=
  match compute_intraday_stats ln resample_B (Some data) "" with
  | Some st => bool_decide (is_Some (get_window st window))
  | None => false
  end.

(** *** Sorting contracts *)

Section Keys.

Context {K : Type}.
Variable lt : K -> K -> bool.

(** The key at position [i] is below the key at position [j]. *)
Definition below (keys : list K) (i j : nat) : bool :=
  match keys !! i, keys !! j with
  | Some a, Some b => lt a b
  | _, _ => false
  end.

(** What numpy promises of [argsort]: the positions of the array, each
    once, in an order in which no key is followed by a smaller one. *)
Definition sorts_ascending (argsort : list K -> list nat) : Prop :=
  forall keys,
    Permutation (argsort keys) (seq 0 (length keys))
    /\ Sorted (fun i j => below keys j i = false) (argsort keys).

(** What a stable sort promises besides: of two positions with keys of the
    same rank, the smaller comes first. *)
Definition stable (argsort : list K -> list nat) : Prop :=
  forall keys p q i j,
    argsort keys !! p = Some i -> argsort keys !! q = Some j ->
    p < q -> below keys i j = false -> i < j.

End Keys.

(** A frame whose rows are in non-increasing order of a key. *)
Definition descending {K} (lt : K -> K -> bool) (key : Row -> K) (df : list Row) : Prop :=
  Sorted (fun r1 r2 => lt (key r1) (key r2) = false) df.

(** Rows whose keys are present and of the same rank come in the order of
    their labels, the order in which the input listed them. *)
Definition ties_keep_order {K} (lt : K -> K -> bool) (isna : K -> bool)
    (key : Row -> K) (df : list Row) : Prop :=
  forall p q r1 r2,
    df !! p = Some r1 -> df !! q = Some r2 -> p < q ->
    isna (key r1) = false -> isna (key r2) = false ->
    lt (key r1) (key r2) = false -> lt (key r2) (key r1) = false ->
    row_label r1 < row_label r2.

(** A ranking holds the rows of its input, each once, in non-increasing
    order of the criterion. *)
Definition ranking_ordered {K} (lt : K -> K -> bool) (key : Row -> K)
    (input output : list Row) : Prop :=
  output ≡ₚ input /\ descending lt key output.

Definition no_key_missing : Z -> bool := fun _ => false.

(** The five rankings of a frame hold its rows in non-increasing order of
    their criteria. *)
Definition rankings_ordered
    (argsort_float : list float -> list nat) (argsort_int : list Z -> list nat)
    (df : list Row) : Prop :=
  ranking_ordered PrimFloat.ltb (float_column avg_intraday_range)
    df (highest_avg_range argsort_float df)
  /\ ranking_ordered PrimFloat.ltb (float_column consistency_score)
       (consistency_rows df) (most_consistent argsort_float df)
  /\ ranking_ordered Z.ltb (int_column swing_2pct_days)
       df (most_2pct_swings argsort_int df)
  /\ ranking_ordered Z.ltb (int_column swing_3pct_days)
       df (most_3pct_swings argsort_int df)
  /\ ranking_ordered Z.ltb (int_column extreme_move_days)
       df (most_extreme_moves argsort_int df).

(** The two rankings by a float criterion keep the order of ties. *)
Definition float_rankings_keep_ties
    (argsort_float : list float -> list nat) (df : list Row) : Prop :=
  ties_keep_order PrimFloat.ltb Np.isnan (float_column avg_intraday_range)
    (highest_avg_range argsort_float df)
  /\ ties_keep_order PrimFloat.ltb Np.isnan (float_column consistency_score)
       (most_consistent argsort_float df).

(** The three rankings by a counter keep the order of ties. *)
Definition int_rankings_keep_ties
    (argsort_int : list Z -> list nat) (df : list Row) : Prop :=
  ties_keep_order Z.ltb no_key_missing (int_column swing_2pct_days)
    (most_2pct_swings argsort_int df)
  /\ ties_keep_order Z.ltb no_key_missing (int_column swing_3pct_days)
       (most_3pct_swings argsort_int df)
  /\ ties_keep_order Z.ltb no_key_missing (int_column extreme_move_days)
       (most_extreme_moves argsort_int df).

(** *** Persistence *)

(** A window record with every number turned native. *)
Definition native_window (w : WindowStats) : WindowStats :=
  {| avg_intraday_range := native_num (avg_intraday_range w);
     std_intraday_range := native_num (std_intraday_range w);
     daily_std_dev := native_num (daily_std_dev w);
     median_intraday_range := native_num (median_intraday_range w);
     max_intraday_range := native_num (max_intraday_range w);
     min_intraday_range := native_num (min_intraday_range w);
     realized_volatility := native_num (realized_volatility w);
     consistency_score := native_num (consistency_score w);
     swing_2pct_days := native_num (swing_2pct_days w);
     swing_3pct_days := native_num (swing_3pct_days w);
     extreme_move_days := native_num (extreme_move_days w);
     ultra_extreme_move_days := native_num (ultra_extreme_move_days w);
     days_in_window := native_num (days_in_window w);
     std_dev_25th := native_num (std_dev_25th w);
     std_dev_50th := native_num (std_dev_50th w);
     std_dev_75th := native_num (std_dev_75th w);
     std_dev_90th := native_num (std_dev_90th w);
     std_dev_95th := native_num (std_dev_95th w);
     std_dev_99th := native_num (std_dev_99th w);
     min_range_pct := native_num (min_range_pct w);
     max_range_pct := native_num (max_range_pct w);
     range_spread_pct := native_num (range_spread_pct w) |}.

Definition native_ticker (s : TickerStats) : TickerStats :=
  {| ticker := ticker s;
     total_days := total_days s;
     today := native_window <$> today s;
     last_3_days := native_window <$> last_3_days s;
     last_7_days := native_window <$> last_7_days s;
     last_30_days := native_window <$> last_30_days s;
     last_3_months := native_window <$> last_3_months s;
     last_1_year := native_window <$> last_1_year s |}.

(** The in-memory cache of the orchestrator as the dictionary Python holds:
    one entry object per ticker. *)
Definition cache_obj (cache : list (string * (string * option TickerStats)))
  : list (string * pyval) :=
  map (fun e => (e.1, entry_obj e.2.1 e.2.2)) cache.

(** *** The live scanner *)

(** The log returns and the trailing window [compute_zscore] works on. *)
Definition log_returns_of (ln : float -> float) (data : DataFrame) : list float :=
  Np.diff (map (Np.log ln) (map bar_close (bars data))).

Definition recent_returns_of (ln : float -> float) (data : DataFrame) : list float :=
  let r := log_returns_of ln data in Np.lastn (Scanner.window_size r) r.

(** A sequence of later lookups of one ticker: for each, the two clock
    readings and the fetcher of the moment. *)
Definition Lookup : Type := Z * Z * (string -> string -> option DataFrame).

Definition lookup_with (ln : float -> float) (resample_B : list Bar -> list Bar)
    (name : string) (cache : option (gmap string CacheEntry)) (l : Lookup)
  : Processed :=
  process_ticker ln resample_B l.2 l.1.1 l.1.2 name cache.

(** *** The orchestrator's cache *)

(** The cache has no fresh entry for the ticker: none at all, or one whose
    age has reached the expiry. *)
Definition no_fresh_entry (cache : gmap string CacheEntry) (name : string)
    (now : Z) : Prop :=
  match cache !! name with
  | Some e => (CACHE_EXPIRY_US <= now - default T2000 (timestamp e))%Z
  | None => True
  end.

(** Later lookups of one ticker, one after the other, each on the cache the
    one before left. *)
Fixpoint lookups (ln : float -> float) (resample_B : list Bar -> list Bar)
    (name : string) (cache : option (gmap string CacheEntry))
    (later : list Lookup) : list Processed :=
  match later with
  | [] => []
  | l :: rest =>
    let p := lookup_with ln resample_B name cache l in
    p :: lookups ln resample_B name (cache_after p) rest
  end.

(** A history the Z-score cannot be taken from: none, fewer bars than
    [MIN_BARS_REQUIRED], fewer than 50 returns in the trailing window, or a
    trailing standard deviation that is zero or NaN. *)
Definition unusable_for_zscore (ln : float -> float) (data : option DataFrame) : Prop :=
  match data with
  | None => True
  | Some d =>
    length (bars d) < Scanner.MIN_BARS_REQUIRED
    \/ Scanner.window_size (log_returns_of ln d) < 50
    \/ (Np.std_ddof1 (recent_returns_of ln d) =? 0)%float = true
    \/ Np.isnan (Np.std_ddof1 (recent_returns_of ln d)) = true
  end.

(** The native counterpart of a Python value: numpy scalars become Python
    numbers of the same value, tuples become lists, the rest is kept. *)
Fixpoint native (v : pyval) : pyval :=
  match v with
  | PNum n => PNum (native_num n)
  | PList items | PTuple items => PList (map native items)
  | PDict entries => PDict (map (fun kv => (kv.1, native kv.2)) entries)
  | other => other
  end.

(** The cache with every number of every record turned native. *)
Definition native_cache (cache : list (string * (string * option TickerStats)))
  : list (string * (string * option TickerStats)) :=
  map (fun e => (e.1, (e.2.1, native_ticker <$> e.2.2))) cache.

(** A field after the round trip, against the field before: same name, same
    value, a native Python number, finite exactly when it was. *)
Definition field_preserved (before after : string * num) : Prop :=
  before.1 = after.1
  /\ same_value before.2 after.2
  /\ is_native after.2 = true
  /\ num_finite after.2 = num_finite before.2.

End Statements.

(** ** The scan cycle of the live scanner *)

Module ScannerLoop.

Import Analyzer Scanner.

Definition MAX_RETRIES : nat := 3.
Definition RETRY_DELAY : nat := 2.
Definition BATCH_SIZE : nat := 50.

(** [range(start, stop, step)] for a positive [step], as the loop runs
    through it: from [start], a step at a time, while below [stop]. *)
Fixpoint range_from (fuel start stop step : nat) : list nat :=
  match fuel with
  | O => []
  | S fuel' =>
    if (start <? stop)%nat
    then start :: range_from fuel' (start + step) stop step
    else []
  end.

Definition range (stop step : nat) : list nat := range_from stop 0 stop step.

(** The batches of [scan_cycle], and of the analyzer's [main] with its own
    size: [xs[i:i + size]] for [i] in [range(0, len(xs), size)]. *)
Definition batches {A} (size : nat) (xs : list A) : list (list A) :=
  map (fun i => take size (drop i xs)) (range (length xs) size).

(** The number of batches the progress line announces,
    [(len(xs) + size - 1) // size]. *)
Definition announced_batches {A} (size : nat) (xs : list A) : nat :=
  (length xs + size - 1) / size.

(** The pauses of [scan_cycle]: one second after each batch that is not the
    last, [if i + BATCH_SIZE < len(self.tickers)]. *)
Definition pauses {A} (size : nat) (xs : list A) : nat :=
  length (filter (fun i => i + size < length xs) (range (length xs) size)).

(** *** Fetching with retries: [get_intraday_data] *)

(** What the data provider gives for one request: an exception, or a frame
    with its column names. *)
Record History := {
  columns : list string;
  frame : DataFrame
}.

Inductive Attempt :=
  | Fails
  | Answers (h : History).

(** [data.empty]: no row, or no column. *)
Definition empty (h : History) : bool :=
  bool_decide (bars (frame h) = []) || bool_decide (columns h = []).

(** What [get_intraday_data] leaves behind: the value returned, the number
    of requests made, and the pauses taken, in seconds. *)
Record Fetch := {
  fetch_result : option DataFrame;
  requests : nat;
  sleeps : list nat
}.

(** The loop [for attempt in range(MAX_RETRIES)], from [attempt] on, with
    [left] rounds to go. [provider attempt] is what the provider does at
    the request of that round. *)
Fixpoint retry_from (provider : nat -> Attempt) (attempt left : nat) : Fetch :=
  match left with
  | O => {| fetch_result := None; requests := 0; sleeps := [] |}
  | S left' =>
    match provider attempt with
    | Answers h =>
      {| fetch_result :=
           if empty h then None
           else if bool_decide ("Close" ∈ columns h) then Some (frame h)
           else None;
         requests := 1;
         sleeps := [] |}
    | Fails =>
      if (attempt <? MAX_RETRIES - 1)%nat then
        let rest := retry_from provider (S attempt) left' in
        {| fetch_result := fetch_result rest;
           requests := S (requests rest);
           sleeps := RETRY_DELAY * (attempt + 1) :: sleeps rest |}
      else {| fetch_result := None; requests := 1; sleeps := [] |}
    end
  end.

Definition get_intraday_data (provider : nat -> Attempt) : Fetch :=
  retry_from provider 0 MAX_RETRIES.

(** *** A batch: [process_ticker_batch] *)

(** One coroutine of a batch: its ticker, and what its fetch gives. *)
Abbreviation Call := (string * Fetched)%type.

Section Batch.

Variable ln : float -> float.

(** [clocks k]: the readings of [datetime.now()] of the coroutine that is
    the [k]-th of the batch to get past its fetch. The clock is read when
    the coroutine runs, not when the batch is made. *)
Variable clocks : nat -> Clock.

(** One turn: the coroutine at position [i] of the batch is the [k]-th to
    run, on the scanner as the turns before it left it; its result is kept
    under its position. *)
Definition run_call (calls : list Call)
    (state : gmap nat (option Alert) * VolatilityScanner) (turn : nat * nat)
  : gmap nat (option Alert) * VolatilityScanner :=
  let (k, i) := turn in
  match calls !! i with
  | Some (ticker, fetch) =>
    let (result, self') := process_ticker ln state.2 fetch (clocks k) ticker in
    (<[i := result]> state.1, self')
  | None => state
  end.

(** [process_ticker_batch(tickers)]. [asyncio.gather] starts one coroutine
    per ticker; a coroutine gives up control only while its fetch waits
    between two attempts, and runs from the answer of its fetch to its end
    in one go, reading the clock on its way. [order] lists the positions of
    the batch in the order in which the coroutines get past their fetch.
    The results come back in the order of the batch, and the alerts are
    those that are not [None]; no result is an exception, since
    [process_ticker] catches its own. *)
Definition process_ticker_batch (self : VolatilityScanner) (calls : list Call)
    (order : list nat) : list Alert * VolatilityScanner :=
  let (results, self') :=
    fold_left (run_call calls) (imap (fun k i => (k, i)) order) (∅, self) in
  (omap (fun i => results !! i ≫= id) (seq 0 (length calls)), self').

End Batch.

(** *** The end of a cycle: old entries leave the ledger *)

(** [timedelta(hours=ALERT_COOLDOWN_HOURS + 1)], in microseconds. *)
Definition CLEANUP_AGE_US : Z := (ALERT_COOLDOWN_HOURS + 1) * 3600 * 10 ^ 6.

(** [{k: v for k, v in self.alert_history.items() if v > cutoff_time}] with
    [cutoff_time = datetime.now() - timedelta(hours=ALERT_COOLDOWN_HOURS + 1)]. *)
Definition cleanup_alert_history (now : Z) (self : VolatilityScanner)
  : VolatilityScanner :=
  let cutoff_time := (now - CLEANUP_AGE_US)%Z in
  {| tickers := tickers self;
     alert_history :=
       filter (fun kv : string * Z => (cutoff_time < kv.2)%Z) (alert_history self);
     scan_count := scan_count self;
     alerts_sent := alerts_sent self;
     errors := errors self |}.

End ScannerLoop.

(** ** The analyzer's fetcher and its exports *)

Module AnalyzerIO.

Import Analyzer ScannerLoop.

(** A request to the data provider, [yf_ticker.history(interval=...,
    period=...)]; the daily request names no interval. *)
Record Request := {
  interval : option string;
  period : string
}.

(** What [get_intraday_data] leaves behind: the value returned and the
    requests made, in order. *)
Record Download := {
  downloaded : option DataFrame;
  asked : list Request
}.

Definition REQUIRED_COLS : list string := ["Open"; "High"; "Low"; "Close"].

(** [get_intraday_data(ticker, period)], for one ticker, once [yf.Ticker]
    has built its object: five-minute bars first, over at most 60 days;
    daily bars of the period asked for when that request raises or comes
    back empty. A request that raises counts as an empty frame. *)
Definition get_intraday_data (history : Request -> Attempt) (period : string)
  : Download :=
  let intraday_period :=
    if bool_decide (period ∈ ["2mo"; "3mo"]) then "60d" else period in
  let intraday := {| interval := Some "5m"; period := intraday_period |} in
  let daily := {| interval := None; period := period |} in
  let checked (h : History) :=
    if forallb (fun col => bool_decide (col ∈ columns h)) REQUIRED_COLS
    then Some (frame h) else None in
  let first :=
    match history intraday with
    | Answers h => if empty h then None else Some h
    | Fails => None
    end in
  match first with
  | Some h => {| downloaded := checked h; asked := [intraday] |}
  | None =>
    {| downloaded :=
         match history daily with
         | Answers h => if empty h then None else checked h
         | Fails => None
         end;
       asked := [intraday; daily] |}
  end.

(** *** The files of the rankings *)

(** The windows [main] ranks, under their names. *)
Definition window_name (window : Window) : string :=
  match window with
  | Wtoday => "today"
  | Wlast_3_days => "last_3_days"
  | Wlast_7_days => "last_7_days"
  | Wlast_30_days => "last_30_days"
  | Wlast_3_months => "last_3_months"
  | Wlast_1_year => "last_1_year"
  end.

Definition WINDOWS : list Window :=
  [Wtoday; Wlast_3_days; Wlast_7_days; Wlast_30_days; Wlast_3_months; Wlast_1_year].

(** [os.path.join(output_dir, filename)] for a relative file name, on a
    system whose separator is the slash. *)
Definition path_join (output_dir filename : string) : string :=
  if String.eqb output_dir "" then filename
  else if String.eqb (String.substring (String.length output_dir - 1) 1 output_dir) "/"
       then output_dir +:+ filename
       else output_dir +:+ "/" +:+ filename.

(** [f"{category}_{ranking_type}_{window}.csv"] *)
Definition csv_name (category ranking_type window : string) : string :=
  category +:+ "_" +:+ ranking_type +:+ "_" +:+ window +:+ ".csv".

(** [rankings[category]] *)
Definition lookup_key {V} (key : string) (d : list (string * V)) : option V :=
  snd <$> List.find (fun kv => String.eqb kv.1 key) d.

(** [df.empty]: no row, or no column. *)
Definition table_empty (df : Table) : bool :=
  match df with
  | [] => true
  | (_, cells) :: _ => match cells with [] => true | _ :: _ => false end
  end.

(** [export_to_csv(rankings, window, output_dir)]: the files written, each
    with the table it holds. *)
Definition export_to_csv (rankings : list (string * list (string * Table)))
    (window : string) (output_dir : string) : list (string * Table) :=
  flat_map
    (fun category =>
       match lookup_key category rankings with
       | None => []
       | Some cat_rankings =>
         omap (fun entry : string * Table =>
                 if table_empty entry.2 then None
                 else Some (path_join output_dir (csv_name category entry.1 window),
                            entry.2))
              cat_rankings
       end)
    ["all"; "stocks"; "etfs"].

(** The files the dashboard looks for ([load_cached_results] of [app.py]),
    each with the window, the category and the ranking it is read as. *)
Definition dashboard_files : list (string * (string * string * string)) :=
  flat_map
    (fun window =>
       flat_map
         (fun category =>
            map (fun ranking_type =>
                   ("output/" +:+ category +:+ "_" +:+ ranking_type +:+ "_"
                    +:+ window +:+ ".csv",
                    (window, category, ranking_type)))
                [ "highest_avg_range"; "most_consistent"; "most_2pct_swings";
                  "most_3pct_swings"; "most_extreme_moves" ])
         ["all"; "stocks"; "etfs"])
    [ "today"; "last_3_days"; "last_7_days"; "last_30_days";
      "last_3_months"; "last_1_year" ].

End AnalyzerIO.

(** ** The insights drawn from the metrics ([ai_analysis.py]) *)

Module Insights.

Import Analyzer AnalyzerIO.

(** A metrics dictionary: the entries of a table row, by column name. *)
Definition Metrics : Type := list (string * cell).

(** A trading signal and the analysis dictionary. *)
Record Signal := {
  signal_type : string;
  strength : string;
  signal : string;
  action : string
}.

Record Analysis := {
  analysis_ticker : string;
  analysis_window : string;
  risk_assessment : string;
  volatility_profile : string;
  trading_signals : list Signal;
  key_insights : list string;
  warnings : list string;
  opportunities : list string
}.

(** [metrics.get(key, 0)] *)
Definition get (metrics : Metrics) (key : string) : cell :=
  default (CNum (PyInt 0)) (lookup_key key metrics).

(** The number a value is used as; a text has none, and the comparison or
    the product that meets one raises. *)
Definition number (c : cell) : option num :=
  match c with
  | CNum n => Some n
  | CStr _ => None
  end.

(** [a > b] and [a < b] on numbers, through their binary64 values: exact
    for floats and for integers up to 2 ^ 53, which the counters of a
    window are far below. *)
Definition gt (a b : float) : bool := (b <? a)%float.
Definition lt (a b : float) : bool := (a <? b)%float.

(** [0.1] and [0.3]: the binary64 values nearest to them. *)
Definition ONE_TENTH : float := 0x1.999999999999ap-4.
Definition THREE_TENTHS : float := 0x1.3333333333333p-2.

Section Analysis.

Local Open Scope float_scope.

(** [format(value, spec)], as an f-string applies it: [".2f"], [".1f"], or
    the empty specification. *)
Variable format : string -> num -> string.

(** [analyze_ticker_metrics(ticker, metrics, window)]. [None] stands for
    the [TypeError] Python raises when a value it computes with is a text:
    the six values it always compares, and the three counts it looks at
    when [days_in_window > 0]. *)
Definition analyze_ticker_metrics (ticker : string) (metrics : Metrics)
    (window : string) : option Analysis :=
  match metrics with
  | [] =>
    Some {| analysis_ticker := ticker; analysis_window := window;
            risk_assessment := ""; volatility_profile := "";
            trading_signals := []; key_insights := [];
            warnings := []; opportunities := [] |}
  | _ :: _ =>
    avg ← number (get metrics "avg_intraday_range");
    std ← number (get metrics "std_intraday_range");
    cons ← number (get metrics "consistency_score");
    ultra ← number (get metrics "ultra_extreme_move_days");
    realized ← number (get metrics "realized_volatility");
    days ← number (get metrics "days_in_window");
    let avg_range := num_float avg in
    let std_range := num_float std in
    let consistency := num_float cons in
    let ultra_extreme := num_float ultra in
    let realized_vol := num_float realized in
    let days_in_window := num_float days in
    let counted := gt days_in_window 0 in
    counts ←
      (if counted then
         swing2 ← number (get metrics "swing_2pct_days");
         swing3 ← number (get metrics "swing_3pct_days");
         extreme ← number (get metrics "extreme_move_days");
         Some (swing2, swing3, extreme)
       else Some (PyInt 0, PyInt 0, PyInt 0));
    let '(swing2, swing3, extreme) := counts in
    let swing_2pct := num_float swing2 in
    let swing_3pct := num_float swing3 in
    let extreme_days := num_float extreme in
    let risk : string * list string * list string :=
      if gt avg_range 5 then
        ("VERY HIGH - Extreme volatility",
         ["⚠️ This ticker exhibits extreme intraday volatility (>5% avg range). High risk of significant price swings."],
         [])
      else if gt avg_range 3 then
        ("HIGH - Elevated volatility",
         ["⚠️ Elevated volatility detected. Monitor closely for sudden moves."],
         [])
      else if gt avg_range 1.5 then
        ("MODERATE - Normal volatility", [], [])
      else
        ("LOW - Stable price action",
         [],
         ["✅ Low volatility suggests stable price action. Suitable for conservative strategies."]) in
    let profile : string * list string * list string :=
      if gt consistency 5 then
        ("CONSISTENT - Predictable volatility patterns",
         ["📊 High consistency score (" +:+ format ".2f" cons +:+ ") indicates predictable volatility patterns. Good for systematic trading strategies."],
         [])
      else if gt consistency 2 then
        ("MODERATELY CONSISTENT - Some predictability", [], [])
      else
        ("INCONSISTENT - Unpredictable volatility",
         [],
         ["⚠️ Low consistency indicates unpredictable volatility. Difficult to model or predict."]) in
    let pct_swing := swing_2pct / days_in_window * 100 in
    let pct_extreme := extreme_days / days_in_window * 100 in
    let signals :=
      (if counted && gt swing_2pct (days_in_window * 0.5) then
         [ {| signal_type := "SWING_TRADING"; strength := "STRONG";
              signal := "🔄 Strong swing trading opportunity: " +:+ format "" swing2 +:+ "/" +:+ format "" days
                        +:+ " days with >2% swings (" +:+ format ".1f" (PyFloat pct_swing) +:+ "%)";
              action := "Consider swing trading strategies. High probability of daily 2%+ moves." |} ]
       else [])
      ++ (if counted && gt extreme_days (days_in_window * ONE_TENTH) then
            [ {| signal_type := "EXTREME_MOVE"; strength := "MODERATE";
                 signal := "⚡ Extreme move frequency: " +:+ format "" extreme +:+ " days with >2σ moves ("
                           +:+ format ".1f" (PyFloat pct_extreme) +:+ "%)";
                 action := "Monitor for breakout/breakdown opportunities. Set wider stop-losses." |} ]
          else [])
      ++ (if gt consistency 4 && gt avg_range 2 then
            [ {| signal_type := "MEAN_REVERSION"; strength := "STRONG";
                 signal := "📈 High consistency (" +:+ format ".2f" cons +:+ ") with moderate volatility ("
                           +:+ format ".2f" avg +:+ "%)";
                 action := "Mean reversion strategies may work well. Price tends to revert to average range." |} ]
          else [])
      ++ (if lt avg_range 1 && gt consistency 3 then
            [ {| signal_type := "LOW_VOLATILITY"; strength := "MODERATE";
                 signal := "📉 Low volatility (" +:+ format ".2f" avg +:+ "%) with high consistency";
                 action := "Suitable for income strategies (covered calls, cash-secured puts). Low risk of large moves." |} ]
          else [])
      ++ (if counted && gt avg_range 4 && gt swing_3pct (days_in_window * THREE_TENTHS) then
            [ {| signal_type := "MOMENTUM"; strength := "STRONG";
                 signal := "🚀 High momentum volatility: " +:+ format ".2f" avg +:+ "% avg range, "
                           +:+ format "" swing3 +:+ " days with >3% swings";
                 action := "Momentum trading strategies recommended. High probability of continuation moves." |} ]
          else []) in
    let pct_2pct_days := swing_2pct / days_in_window * 100 in
    let pct_3pct_days := swing_3pct / days_in_window * 100 in
    let insights :=
      (if gt realized_vol 50 then
         ["📊 High realized volatility (" +:+ format ".1f" realized +:+ "% annualized) suggests significant price uncertainty."]
       else [])
      ++ (if gt ultra_extreme 0 then
            ["⚡ " +:+ format "" ultra +:+ " ultra-extreme move days (>3σ) detected. These are rare events indicating major market shifts."]
          else [])
      ++ (if gt std_range (avg_range * 0.5) then
            ["📈 High standard deviation (" +:+ format ".2f" std +:+ "%) relative to average ("
             +:+ format ".2f" avg +:+ "%) indicates variable volatility."]
          else [])
      ++ (if counted then
            (if gt pct_2pct_days 70 then
               ["🔄 Very active: " +:+ format ".1f" (PyFloat pct_2pct_days) +:+ "% of days have >2% swings. High trading activity expected."]
             else [])
            ++ (if gt pct_3pct_days 40 then
                  ["⚡ Extremely active: " +:+ format ".1f" (PyFloat pct_3pct_days) +:+ "% of days have >3% swings. Major moves are common."]
                else [])
          else []) in
    Some {| analysis_ticker := ticker;
            analysis_window := window;
            risk_assessment := risk.1.1;
            volatility_profile := profile.1.1;
            trading_signals := signals;
            key_insights := profile.1.2 ++ insights;
            warnings := risk.1.2 ++ profile.2;
            opportunities := risk.2 |}
  end.

End Analysis.

End Insights.

(** ** The dashboard's view of a ticker ([app.py]) *)

Module Dashboard.

Import Analyzer AnalyzerIO Insights.

(** A ranking table as read back from its file: the column names, and the
    rows, each with one cell per column. *)
Record Frame := {
  frame_columns : list string;
  frame_rows : list (list cell)
}.

(** [results[window][category][ranking_type]] *)
Definition Results : Type :=
  list (string * list (string * list (string * Frame))).

(** [d[k] = v] on a dictionary: the value is replaced where the key is,
    and the entry is added at the end where it is not. *)
Definition dict_set {V} (d : list (string * V)) (k : string) (v : V)
  : list (string * V) :=
  if existsb (fun kv => String.eqb kv.1 k) d
  then map (fun kv => if String.eqb kv.1 k then (k, v) else kv) d
  else d ++ [(k, v)].

(** [d.update(other)] *)
Definition dict_update {V} (d other : list (string * V)) : list (string * V) :=
  fold_left (fun acc kv => dict_set acc kv.1 kv.2) other d.

(** [df.empty] *)
Definition frame_empty (df : Frame) : bool :=
  match frame_rows df, frame_columns df with
  | [], _ | _, [] => true
  | _, _ => false
  end.

(** [row.to_dict()] *)
Definition to_dict (df : Frame) (row : list cell) : Metrics :=
  zip (frame_columns df) row.

(** [df[df['ticker'] == ticker]] *)
Definition rows_of (ticker : string) (df : Frame) : list (list cell) :=
  List.filter
    (fun row =>
       match lookup_key "ticker" (to_dict df row) with
       | Some (CStr t) => String.eqb t ticker
       | _ => false
       end)
    (frame_rows df).

(** The body of the inner loop of [get_ticker_metrics], for one table. *)
Definition note_table (ticker : string) (found : list (string * Metrics))
    (entry : string * Frame) : list (string * Metrics) :=
  let (ranking_type, df) := entry in
  if negb (frame_empty df) && bool_decide ("ticker" ∈ frame_columns df) then
    match rows_of ticker df with
    | row :: _ => dict_set found ranking_type (to_dict df row)
    | [] => found
    end
  else found.

(** [get_ticker_metrics(ticker, results)]: for each window, the row of the
    ticker in each ranking, the last category that has it winning. *)
Definition get_ticker_metrics (ticker : string) (results : Results)
  : list (string * list (string * Metrics)) :=
  map (fun by_window : string * list (string * list (string * Frame)) =>
         (by_window.1,
          fold_left
            (fun found (by_category : string * list (string * Frame)) =>
               fold_left (note_table ticker) by_category.2 found)
            by_window.2 []))
      results.

(** [all_metrics], as the ticker tabs build it: the rows of the rankings
    merged into one dictionary. *)
Definition all_metrics (metrics_dict : list (string * Metrics)) : Metrics :=
  fold_left (fun acc ranking_data => dict_update acc ranking_data)
            (map snd metrics_dict) [].

End Dashboard.

(** ** Further properties, as predicates *)

Module Properties.

Import Analyzer Scanner.

(** The fields of a window record that the engine checks before it emits
    them, and its counters. *)
Definition checked_fields (w : WindowStats) : list num :=
  [ avg_intraday_range w; std_intraday_range w; daily_std_dev w;
    realized_volatility w; consistency_score w;
    swing_2pct_days w; swing_3pct_days w;
    extreme_move_days w; ultra_extreme_move_days w; days_in_window w;
    std_dev_25th w; std_dev_50th w; std_dev_75th w;
    std_dev_90th w; std_dev_95th w; std_dev_99th w ].

(** The number of valid rows from which a window is computed, and the
    number of trailing rows it is cut to. *)
Definition window_threshold (window : Window) : nat :=
  match window with
  | Wtoday => 1 | Wlast_3_days => 3 | Wlast_7_days => 7
  | Wlast_30_days => 30 | Wlast_3_months => 60 | Wlast_1_year => 180
  end.

Definition window_length (window : Window) : nat :=
  match window with
  | Wtoday => 1 | Wlast_3_days => 3 | Wlast_7_days => 7
  | Wlast_30_days => 30 | Wlast_3_months => 90 | Wlast_1_year => 252
  end.

(** A record the engine returned for some history. *)
Definition engine_record (ln : float -> float) (resample_B : list Bar -> list Bar)
    (st : TickerStats) : Prop :=
  exists data name, compute_intraday_stats ln resample_B (Some data) name = Some st.

(** Between two states of the cache, no entry but that of [name] differs;
    a call made without a cache leaves none behind. *)
Definition only_entry_written (name : string)
    (before after : option (gmap string CacheEntry)) : Prop :=
  match before, after with
  | None, None => True
  | Some c, Some c' => forall other, other <> name -> c' !! other = c !! other
  | _, _ => False
  end.

(** The names of the categories and of the five rankings, in the order the
    ranker goes through them. *)
Definition CATEGORIES : list string := ["all"; "stocks"; "etfs"].

Definition RANKING_TYPES : list string :=
  [ "highest_avg_range"; "most_consistent"; "most_2pct_swings";
    "most_3pct_swings"; "most_extreme_moves" ].

(** The columns of each ranking table, in order. *)
Definition ranking_columns (ranking_type : string) : list string :=
  if String.eqb ranking_type "highest_avg_range" then
    ["ticker"; "avg_intraday_range"; "std_intraday_range"; "consistency_score";
     "swing_2pct_days"; "swing_3pct_days"; "extreme_move_days"]
  else if String.eqb ranking_type "most_consistent" then
    ["ticker"; "consistency_score"; "avg_intraday_range"; "std_intraday_range";
     "swing_2pct_days"; "swing_3pct_days"]
  else if String.eqb ranking_type "most_2pct_swings" then
    ["ticker"; "swing_2pct_days"; "swing_3pct_days"; "avg_intraday_range";
     "extreme_move_days"; "days_in_window"]
  else if String.eqb ranking_type "most_3pct_swings" then
    ["ticker"; "swing_3pct_days"; "swing_2pct_days"; "avg_intraday_range";
     "extreme_move_days"; "days_in_window"]
  else if String.eqb ranking_type "most_extreme_moves" then
    ["ticker"; "extreme_move_days"; "avg_intraday_range"; "std_intraday_range";
     "swing_2pct_days"; "swing_3pct_days"]
  else [].

(** The records of a category. *)
Definition category_stats (agg : Aggregated) (category : string) : list TickerStats :=
  if String.eqb category "all" then agg_all agg
  else if String.eqb category "stocks" then agg_stocks agg
  else if String.eqb category "etfs" then agg_etfs agg
  else [].

(** A value made of Python's own types only: no numpy scalar, no tuple. *)
Fixpoint plain (v : pyval) : bool :=
  match v with
  | PNum n => is_native n
  | PTuple _ => false
  | PList items => forallb plain items
  | PDict entries => forallb (fun kv => plain kv.2) entries
  | _ => true
  end.

(** A close that has no logarithm: NaN or below zero. *)
Definition bad_close (c : float) : bool := Np.isnan c || (c <? 0)%float.

(** The closes behind the trailing returns: one more than there are
    returns in the window. *)
Definition recent_closes_of (ln : float -> float) (data : DataFrame) : list float :=
  Np.lastn (S (window_size (Statements.log_returns_of ln data)))
           (map bar_close (bars data)).

(** The labels of the analysis. *)
Definition RISK_VERY_HIGH : string := "VERY HIGH - Extreme volatility".
Definition RISK_HIGH : string := "HIGH - Elevated volatility".
Definition RISK_MODERATE : string := "MODERATE - Normal volatility".
Definition RISK_LOW : string := "LOW - Stable price action".
Definition PROFILE_CONSISTENT : string :=
  "CONSISTENT - Predictable volatility patterns".
Definition PROFILE_MODERATE : string :=
  "MODERATELY CONSISTENT - Some predictability".
Definition PROFILE_INCONSISTENT : string :=
  "INCONSISTENT - Unpredictable volatility".

Definition SIGNAL_TYPES : list string :=
  ["SWING_TRADING"; "EXTREME_MOVE"; "MEAN_REVERSION"; "LOW_VOLATILITY"; "MOMENTUM"].

(** The types of the trading signals of an analysis, in order. *)
Definition signal_types (a : Insights.Analysis) : list string :=
  map Insights.signal_type (Insights.trading_signals a).

(** The integers of a metrics dictionary are counts that binary64 holds
    exactly, as the counters of a window are: on these the comparisons and
    the products of [Insights] are those of Python. *)
Definition exact_integers (metrics : Insights.Metrics) : Prop :=
  Forall (fun kv : string * cell =>
            match kv.2 with
            | CNum (PyInt z) | CNum (NpInt64 z) => (Z.abs z <= 2 ^ 53)%Z
            | _ => True
            end)
         metrics.

(** The average range of a metrics dictionary is unknown: the entry is
    missing, or holds NaN. *)
Definition average_unknown (metrics : Insights.Metrics) : Prop :=
  AnalyzerIO.lookup_key "avg_intraday_range" metrics = None
  \/ exists n, AnalyzerIO.lookup_key "avg_intraday_range" metrics = Some (CNum n)
               /\ Np.isnan (num_float n) = true.

(** The columns the five ranking tables have between them. *)
Definition RANKING_COLUMNS : list string :=
  [ "ticker"; "avg_intraday_range"; "std_intraday_range"; "consistency_score";
    "swing_2pct_days"; "swing_3pct_days"; "extreme_move_days"; "days_in_window" ].

(** The fields of a window record that no ranking table has. *)
Definition UNRANKED_FIELDS : list string :=
  [ "daily_std_dev"; "median_intraday_range"; "max_intraday_range";
    "min_intraday_range"; "realized_volatility"; "ultra_extreme_move_days";
    "std_dev_25th"; "std_dev_50th"; "std_dev_75th"; "std_dev_90th";
    "std_dev_95th"; "std_dev_99th"; "min_range_pct"; "max_range_pct";
    "range_spread_pct" ].

(** A dictionary whose keys are columns of the ranking tables. *)
Definition within_rankings (m : Insights.Metrics) : Prop :=
  Forall (fun kv : string * cell => kv.1 ∈ RANKING_COLUMNS) m.

(** Every table of the results is laid out as one of the five rankings. *)
Definition ranking_layouts (results : Dashboard.Results) : Prop :=
  forall window categories category rankings ranking_type df,
    (window, categories) ∈ results ->
    (category, rankings) ∈ categories ->
    (ranking_type, df) ∈ rankings ->
    exists layout, layout ∈ RANKING_TYPES
                   /\ Dashboard.frame_columns df = ranking_columns layout.

(** The alert a call of [process_ticker] returns, given what the ledger
    holds for its ticker. *)
Definition verdict (ln : float -> float) (fetch : Fetched) (clock : Clock)
    (ticker : string) (last_alert : option Z) : option Alert :=
  match fetch with
  | Returned (Some data) =>
    match compute_zscore ln (Some data) with
    | Some (zscore, percent_move, stats) =>
      if (Z_SCORE_THRESHOLD <? abs zscore)%float
         && negb (from_option
                    (fun t => (at_cooldown_check clock - t <? ALERT_COOLDOWN_US)%Z)
                    false last_alert)
      then Some {| alert_ticker := ticker;
                   alert_zscore := zscore;
                   alert_percent_move := percent_move;
                   alert_stats := stats;
                   alert_timestamp := at_alert clock |}
      else None
    | None => None
    end
  | _ => None
  end.

(** The coroutines of a batch whose fetch raised. *)
Definition raised (call : ScannerLoop.Call) : bool :=
  match call.2 with
  | Raised => true
  | Returned _ => false
  end.

(** What the call leaves of the scanner: an error counted when the fetch
    raised, the time of the alert recorded when there is one. *)
Definition aftermath (fetch : Fetched) (clock : Clock) (ticker : string)
    (alert : option Alert) (self : VolatilityScanner) : VolatilityScanner :=
  {| tickers := tickers self;
     alert_history :=
       match alert with
       | Some _ => <[ticker := at_history_update clock]> (alert_history self)
       | None => alert_history self
       end;
     scan_count := scan_count self;
     alerts_sent := alerts_sent self;
     errors :=
       match fetch with
       | Raised => S (errors self)
       | Returned _ => errors self
       end |}.

End Properties.


(** ** Further histories, caches and dictionaries *)

Module Examples.

Import Analyzer Scanner ScannerLoop AnalyzerIO Insights Dashboard.

Local Open Scope float_scope.

(** The records of the two twins. *)
Definition twin_records : list TickerStats := omap id Scenario.twins.

(** A cache whose entry for AAA was written at noon. *)
Definition noon_cache : gmap string CacheEntry :=
  {[ "AAA" := {| timestamp := Some Scenario.noon;
                 stats := Scenario.stats_of Scenario.five_days "AAA" |} ]}.

(** A provider that is down. *)
Definition no_answer : string -> string -> option DataFrame := fun _ _ => None.

(** One hour, in microseconds. *)
Definition HOUR_US : Z := 3600 * 10 ^ 6.

(** 112 closes, the last but one negative. *)
Definition negative_closes : list float := repeat 8 110 ++ [-8; 8].

(** Two coroutines of a batch, for two tickers with the spike history,
    and the clock of a batch that starts at noon: the coroutine that is the
    [k]-th to run reads it [k] minutes later. *)
Definition two_calls : list Call :=
  [ ("AAA", Returned (Some (Scenario.closes_history Scenario.spike_closes)));
    ("BBB", Returned (Some (Scenario.closes_history Scenario.spike_closes))) ].

Definition minute_clocks (k : nat) : Clock := Scenario.clock_after (Z.of_nat k).

(** A formatter that prints nothing. *)
Definition no_format : string -> num -> string := fun _ _ => "".

(** A row with a wide average range and many 3% days. *)
Definition busy_metrics : Metrics :=
  [ ("ticker", CStr "AAA");
    ("avg_intraday_range", CNum (NpFloat64 6));
    ("consistency_score", CNum (NpFloat64 1));
    ("swing_3pct_days", CNum (PyInt 4));
    ("days_in_window", CNum (PyInt 7)) ].

(** A row without an average range. *)
Definition bare_metrics : Metrics :=
  [ ("ticker", CStr "AAA"); ("consistency_score", CNum (NpFloat64 6)) ].

(** The results of one table: the highest-average ranking of all tickers
    for today, with one row. *)
Definition one_table : Results :=
  [ ("today",
     [ ("all",
        [ ("highest_avg_range",
           {| frame_columns :=
                ["ticker"; "avg_intraday_range"; "std_intraday_range";
                 "consistency_score"; "swing_2pct_days"; "swing_3pct_days";
                 "extreme_move_days"];
              frame_rows :=
                [ [ CStr "AAA"; CNum (PyFloat 6); CNum (PyFloat 1);
                    CNum (PyFloat 6); CNum (PyInt 5); CNum (PyInt 4);
                    CNum (PyInt 0) ] ] |}) ]) ]) ].

End Examples.

(** ** The window statistics engine: which windows a history gets *)

Module EngineFacts.

Import Analyzer Statements.

Section Engine.

Variable ln : float -> float.
Variable resample_B : list Bar -> list Bar.

Abbreviation filtered := (filtered_daily ln resample_B).
Abbreviation compute := (compute_intraday_stats ln resample_B).

(** The window record of a non-empty slice exists and counts its rows. *)
Lemma window_stats_present (rows : list DailyRow) :
  rows <> [] ->
  exists w, _compute_window_stats rows = Some w
            /\ days_in_window w = PyInt (Z.of_nat (length rows)).
Proof.
  destruct rows as [|r rows]; [congruence|].
  intros _. eexists. split; reflexivity.
Qed.

Lemma lastn_length {A} (n : nat) (l : list A) :
  length (Np.lastn n l) = Nat.min n (length l).
Proof. unfold Np.lastn. rewrite length_drop. lia. Qed.

Lemma lastn_nonempty {A} (n : nat) (l : list A) :
  0 < n -> l <> [] -> Np.lastn n l <> [].
Proof.
  intros Hn Hl Heq. apply (f_equal length) in Heq.
  rewrite lastn_length in Heq. destruct l; [congruence|]. simpl in Heq. lia.
Qed.

(** The first two guards pass as soon as five rows survive the filter,
    provided the resampling makes no row up. *)
Lemma filtered_le_daily (data : DataFrame) :
  length (filtered data) <= length (to_daily resample_B data).
Proof.
  unfold filtered_daily, dropna_range, add_columns.
  etransitivity; [apply length_filter|].
  rewrite length_zip_with. lia.
Qed.

(** What the engine returns, in terms of the filtered daily series. *)
Lemma compute_intraday_stats_some (data : DataFrame) (name : string) (st : TickerStats) :
  compute (Some data) name = Some st ->
  let fd := filtered data in
  MIN_DAYS_REQUIRED <= length fd
  /\ ticker st = name
  /\ total_days st = length fd
  /\ today st = _compute_window_stats (Np.lastn 1 fd)
  /\ last_3_days st = _compute_window_stats (Np.lastn 3 fd)
  /\ last_7_days st =
       (if (7 <=? length fd)%nat then _compute_window_stats (Np.lastn 7 fd) else None)
  /\ last_30_days st =
       (if (30 <=? length fd)%nat then _compute_window_stats (Np.lastn 30 fd) else None)
  /\ last_3_months st =
       (if (60 <=? length fd)%nat then _compute_window_stats (Np.lastn 90 fd) else None)
  /\ last_1_year st =
       (if (180 <=? length fd)%nat then _compute_window_stats (Np.lastn 252 fd) else None).
Proof.
  unfold compute_intraday_stats. fold (filtered data).
  destruct (length (bars data) <? MIN_DAYS_REQUIRED)%nat; [discriminate|].
  destruct (length (to_daily resample_B data) <? MIN_DAYS_REQUIRED)%nat; [discriminate|].
  destruct (length (filtered data) <? MIN_DAYS_REQUIRED)%nat eqn:Hlen; [discriminate|].
  apply Nat.ltb_ge in Hlen. unfold MIN_DAYS_REQUIRED in *.
  assert ((0 <? length (filtered data))%nat = true) as -> by (apply Nat.ltb_lt; lia).
  assert ((3 <=? length (filtered data))%nat = true) as -> by (apply Nat.leb_le; lia).
  intros [= <-]. cbn [ticker total_days today last_3_days last_7_days
                      last_30_days last_3_months last_1_year].
  repeat split; try reflexivity. exact Hlen.
Qed.

(** Below five valid rows there is no record at all. *)
Lemma compute_intraday_stats_too_short (data : DataFrame) (name : string) :
  length (filtered data) < MIN_DAYS_REQUIRED -> compute (Some data) name = None.
Proof.
  intros Hlen. destruct (compute (Some data) name) as [st|] eqn:E; [|reflexivity].
  apply compute_intraday_stats_some in E. lia.
Qed.

(** The three guards, one by one. *)
Lemma compute_intraday_stats_guards (data : DataFrame) (name : string) :
  MIN_DAYS_REQUIRED <= length (bars data) ->
  MIN_DAYS_REQUIRED <= length (to_daily resample_B data) ->
  MIN_DAYS_REQUIRED <= length (filtered data) ->
  is_Some (compute (Some data) name).
Proof.
  intros Hb Hd Hf. unfold compute_intraday_stats. fold (filtered data).
  destruct (Nat.ltb_spec (length (bars data)) MIN_DAYS_REQUIRED); [lia|].
  destruct (Nat.ltb_spec (length (to_daily resample_B data)) MIN_DAYS_REQUIRED); [lia|].
  destruct (Nat.ltb_spec (length (filtered data)) MIN_DAYS_REQUIRED); [lia|].
  eexists; reflexivity.
Qed.

(** From five valid rows on there is a record, provided the resampling
    makes no row up. *)
Lemma compute_intraday_stats_enough (data : DataFrame) (name : string) :
  (forall bs, length (resample_B bs) <= length bs) ->
  MIN_DAYS_REQUIRED <= length (filtered data) ->
  is_Some (compute (Some data) name).
Proof.
  intros Hres Hlen. pose proof (filtered_le_daily data) as Hd.
  assert (length (to_daily resample_B data) <= length (bars data)) as Hb.
  { unfold to_daily. destruct (datetime_index data); [|lia].
    destruct (looks_intraday _); [apply Hres|lia]. }
  apply compute_intraday_stats_guards; lia.
Qed.

(** The fields of a window record that are read off the ranges alone. *)
Lemma window_range_fields (rows : list DailyRow) (w : WindowStats) :
  _compute_window_stats rows = Some w ->
  let ranges := map IntradayRange rows in
  median_intraday_range w = NpFloat64 (Np.median ranges)
  /\ max_intraday_range w = NpFloat64 (Np.max ranges)
  /\ min_intraday_range w = NpFloat64 (Np.min ranges)
  /\ min_range_pct w = NpFloat64 (Np.min ranges)
  /\ max_range_pct w = NpFloat64 (Np.max ranges)
  /\ range_spread_pct w = NpFloat64 (Np.max ranges - Np.min ranges)%float
  /\ ladder w =
       map (fun q => num_float (ladder_entry ranges q)) [25; 50; 75; 90; 95; 99]%float.
Proof.
  destruct rows as [|r rows]; [discriminate|].
  intros [= <-]. repeat split; reflexivity.
Qed.

(** The fields the engine checks are finite whatever the rows: the mean and
    the standard deviation of the range, the realized volatility, the
    consistency score, the percentile ladder, and the counters. *)
Lemma sanitize_finite (x : float) : num_finite (sanitize x) = true.
Proof.
  unfold sanitize. destruct (Np.isnan x || Np.isinf x) eqn:E; [reflexivity|].
  cbn [num_finite]. unfold Np.finite. rewrite E. reflexivity.
Qed.

Lemma ladder_entry_finite (ranges : list float) (q : float) :
  num_finite (ladder_entry ranges q) = true.
Proof.
  unfold ladder_entry.
  destruct (Np.isnan (Np.percentile ranges q) || Np.isinf (Np.percentile ranges q))
    eqn:E; [reflexivity|].
  cbn [num_finite]. unfold Np.finite. rewrite E. reflexivity.
Qed.

Lemma guard_finite (n : num) :
  num_finite (if Np.isnan (num_float n) || Np.isinf (num_float n)
              then PyFloat 0 else n) = true.
Proof.
  destruct (Np.isnan (num_float n) || Np.isinf (num_float n)) eqn:E; [reflexivity|].
  destruct n as [f|f|z|z]; cbn [num_finite num_float] in *;
    unfold Np.finite; rewrite ?E; reflexivity.
Qed.

Lemma checked_fields_finite (rows : list DailyRow) (w : WindowStats) :
  _compute_window_stats rows = Some w ->
  Forall (fun n => num_finite n = true)
    [ avg_intraday_range w; std_intraday_range w; daily_std_dev w;
      realized_volatility w; consistency_score w;
      swing_2pct_days w; swing_3pct_days w;
      extreme_move_days w; ultra_extreme_move_days w; days_in_window w;
      std_dev_25th w; std_dev_50th w; std_dev_75th w;
      std_dev_90th w; std_dev_95th w; std_dev_99th w ].
Proof.
  destruct rows as [|r rows]; [discriminate|].
  intros [= <-].
  cbn [avg_intraday_range std_intraday_range daily_std_dev realized_volatility
       consistency_score swing_2pct_days swing_3pct_days extreme_move_days
       ultra_extreme_move_days days_in_window std_dev_25th std_dev_50th
       std_dev_75th std_dev_90th std_dev_95th std_dev_99th].
  repeat apply List.Forall_cons; try apply List.Forall_nil.
  - apply (guard_finite (NpFloat64 _)).
  - apply guard_finite.
  - destruct (negb _); [apply guard_finite|reflexivity].
  - destruct (1 <? _)%nat; [|reflexivity].
    destruct (_ && _ && _); [apply sanitize_finite|reflexivity].
  - destruct (_ && _ && _); [apply sanitize_finite|reflexivity].
  - reflexivity.
  - reflexivity.
  - destruct (_ && _ && _); [|reflexivity]. destruct (negb _); reflexivity.
  - destruct (_ && _ && _); [|reflexivity]. destruct (negb _); reflexivity.
  - reflexivity.
  - apply ladder_entry_finite.
  - apply ladder_entry_finite.
  - apply ladder_entry_finite.
  - apply ladder_entry_finite.
  - apply ladder_entry_finite.
  - apply ladder_entry_finite.
Qed.

Lemma lastn_map {A B} (f : A -> B) (n : nat) (l : list A) :
  map f (Np.lastn n l) = Np.lastn n (map f l).
Proof. unfold Np.lastn. rewrite length_map. symmetry. apply skipn_map. Qed.

(** A record that is finite throughout is finite in each field. *)
Lemma window_all_finite_field (w : WindowStats) (key : string) (n : num) :
  window_all_finite w = true -> (key, n) ∈ window_fields w -> num_finite n = true.
Proof.
  unfold window_all_finite. rewrite forallb_forall. intros Hall Hin.
  apply (Hall (key, n)). apply list_elem_of_In. exact Hin.
Qed.

(** C1, as amended. For a ticker whose filtered daily series contains
    exactly 3 valid rows, the statistics computation returns no record at
    all: 3 is below [MIN_DAYS_REQUIRED]. *)
Theorem three_valid_rows_no_record (data : DataFrame) (name : string) :
  length (filtered data) = 3 -> compute (Some data) name = None.
Proof.
  intros Hlen. apply compute_intraday_stats_too_short.
  rewrite Hlen. unfold MIN_DAYS_REQUIRED. lia.
Qed.

(** The pattern "today and last_3_days present, the four longer windows
    absent" is what a record has when fewer than seven rows are valid. *)
Lemma short_history_pattern (data : DataFrame) (name : string) (st : TickerStats) :
  compute (Some data) name = Some st ->
  length (filtered data) < 7 ->
  short_window_pattern st.
Proof.
  intros Hst Hlen. apply compute_intraday_stats_some in Hst.
  destruct Hst as (H5 & _ & _ & Ht & H3 & H7 & H30 & H60 & H180).
  unfold MIN_DAYS_REQUIRED in H5.
  assert (filtered data <> []) as Hne by (intros E; rewrite E in H5; simpl in H5; lia).
  unfold short_window_pattern. rewrite Ht, H3, H7, H30, H60, H180.
  destruct (window_stats_present (Np.lastn 1 (filtered data))) as (w1 & -> & _);
    [apply lastn_nonempty; [lia|done]|].
  destruct (window_stats_present (Np.lastn 3 (filtered data))) as (w3 & -> & _);
    [apply lastn_nonempty; [lia|done]|].
  assert ((7 <=? length (filtered data))%nat = false) as -> by (apply Nat.leb_gt; lia).
  assert ((30 <=? length (filtered data))%nat = false) as -> by (apply Nat.leb_gt; lia).
  assert ((60 <=? length (filtered data))%nat = false) as -> by (apply Nat.leb_gt; lia).
  assert ((180 <=? length (filtered data))%nat = false) as -> by (apply Nat.leb_gt; lia).
  repeat split; eauto.
Qed.

(** C9. The last_3_months window is present exactly when the filtered daily
    series has at least 60 rows, and is computed over its last 90 rows; the
    last_1_year window is present exactly when it has at least 180 rows, and
    is computed over its last 252 rows; so [days_in_window] is the smaller of
    the number of valid rows and 90 (resp. 252), which is below the nominal
    length for a series of 60 to 89 (resp. 180 to 251) rows. The resampling
    is assumed to make no row up. *)
Theorem long_windows_presence (data : DataFrame) :
  (forall bs, length (resample_B bs) <= length bs) ->
  let fd := filtered data in
  (window_present ln resample_B data Wlast_3_months = true <-> 60 <= length fd)
  /\ (window_present ln resample_B data Wlast_1_year = true <-> 180 <= length fd)
  /\ forall name st,
       compute (Some data) name = Some st ->
       last_3_months st =
         (if (60 <=? length fd)%nat then _compute_window_stats (Np.lastn 90 fd) else None)
       /\ last_1_year st =
         (if (180 <=? length fd)%nat then _compute_window_stats (Np.lastn 252 fd) else None)
       /\ (forall w, last_3_months st = Some w ->
                     days_in_window w = PyInt (Z.of_nat (Nat.min 90 (length fd))))
       /\ (forall w, last_1_year st = Some w ->
                     days_in_window w = PyInt (Z.of_nat (Nat.min 252 (length fd)))).
Proof.
  intros Hres fd.
  assert (forall n k, 0 < n -> k <= length fd -> 0 < k ->
          exists w, _compute_window_stats (Np.lastn n fd) = Some w
                    /\ days_in_window w = PyInt (Z.of_nat (Nat.min n (length fd))))
    as Hwin.
  { intros n k Hn Hk Hk0.
    destruct (window_stats_present (Np.lastn n fd)) as (w & Hw & Hd).
    - apply lastn_nonempty; [lia|]. intros E. rewrite E in Hk. simpl in Hk. lia.
    - exists w. split; [exact Hw|]. rewrite Hd, lastn_length. reflexivity. }
  assert (forall window bound n,
            MIN_DAYS_REQUIRED <= bound -> 0 < n ->
            (forall name st, compute (Some data) name = Some st ->
               get_window st window =
               (if (bound <=? length fd)%nat
                then _compute_window_stats (Np.lastn n fd) else None)) ->
            window_present ln resample_B data window = true <-> bound <= length fd)
    as Hiff.
  { intros window bound n Hb Hn Hget. unfold window_present.
    unfold MIN_DAYS_REQUIRED in Hb. split.
    - destruct (compute (Some data) "") as [st|] eqn:E; [|discriminate].
      rewrite (Hget _ _ E). intros Hsome%bool_decide_eq_true.
      destruct (Nat.leb_spec bound (length fd)); [lia|].
      destruct Hsome as [? ?]; discriminate.
    - intros Hlen.
      destruct (compute_intraday_stats_enough data "" Hres) as [st E].
      { fold fd. unfold MIN_DAYS_REQUIRED. lia. }
      rewrite E, (Hget _ _ E).
      destruct (Nat.leb_spec bound (length fd)); [|lia].
      destruct (Hwin n bound Hn Hlen) as (w & -> & _); [lia|].
      apply bool_decide_eq_true. eauto. }
  assert (forall name st, compute (Some data) name = Some st ->
            last_3_months st =
              (if (60 <=? length fd)%nat then _compute_window_stats (Np.lastn 90 fd) else None)
            /\ last_1_year st =
              (if (180 <=? length fd)%nat then _compute_window_stats (Np.lastn 252 fd) else None))
    as Hget.
  { intros name st E. apply compute_intraday_stats_some in E.
    destruct E as (_ & _ & _ & _ & _ & _ & _ & H60 & H180). split; assumption. }
  split; [|split].
  - apply (Hiff Wlast_3_months 60 90); unfold MIN_DAYS_REQUIRED; [lia|lia|].
    intros name st E. apply (Hget name st E).
  - apply (Hiff Wlast_1_year 180 252); unfold MIN_DAYS_REQUIRED; [lia|lia|].
    intros name st E. apply (Hget name st E).
  - intros name st E. destruct (Hget name st E) as [H60 H180].
    split; [exact H60|]. split; [exact H180|]. split.
    + intros w Hw. rewrite H60 in Hw.
      destruct (Nat.leb_spec 60 (length fd)); [|discriminate].
      destruct (Hwin 90 60) as (w' & Hw' & Hd); [lia|lia|lia|]. congruence.
    + intros w Hw. rewrite H180 in Hw.
      destruct (Nat.leb_spec 180 (length fd)); [|discriminate].
      destruct (Hwin 252 180) as (w' & Hw' & Hd); [lia|lia|lia|]. congruence.
Qed.

End Engine.

End EngineFacts.

(** ** The engine on concrete histories *)

Module EngineRuns.

Import Analyzer Statements.

(** The stand-in resampling merges bars and never makes one up. *)
Lemma group_days_length (current : Bar) (rest : list Bar) :
  length (Platform.group_days current rest) <= S (length rest).
Proof.
  revert current. induction rest as [|b rest IH]; intros current; simpl; [lia|].
  destruct (Platform.day_of b =? Platform.day_of current)%Z; simpl.
  - specialize (IH (Platform.merge_bar current b)). lia.
  - specialize (IH b). lia.
Qed.

Lemma resample_B_length (bs : list Bar) :
  length (Platform.resample_B bs) <= length bs.
Proof.
  unfold Platform.resample_B. etransitivity; [apply length_filter|].
  destruct bs as [|b rest]; simpl; [lia|]. apply group_days_length.
Qed.

(** C1, the claim as stated fails: a history with exactly three valid rows
    gets no record, so no record with the short-window pattern. *)
Lemma three_valid_rows_refute_pattern :
  ~ three_rows_give_short_windows
      Platform.ln Platform.resample_B Scenario.three_valid_rows "X".
Proof.
  intros Hclaim. destruct Hclaim as (st & Hst & _).
  - vm_compute. reflexivity.
  - vm_compute in Hst. discriminate.
Qed.

(** C1, the amended statement at a history with three valid rows. *)
Lemma three_valid_rows_no_record_witness :
  length (filtered_daily Platform.ln Platform.resample_B Scenario.three_valid_rows) = 3
  /\ Scenario.stats_of Scenario.three_valid_rows "X" = None.
Proof.
  split; [vm_compute; reflexivity|].
  apply (EngineFacts.three_valid_rows_no_record
           Platform.ln Platform.resample_B Scenario.three_valid_rows "X").
  vm_compute. reflexivity.
Defined.

(** Five valid rows give the short-window pattern. *)
Lemma five_days_pattern :
  exists st, Scenario.stats_of Scenario.five_days "X" = Some st
             /\ short_window_pattern st.
Proof.
  destruct (Scenario.stats_of Scenario.five_days "X") as [st|] eqn:E;
    vm_compute in E; [|discriminate].
  exists st. split; [reflexivity|].
  apply (EngineFacts.short_history_pattern
           Platform.ln Platform.resample_B Scenario.five_days "X").
  - unfold Scenario.stats_of in E. vm_compute. exact E.
  - vm_compute. lia.
Qed.

(** The history with a zero open: it gets a record, and the ranges of its
    valid rows are eight times 12.5, then an infinity. *)
Lemma zero_open_history_record
    (ln : float -> float) (resample_B : list Bar -> list Bar) (name : string) :
  exists st,
    compute_intraday_stats ln resample_B (Some Scenario.zero_open_history) name = Some st
    /\ map IntradayRange (filtered_daily ln resample_B Scenario.zero_open_history)
       = (repeat 12.5 8 ++ [infinity])%float.
Proof.
  assert (map IntradayRange (filtered_daily ln resample_B Scenario.zero_open_history)
          = (repeat 12.5 8 ++ [infinity])%float) as Hranges
    by (vm_compute; reflexivity).
  destruct (EngineFacts.compute_intraday_stats_guards ln resample_B
              Scenario.zero_open_history name) as [st Hst].
  - vm_compute. lia.
  - vm_compute. lia.
  - rewrite <- (length_map IntradayRange), Hranges. vm_compute. lia.
  - exists st. split; [exact Hst|exact Hranges].
Qed.

Lemma window_all_finite_max (w : WindowStats) :
  window_all_finite w = true -> num_finite (max_range_pct w) = true.
Proof.
  intros Hall. apply (EngineFacts.window_all_finite_field w "max_range_pct" _ Hall).
  unfold window_fields. do 20 apply list_elem_of_further. constructor.
Qed.

(** C2, the engine at a history whose last row has a zero open. The range
    of that row is 100/0, an infinity; [dropna] keeps it; and the record of
    the today window carries it in its median, maximum and minimum, and a
    NaN as its spread. The claim says that every numeric field of every
    window record is finite. *)
Theorem zero_open_row_reaches_output
    (ln : float -> float) (resample_B : list Bar -> list Bar) :
  exists st w,
    compute_intraday_stats ln resample_B (Some Scenario.zero_open_history) "X" = Some st
    /\ today st = Some w
    /\ median_intraday_range w = NpFloat64 infinity
    /\ max_intraday_range w = NpFloat64 infinity
    /\ min_intraday_range w = NpFloat64 infinity
    /\ min_range_pct w = NpFloat64 infinity
    /\ max_range_pct w = NpFloat64 infinity
    /\ range_spread_pct w = NpFloat64 nan
    /\ window_all_finite w = false
    /\ ~ all_windows_finite st.
Proof.
  destruct (zero_open_history_record ln resample_B "X") as (st & Hst & Hranges).
  pose proof (EngineFacts.compute_intraday_stats_some _ _ _ _ _ Hst)
    as (_ & _ & _ & Htoday & _).
  destruct (EngineFacts.window_stats_present
              (Np.lastn 1 (filtered_daily ln resample_B Scenario.zero_open_history)))
    as (w & Hw & _).
  { intros E. apply (f_equal (map IntradayRange)) in E.
    rewrite EngineFacts.lastn_map, Hranges in E. discriminate. }
  pose proof (EngineFacts.window_range_fields _ _ Hw) as Hf.
  rewrite EngineFacts.lastn_map, Hranges in Hf.
  destruct Hf as (Hmed & Hmax & Hmin & Hminp & Hmaxp & Hspread & _).
  exists st, w. split; [exact Hst|]. split; [congruence|].
  split; [exact Hmed|]. split; [exact Hmax|]. split; [exact Hmin|].
  split; [exact Hminp|]. split; [exact Hmaxp|]. split; [exact Hspread|].
  assert (window_all_finite w = false) as Hnot.
  { destruct (window_all_finite w) eqn:Hall; [|reflexivity].
    pose proof (window_all_finite_max _ Hall) as Hfin.
    rewrite Hmaxp in Hfin. discriminate. }
  split; [exact Hnot|].
  intros Hall. rewrite (Hall "today" w) in Hnot; [discriminate|].
  unfold ticker_windows. rewrite Htoday, Hw. constructor.
Qed.

(** C3, the engine at the same history. The window of the last seven days
    holds six ranges of 12.5 and one infinity. Its 25th, 50th and 75th
    percentiles are 12.5; the 90th, 95th and 99th interpolate towards the
    infinity, are not finite, and are replaced by 0.0 one by one: the ladder
    reads 12.5, 12.5, 12.5, 0, 0, 0. The claim says that the ladder never
    decreases. *)
Theorem zero_open_row_breaks_ladder
    (ln : float -> float) (resample_B : list Bar -> list Bar) :
  exists st w,
    compute_intraday_stats ln resample_B (Some Scenario.zero_open_history) "X" = Some st
    /\ last_7_days st = Some w
    /\ ladder w = [12.5; 12.5; 12.5; 0; 0; 0]%float
    /\ ladder_monotone w = false.
Proof.
  destruct (zero_open_history_record ln resample_B "X") as (st & Hst & Hranges).
  pose proof (EngineFacts.compute_intraday_stats_some _ _ _ _ _ Hst)
    as (_ & _ & _ & _ & _ & H7 & _).
  assert (length (filtered_daily ln resample_B Scenario.zero_open_history) = 9) as Hlen
    by (rewrite <- (length_map IntradayRange), Hranges; reflexivity).
  rewrite Hlen in H7. cbn [Nat.leb] in H7.
  destruct (EngineFacts.window_stats_present
              (Np.lastn 7 (filtered_daily ln resample_B Scenario.zero_open_history)))
    as (w & Hw & _).
  { intros E. apply (f_equal (map IntradayRange)) in E.
    rewrite EngineFacts.lastn_map, Hranges in E. discriminate. }
  pose proof (EngineFacts.window_range_fields _ _ Hw) as Hf.
  rewrite EngineFacts.lastn_map, Hranges in Hf.
  destruct Hf as (_ & _ & _ & _ & _ & _ & Hladder).
  exists st, w. split; [exact Hst|]. split; [congruence|].
  assert (ladder w = [12.5; 12.5; 12.5; 0; 0; 0]%float) as Hl
    by (rewrite Hladder; vm_compute; reflexivity).
  split; [exact Hl|]. unfold ladder_monotone. rewrite Hl. vm_compute. reflexivity.
Qed.

(** The ladder of a window without a zero open, for comparison. *)
Example five_days_ladder :
  (fun st => ladder_monotone <$> last_3_days st)
    <$> Scenario.stats_of Scenario.five_days "X"
  = Some (Some true).
Proof. vm_compute. reflexivity. Qed.

(** C9 at sixty valid rows: the last_3_months window is present, with 60
    days in it, and the last_1_year window is absent; at one hundred and
    eighty valid rows the last_1_year window is present. *)
Lemma long_windows_presence_witness :
  (forall bs, length (Platform.resample_B bs) <= length bs)
  /\ window_present Platform.ln Platform.resample_B
       Scenario.sixty_days Wlast_3_months = true
  /\ ~ window_present Platform.ln Platform.resample_B
       Scenario.sixty_days Wlast_1_year = true
  /\ window_present Platform.ln Platform.resample_B
       Scenario.half_year Wlast_1_year = true
  /\ forall st w,
       Scenario.stats_of Scenario.sixty_days "X" = Some st ->
       last_3_months st = Some w ->
       days_in_window w = PyInt 60.
Proof.
  pose proof (EngineFacts.long_windows_presence
                Platform.ln Platform.resample_B Scenario.sixty_days
                resample_B_length) as (H3 & H1 & Hdays).
  pose proof (EngineFacts.long_windows_presence
                Platform.ln Platform.resample_B Scenario.half_year
                resample_B_length) as (_ & H1' & _).
  assert (length (filtered_daily Platform.ln Platform.resample_B Scenario.sixty_days) = 60)
    as Hlen by (vm_compute; reflexivity).
  assert (length (filtered_daily Platform.ln Platform.resample_B Scenario.half_year) = 180)
    as Hlen' by (vm_compute; reflexivity).
  rewrite Hlen in H3, H1, Hdays. rewrite Hlen' in H1'.
  split; [exact resample_B_length|]. split; [apply H3; lia|].
  split; [intros H%H1; lia|]. split; [apply H1'; lia|].
  intros st w Hst Hw. destruct (Hdays "X" st Hst) as (_ & _ & Hd & _).
  exact (Hd w Hw).
Defined.

End EngineRuns.

(** ** The result cache: an absent result is remembered *)

Module CacheFacts.

Import Analyzer Statements.

Section Cache.

Variable ln : float -> float.
Variable resample_B : list Bar -> list Bar.

(** A lookup within the expiry of the entry answers from the cache: the
    stored stats come back, the cache is as it was, nothing is fetched. *)
Lemma process_ticker_hit
    (fetch : string -> string -> option DataFrame) (now_lookup now_store : Z)
    (name : string) (cache : gmap string CacheEntry) (e : CacheEntry) :
  cache !! name = Some e ->
  (now_lookup - default T2000 (timestamp e) < CACHE_EXPIRY_US)%Z ->
  process_ticker ln resample_B fetch now_lookup now_store name (Some cache)
  = {| returned := stats e; cache_after := Some cache; fetched := false |}.
Proof.
  intros He Hage. unfold process_ticker.
  rewrite bool_decide_eq_false_2.
  - rewrite He. apply Z.ltb_lt in Hage. rewrite Hage. reflexivity.
  - intros ->. rewrite lookup_empty in He. discriminate.
Qed.

(** Without a fresh entry the ticker is fetched, and the outcome of the
    computation, present or absent, is stored under the time of storing. *)
Lemma process_ticker_miss
    (fetch : string -> string -> option DataFrame) (now_lookup now_store : Z)
    (name : string) (cache : gmap string CacheEntry) (data : DataFrame) :
  no_fresh_entry cache name now_lookup ->
  fetch name "2mo" = Some data ->
  process_ticker ln resample_B fetch now_lookup now_store name (Some cache)
  = {| returned := compute_intraday_stats ln resample_B (Some data) name;
       cache_after :=
         Some (<[name := {| timestamp := Some now_store;
                            stats := compute_intraday_stats ln resample_B (Some data) name |}]>
                 cache);
       fetched := true |}.
Proof.
  intros Hmiss Hfetch. unfold process_ticker, no_fresh_entry in *.
  assert ((if bool_decide (cache = ∅) then None
           else match cache !! name with
                | Some cached_data =>
                  if (now_lookup - default T2000 (timestamp cached_data)
                      <? CACHE_EXPIRY_US)%Z
                  then Some (stats cached_data) else None
                | None => None
                end) = None) as ->.
  { case_bool_decide; [reflexivity|].
    destruct (cache !! name) as [e|]; [|reflexivity].
    apply Z.ltb_ge in Hmiss. rewrite Hmiss. reflexivity. }
  rewrite Hfetch. reflexivity.
Qed.

(** C8. When the fetch of a ticker succeeds and the computation returns
    absence, the call returns absence and writes a cache entry for the
    ticker with the time of the write and absent stats; after that, every
    later lookup of the ticker made before the expiry has elapsed since the
    write returns absence, leaves the cache as it is, and fetches nothing. *)
Theorem absent_stats_are_cached
    (fetch : string -> string -> option DataFrame) (now_lookup now_store : Z)
    (name : string) (cache : gmap string CacheEntry) (data : DataFrame)
    (later : list Lookup) :
  no_fresh_entry cache name now_lookup ->
  fetch name "2mo" = Some data ->
  compute_intraday_stats ln resample_B (Some data) name = None ->
  Forall (fun l : Lookup => (l.1.1 - now_store < CACHE_EXPIRY_US)%Z) later ->
  let first :=
    process_ticker ln resample_B fetch now_lookup now_store name (Some cache) in
  let written :=
    Some (<[name := {| timestamp := Some now_store; stats := None |}]> cache) in
  returned first = None
  /\ fetched first = true
  /\ cache_after first = written
  /\ Forall (fun p => p = {| returned := None; cache_after := written; fetched := false |})
            (lookups ln resample_B name (cache_after first) later).
Proof.
  intros Hmiss Hfetch Hnone Hlater first written. subst first.
  rewrite (process_ticker_miss _ _ _ _ _ data Hmiss Hfetch), Hnone.
  cbn [returned fetched cache_after]. fold written.
  split; [reflexivity|]. split; [reflexivity|]. split; [reflexivity|].
  induction Hlater as [|l rest Hl _ IH]; [constructor|].
  cbn [lookups].
  assert (lookup_with ln resample_B name written l
          = {| returned := None; cache_after := written; fetched := false |}) as ->.
  { unfold lookup_with, written.
    rewrite (process_ticker_hit l.2 l.1.1 l.1.2 name _
               {| timestamp := Some now_store; stats := None |});
      [reflexivity|apply lookup_insert_eq|exact Hl]. }
  constructor; [reflexivity|exact IH].
Qed.

End Cache.

Lemma lookups_length (ln : float -> float) (resample_B : list Bar -> list Bar)
    (name : string) (later : list Lookup) :
  forall cache, length (lookups ln resample_B name cache later) = length later.
Proof.
  induction later as [|l rest IH]; intros cache; [reflexivity|].
  cbn [lookups length]. rewrite IH. reflexivity.
Qed.

Lemma Forall_eq_map {A B} (f : A -> B) (c : A) (l : list A) :
  Forall (fun p => p = c) l -> map f l = repeat (f c) (length l).
Proof.
  induction 1 as [|p rest -> _ IH]; [reflexivity|].
  cbn [map length repeat]. rewrite IH. reflexivity.
Qed.

(** C8 on an empty cache, for the history with three valid rows: the first
    call stores an absent result at noon, and lookups one and fifty-nine
    minutes later answer from the cache without fetching. *)
Lemma absent_stats_are_cached_witness :
  let later : list Lookup :=
    [ (Scenario.noon + 60 * 10 ^ 6, Scenario.noon + 61 * 10 ^ 6,
       Scenario.always Scenario.five_days)%Z;
      (Scenario.noon + 3540 * 10 ^ 6, Scenario.noon + 3541 * 10 ^ 6,
       Scenario.always Scenario.five_days)%Z ] in
  let first :=
    process_ticker Platform.ln Platform.resample_B
      (Scenario.always Scenario.three_valid_rows)
      (Scenario.noon - 1) Scenario.noon "AAA" (Some ∅) in
  returned first = None
  /\ map returned (lookups Platform.ln Platform.resample_B "AAA" (cache_after first) later)
     = [None; None]
  /\ map fetched (lookups Platform.ln Platform.resample_B "AAA" (cache_after first) later)
     = [false; false].
Proof.
  intros later first.
  destruct (absent_stats_are_cached Platform.ln Platform.resample_B
              (Scenario.always Scenario.three_valid_rows)
              (Scenario.noon - 1) Scenario.noon "AAA" ∅
              Scenario.three_valid_rows later)
    as (Hret & _ & _ & Hlater).
  - unfold no_fresh_entry. rewrite lookup_empty. exact I.
  - reflexivity.
  - vm_compute. reflexivity.
  - subst later.
    constructor; [vm_compute; reflexivity|].
    constructor; [vm_compute; reflexivity|].
    constructor.
  - fold first in Hlater. split; [exact Hret|].
    rewrite (Forall_eq_map returned _ _ Hlater), (Forall_eq_map fetched _ _ Hlater).
    rewrite lookups_length. split; reflexivity.
Defined.

End CacheFacts.

(** ** The live scanner: threshold, cooldown, unusable histories *)

Module ScannerFacts.

Import Analyzer Statements Scanner.

Section Scanner.

Variable ln : float -> float.

(** What a Z-score is made of, when there is one. *)
Lemma compute_zscore_some (data : DataFrame) (z pm : float) (st : ZStats) :
  compute_zscore ln (Some data) = Some (z, pm, st) ->
  MIN_BARS_REQUIRED <= length (bars data)
  /\ MIN_BARS_REQUIRED <= length (log_returns_of ln data)
  /\ 50 <= window_size (log_returns_of ln data)
  /\ mean_return st = Np.mean (recent_returns_of ln data)
  /\ std_return st = Np.std_ddof1 (recent_returns_of ln data)
  /\ current_return st = last_f (log_returns_of ln data)
  /\ (std_return st =? 0)%float = false
  /\ Np.isnan (std_return st) = false
  /\ z = ((current_return st - mean_return st) / std_return st)%float.
Proof.
  unfold compute_zscore. fold (log_returns_of ln data).
  destruct (Nat.ltb_spec (length (bars data)) MIN_BARS_REQUIRED); [discriminate|].
  destruct (Nat.ltb_spec (length (log_returns_of ln data)) MIN_BARS_REQUIRED);
    [discriminate|].
  destruct (Nat.ltb_spec (window_size (log_returns_of ln data)) 50); [discriminate|].
  fold (recent_returns_of ln data).
  destruct (Np.std_ddof1 (recent_returns_of ln data) =? 0)%float eqn:Hzero;
    [discriminate|].
  destruct (Np.isnan (Np.std_ddof1 (recent_returns_of ln data))) eqn:Hnan;
    [discriminate|].
  cbn [orb]. intros [= <- <- <-]. cbn [mean_return std_return current_return].
  repeat split; assumption || reflexivity.
Qed.

(** Without a Z-score there is no alert and the scanner is as it was. *)
Lemma no_zscore_no_alert (self : VolatilityScanner) (data : option DataFrame)
    (clock : Clock) (name : string) :
  compute_zscore ln data = None ->
  process_ticker ln self (Returned data) clock name = (None, self).
Proof.
  intros Hnone. unfold process_ticker.
  destruct data as [d|]; [|reflexivity]. rewrite Hnone. reflexivity.
Qed.

(** C10. The Z-score computation returns absence, and the alerting step
    therefore raises no alert, whenever the history is missing, has fewer
    bars than the minimum, has fewer than 50 returns in the trailing window,
    or has a trailing standard deviation that is zero or NaN; and whenever a
    Z-score is returned, it is the quotient by a standard deviation that is
    neither zero nor NaN. *)
Theorem zscore_absent_on_unusable_history (data : option DataFrame) :
  (unusable_for_zscore ln data ->
   compute_zscore ln data = None
   /\ forall self clock name,
        process_ticker ln self (Returned data) clock name = (None, self))
  /\ (forall z pm st,
        compute_zscore ln data = Some (z, pm, st) ->
        (std_return st =? 0)%float = false
        /\ Np.isnan (std_return st) = false
        /\ z = ((current_return st - mean_return st) / std_return st)%float).
Proof.
  split.
  - intros Hun.
    assert (compute_zscore ln data = None) as Hnone.
    { destruct data as [d|]; [|reflexivity].
      destruct (compute_zscore ln (Some d)) as [[[z pm] st]|] eqn:E; [|reflexivity].
      apply compute_zscore_some in E.
      destruct E as (Hb & _ & Hw & _ & Hstd & _ & Hzero & Hnan & _).
      rewrite Hstd in Hzero, Hnan.
      destruct Hun as [Hun|[Hun|[Hun|Hun]]]; [lia|lia|congruence|congruence]. }
    split; [exact Hnone|]. intros self clock name.
    apply no_zscore_no_alert. exact Hnone.
  - intros z pm st E. destruct data as [d|]; [|discriminate].
    apply compute_zscore_some in E.
    destruct E as (_ & _ & _ & _ & _ & _ & Hzero & Hnan & Hz). auto.
Qed.

(** An alert carries a Z-score strictly above the threshold in absolute
    value, taken from the history that was fetched. *)
Lemma alert_above_threshold (self self' : VolatilityScanner) (fetch : Fetched)
    (clock : Clock) (name : string) (a : Alert) :
  process_ticker ln self fetch clock name = (Some a, self') ->
  (Z_SCORE_THRESHOLD <? abs (alert_zscore a))%float = true
  /\ exists data,
       fetch = Returned (Some data)
       /\ compute_zscore ln (Some data)
          = Some (alert_zscore a, alert_percent_move a, alert_stats a).
Proof.
  unfold process_ticker.
  destruct fetch as [|[data|]]; try discriminate.
  destruct (compute_zscore ln (Some data)) as [[[z pm] st]|] eqn:E; [|discriminate].
  destruct (Z_SCORE_THRESHOLD <? abs z)%float eqn:Habove; [|discriminate].
  destruct (match alert_history self !! name with
            | Some last_alert =>
              (at_cooldown_check clock - last_alert <? ALERT_COOLDOWN_US)%Z
            | None => false
            end); [discriminate|].
  intros [= <- <-]. cbn [alert_zscore alert_percent_move alert_stats].
  split; [exact Habove|]. exists data. split; [reflexivity|exact E].
Qed.

(** C6. An alert is produced only when the absolute Z-score strictly
    exceeds the threshold; when the computed absolute Z-score equals the
    threshold exactly, no alert is created and the scanner is unchanged. *)
Theorem alert_needs_strict_excess (self : VolatilityScanner) (fetch : Fetched)
    (clock : Clock) (name : string) :
  (forall a self',
     process_ticker ln self fetch clock name = (Some a, self') ->
     (Z_SCORE_THRESHOLD <? abs (alert_zscore a))%float = true)
  /\ (forall data z pm st,
        fetch = Returned (Some data) ->
        compute_zscore ln (Some data) = Some (z, pm, st) ->
        abs z = Z_SCORE_THRESHOLD ->
        process_ticker ln self fetch clock name = (None, self)).
Proof.
  split.
  - intros a self' Hrun. apply (alert_above_threshold _ _ _ _ _ _ Hrun).
  - intros data z pm st -> Hz Habs. unfold process_ticker.
    rewrite Hz, Habs. reflexivity.
Qed.

(** C7. When a ticker meets the alert condition while the time since its
    last alert is below the cooldown, the call produces no alert and leaves
    the scanner, its cooldown ledger included, exactly as it was: the stored
    time of last alert is not updated. *)
Theorem suppressed_trigger_keeps_ledger (self : VolatilityScanner)
    (data : DataFrame) (clock : Clock) (name : string)
    (z pm : float) (st : ZStats) (last_alert : Z) :
  compute_zscore ln (Some data) = Some (z, pm, st) ->
  (Z_SCORE_THRESHOLD <? abs z)%float = true ->
  alert_history self !! name = Some last_alert ->
  (at_cooldown_check clock - last_alert < ALERT_COOLDOWN_US)%Z ->
  process_ticker ln self (Returned (Some data)) clock name = (None, self)
  /\ alert_history (process_ticker ln self (Returned (Some data)) clock name).2 !! name
     = Some last_alert.
Proof.
  intros Hz Habove Hlast Hcool.
  assert (process_ticker ln self (Returned (Some data)) clock name = (None, self)) as Hrun.
  { unfold process_ticker. rewrite Hz, Habove, Hlast.
    apply Z.ltb_lt in Hcool. rewrite Hcool. reflexivity. }
  split; [exact Hrun|]. rewrite Hrun. exact Hlast.
Qed.

(** A first trigger, outside any cooldown, alerts and records the time. *)
Lemma first_trigger_alerts (self : VolatilityScanner)
    (data : DataFrame) (clock : Clock) (name : string)
    (z pm : float) (st : ZStats) :
  compute_zscore ln (Some data) = Some (z, pm, st) ->
  (Z_SCORE_THRESHOLD <? abs z)%float = true ->
  alert_history self !! name = None ->
  exists a self',
    process_ticker ln self (Returned (Some data)) clock name = (Some a, self')
    /\ alert_zscore a = z
    /\ alert_history self' !! name = Some (at_history_update clock).
Proof.
  intros Hz Habove Hlast. unfold process_ticker. rewrite Hz, Habove, Hlast.
  eexists _, _. split; [reflexivity|]. split; [reflexivity|].
  cbn [alert_history]. apply lookup_insert_eq.
Qed.

End Scanner.

End ScannerFacts.

(** ** The scanner on concrete histories *)

Module ScannerRuns.

Import Analyzer Statements Scanner.

Local Open Scope float_scope.

(** The boundary history has a Z-score of exactly 2. *)
Lemma boundary_zscore :
  exists pm st,
    compute_zscore Platform.ln (Some (Scenario.closes_history Scenario.boundary_closes))
    = Some (2, pm, st).
Proof.
  destruct (compute_zscore Platform.ln
              (Some (Scenario.closes_history Scenario.boundary_closes)))
    as [[[z pm] st]|] eqn:E; vm_compute in E; [|discriminate].
  injection E as <- <- <-. eexists _, _. reflexivity.
Defined.

(** The spike history has a Z-score above 2. *)
Lemma spike_zscore :
  exists z pm st,
    compute_zscore Platform.ln (Some (Scenario.closes_history Scenario.spike_closes))
    = Some (z, pm, st)
    /\ (Z_SCORE_THRESHOLD <? abs z) = true.
Proof.
  destruct (compute_zscore Platform.ln
              (Some (Scenario.closes_history Scenario.spike_closes)))
    as [[[z pm] st]|] eqn:E; vm_compute in E; [|discriminate].
  injection E as <- <- <-. eexists _, _, _. split; reflexivity.
Defined.

(** C6 at the boundary history: the Z-score is 2.0, the threshold itself,
    and the scanner raises no alert. *)
Lemma alert_needs_strict_excess_witness :
  abs 2 = Z_SCORE_THRESHOLD
  /\ process_ticker Platform.ln Scenario.fresh_scanner
       (Returned (Some (Scenario.closes_history Scenario.boundary_closes)))
       (Scenario.clock_after 0) "AAA"
     = (None, Scenario.fresh_scanner).
Proof.
  split; [reflexivity|].
  destruct boundary_zscore as (pm & st & E).
  exact (proj2 (ScannerFacts.alert_needs_strict_excess Platform.ln
                  Scenario.fresh_scanner
                  (Returned (Some (Scenario.closes_history Scenario.boundary_closes)))
                  (Scenario.clock_after 0) "AAA")
               _ 2 pm st eq_refl E eq_refl).
Defined.

(** C7 thirty minutes after an alert: the spike triggers again, no alert is
    returned, and the ledger still holds noon. *)
Lemma suppressed_trigger_keeps_ledger_witness :
  process_ticker Platform.ln Scenario.alerted_scanner
    (Returned (Some (Scenario.closes_history Scenario.spike_closes)))
    (Scenario.clock_after 30) "AAA"
  = (None, Scenario.alerted_scanner)
  /\ alert_history
       (process_ticker Platform.ln Scenario.alerted_scanner
          (Returned (Some (Scenario.closes_history Scenario.spike_closes)))
          (Scenario.clock_after 30) "AAA").2 !! "AAA"
     = Some Scenario.noon.
Proof.
  destruct spike_zscore as (z & pm & st & E & Habove).
  apply (ScannerFacts.suppressed_trigger_keeps_ledger Platform.ln
           Scenario.alerted_scanner _ (Scenario.clock_after 30) "AAA"
           z pm st Scenario.noon E Habove).
  - reflexivity.
  - vm_compute. reflexivity.
Defined.

(** The two consecutive triggers of the scenario: the first alerts and
    records its time, the second, half an hour later, is suppressed and the
    recorded time stays. *)
Lemma two_triggers_one_alert :
  exists a self',
    process_ticker Platform.ln Scenario.fresh_scanner
      (Returned (Some (Scenario.closes_history Scenario.spike_closes)))
      (Scenario.clock_after 0) "AAA"
    = (Some a, self')
    /\ alert_history self' !! "AAA" = Some (Scenario.noon + 2)%Z
    /\ process_ticker Platform.ln self'
         (Returned (Some (Scenario.closes_history Scenario.spike_closes)))
         (Scenario.clock_after 30) "AAA"
       = (None, self').
Proof.
  destruct spike_zscore as (z & pm & st & E & Habove).
  destruct (ScannerFacts.first_trigger_alerts Platform.ln Scenario.fresh_scanner
              _ (Scenario.clock_after 0) "AAA" z pm st E Habove)
    as (a & self' & Hrun & _ & Hledger); [reflexivity|].
  exists a, self'. split; [exact Hrun|]. split; [exact Hledger|].
  unfold process_ticker. rewrite E, Habove, Hledger. reflexivity.
Qed.

(** C10 at a flat history (the standard deviation of the returns is zero)
    and at a short one (60 bars): no Z-score, no alert. *)
Lemma zscore_absent_on_unusable_history_witness :
  (Np.std_ddof1 (recent_returns_of Platform.ln
                   (Scenario.closes_history Scenario.flat_closes)) =? 0) = true
  /\ compute_zscore Platform.ln (Some (Scenario.closes_history Scenario.flat_closes))
     = None
  /\ compute_zscore Platform.ln (Some (Scenario.closes_history Scenario.short_closes))
     = None
  /\ process_ticker Platform.ln Scenario.fresh_scanner
       (Returned (Some (Scenario.closes_history Scenario.flat_closes)))
       (Scenario.clock_after 0) "AAA"
     = (None, Scenario.fresh_scanner).
Proof.
  assert ((Np.std_ddof1 (recent_returns_of Platform.ln
                           (Scenario.closes_history Scenario.flat_closes)) =? 0) = true)
    as Hflat by (vm_compute; reflexivity).
  destruct (proj1 (ScannerFacts.zscore_absent_on_unusable_history Platform.ln
                     (Some (Scenario.closes_history Scenario.flat_closes))))
    as [Hnone Halert].
  { right. right. left. exact Hflat. }
  destruct (proj1 (ScannerFacts.zscore_absent_on_unusable_history Platform.ln
                     (Some (Scenario.closes_history Scenario.short_closes))))
    as [Hshort _].
  { left. vm_compute. lia. }
  split; [exact Hflat|]. split; [exact Hnone|]. split; [exact Hshort|].
  apply Halert.
Defined.

End ScannerRuns.

(** ** Cache persistence: what is written is what is read back *)

Module PersistenceFacts.

Import Analyzer Statements.

(** Induction on Python values, through the lists they nest. *)
Lemma pyval_nested_ind (P : pyval -> Prop) :
  P PNone ->
  (forall b, P (PBool b)) ->
  (forall s, P (PStr s)) ->
  (forall n, P (PNum n)) ->
  (forall items, Forall P items -> P (PList items)) ->
  (forall items, Forall P items -> P (PTuple items)) ->
  (forall entries, Forall (fun kv => P kv.2) entries -> P (PDict entries)) ->
  forall v, P v.
Proof.
  intros HNone HBool HStr HNum HList HTuple HDict.
  fix IH 1. intros [ |b|s|n|items|items|entries].
  - exact HNone.
  - apply HBool.
  - apply HStr.
  - apply HNum.
  - apply HList. induction items as [|x rest IHrest]; constructor; [apply IH|exact IHrest].
  - apply HTuple. induction items as [|x rest IHrest]; constructor; [apply IH|exact IHrest].
  - apply HDict. induction entries as [|[k x] rest IHrest]; constructor;
      [apply IH|exact IHrest].
Qed.

(** After [_convert_numpy_types] nothing is left for [default=str]: the
    document read back is the native counterpart of the value. *)
Lemma convert_dump_load (v : pyval) :
  json_load (json_dump (_convert_numpy_types v)) = native v.
Proof.
  induction v as [ |b|s|n|items IH|items IH|entries IH] using pyval_nested_ind;
    try reflexivity.
  - destruct n; reflexivity.
  - cbn [_convert_numpy_types json_dump json_load native]. f_equal.
    rewrite !map_map. apply map_ext_Forall. exact IH.
  - cbn [_convert_numpy_types json_dump json_load native]. f_equal.
    rewrite !map_map. apply map_ext_Forall. exact IH.
  - cbn [_convert_numpy_types json_dump json_load native]. f_equal.
    rewrite !map_map. apply map_ext_Forall.
    eapply Forall_impl; [exact IH|].
    intros [k x] Hx. cbn [fst snd] in *. rewrite Hx. reflexivity.
Qed.

Lemma native_num_preserved (key : string) (n : num) :
  field_preserved (key, n) (key, native_num n).
Proof. unfold field_preserved. destruct n; repeat split; reflexivity. Qed.

Lemma native_window_obj (w : WindowStats) :
  native (window_obj w) = window_obj (native_window w).
Proof. reflexivity. Qed.

Lemma native_ticker_obj (s : TickerStats) :
  native (ticker_obj s) = ticker_obj (native_ticker s).
Proof.
  destruct s as [name days w1 w2 w3 w4 w5 w6].
  destruct w1, w2, w3, w4, w5, w6; reflexivity.
Qed.

(** One cache entry through [save_cache] and [load_cache]. *)
Lemma entry_round_trip (iso : string) (st : option TickerStats) :
  json_load
    (json_dump
       (PDict (map (fun e => (e.1, convert_entry_value e.2))
                   [ ("timestamp", PStr iso);
                     ("stats", from_option ticker_obj PNone st) ])))
  = entry_obj iso (native_ticker <$> st).
Proof.
  destruct st as [s|]; [|reflexivity].
  cbn [map fst snd from_option fmap option_fmap option_map entry_obj].
  change (convert_entry_value (PStr iso)) with (PStr iso).
  change (convert_entry_value (ticker_obj s)) with (_convert_numpy_types (ticker_obj s)).
  cbn [json_dump json_load map fst snd].
  change (json_load (json_dump (PStr iso))) with (PStr iso).
  rewrite (convert_dump_load (ticker_obj s)), native_ticker_obj. reflexivity.
Qed.

(** C5. Writing a cache with [save_cache] and reading the file back with
    [load_cache] gives the same cache, entry by entry and field by field,
    with every number turned into a native Python number of the same value:
    each field of each window record keeps its name and its value exactly,
    is a Python [int] or [float] and never a string, and is finite whenever
    it was finite before. *)
Theorem cache_round_trip (cache : list (string * (string * option TickerStats))) :
  load_cache (Some (save_cache (cache_obj cache)))
  = PDict (cache_obj (native_cache cache))
  /\ forall w,
       Forall2 field_preserved (window_fields w) (window_fields (native_window w)).
Proof.
  split.
  - unfold load_cache, save_cache, cache_obj, native_cache, cache_serializable.
    cbn [json_dump json_load]. f_equal. rewrite !map_map.
    apply map_ext. intros [name [iso st]]. cbn [fst snd].
    f_equal. unfold entry_obj at 1. cbn [json_dump json_load fst snd].
    apply (entry_round_trip iso st).
  - intros w. unfold window_fields, native_window. cbn.
    repeat (constructor; [apply native_num_preserved|]). constructor.
Qed.

(** A counter that went through [_convert_numpy_types] is written as a
    number; left as [np.int64] it would reach [default=str] and be written
    as a string. *)
Example swing_counts_stay_numbers :
  json_load (json_dump (_convert_numpy_types (PDict [("swing_2pct_days", PNum (NpInt64 3))])))
  = PDict [("swing_2pct_days", PNum (PyInt 3))]
  /\ json_load (json_dump (PDict [("swing_2pct_days", PNum (NpInt64 3))]))
     = PDict [("swing_2pct_days", PStr "3")].
Proof. split; reflexivity. Qed.

End PersistenceFacts.

(** ** The ranker: what the sorted tables promise *)

Module RankFacts.

Import Analyzer Statements.

(** *** Lists *)

Lemma omap_lookup_seq_from {A} (l pre : list A) :
  omap (fun i => (pre ++ l) !! i) (seq (length pre) (length l)) = l.
Proof.
  revert pre. induction l as [|x l IH]; intros pre; [reflexivity|].
  cbn [length seq omap]. cbn. rewrite list_lookup_middle by reflexivity. cbn.
  f_equal. specialize (IH (pre ++ [x])).
  rewrite <- app_assoc, length_app in IH. cbn in IH.
  rewrite Nat.add_1_r in IH. exact IH.
Qed.

Lemma omap_lookup_seq {A} (l : list A) :
  omap (fun i => l !! i) (seq 0 (length l)) = l.
Proof. apply (omap_lookup_seq_from l []). Qed.

Lemma omap_lookup_fmap {A B} (f : A -> B) (l : list A) (a : list nat) :
  omap (fun j => (f <$> l) !! j) a = f <$> omap (fun j => l !! j) a.
Proof.
  induction a as [|j a IH]; [reflexivity|].
  csimpl. rewrite list_lookup_fmap.
  destruct (l !! j); csimpl; rewrite IH; reflexivity.
Qed.

(** A list of positions that is a permutation of the positions of [l]
    selects a permutation of [l]. *)
Lemma omap_lookup_Permutation {A} (l : list A) (a : list nat) :
  a ≡ₚ seq 0 (length l) -> omap (fun j => l !! j) a ≡ₚ l.
Proof. intros ->. rewrite omap_lookup_seq. reflexivity. Qed.

Lemma rev_reverse {A} (l : list A) : rev l = reverse l.
Proof. unfold reverse. apply rev_alt. Qed.

Lemma filter_split {A} (f : A -> bool) (l : list A) :
  filter (fun x => negb (f x)) l ++ filter (fun x => f x) l ≡ₚ l.
Proof.
  induction l as [|x l IH]; [reflexivity|].
  rewrite !filter_cons. destruct (f x) eqn:E; cbn [negb].
  - rewrite decide_False by (intros []). rewrite decide_True by exact I.
    rewrite <- Permutation_middle. constructor. exact IH.
  - rewrite decide_True by exact I. rewrite decide_False by (intros []).
    cbn. constructor. exact IH.
Qed.

Lemma Sorted_app_all {A} (R : A -> A -> Prop) (l1 l2 : list A) :
  Sorted R l1 -> Sorted R l2 ->
  (forall x y, x ∈ l1 -> y ∈ l2 -> R x y) ->
  Sorted R (l1 ++ l2).
Proof.
  intros H1 H2 Hcross. induction H1 as [|x l1 Hs IH Hhd]; [exact H2|].
  cbn. constructor.
  - apply IH. intros a b Ha Hb. apply Hcross; [right; exact Ha|exact Hb].
  - destruct Hhd as [|y l1' Hxy]; cbn.
    + destruct l2 as [|y l2]; constructor. apply Hcross; constructor.
    + constructor. exact Hxy.
Qed.

(** Order carried along a pointwise relation. *)
Lemma Sorted_Forall2 {A B} (Q : A -> B -> Prop) (R1 : A -> A -> Prop)
    (R2 : B -> B -> Prop) (l : list A) (k : list B) :
  Forall2 Q l k ->
  (forall a a' b b', Q a b -> Q a' b' -> R1 a a' -> R2 b b') ->
  Sorted R1 l -> Sorted R2 k.
Proof.
  intros HQ Hcarry. induction HQ as [|a b l k Hab HQ IH]; intros Hs; [constructor|].
  apply Sorted_inv in Hs as [Hs Hhd]. constructor; [apply IH; exact Hs|].
  destruct HQ as [|a' b' l' k' Hab' _]; constructor.
  apply HdRel_inv in Hhd. eapply Hcarry; eassumption.
Qed.

Lemma StronglySorted_lookup {A} (R : A -> A -> Prop) (l : list A) (i j : nat) (x y : A) :
  StronglySorted R l -> l !! i = Some x -> l !! j = Some y -> i < j -> R x y.
Proof.
  intros Hs. revert i j. induction Hs as [|a l Hs IH Hall]; intros i j Hi Hj Hij.
  - rewrite lookup_nil in Hi. discriminate.
  - destruct j as [|j]; [lia|]. cbn in Hj. destruct i as [|i]; cbn in Hi.
    + injection Hi as <-. rewrite Forall_forall in Hall. apply Hall.
      eapply list_elem_of_lookup_2. exact Hj.
    + apply (IH i j); [exact Hi|exact Hj|lia].
Qed.

(** Selecting by positions that all exist selects one element each. *)
Lemma omap_lookup_Forall2 {A} (l : list A) (a : list nat) :
  Forall (fun j => j < length l) a ->
  Forall2 (fun j x => l !! j = Some x) a (omap (fun j => l !! j) a).
Proof.
  induction 1 as [|j a Hj _ IH]; [constructor|].
  cbn [omap]. cbn. destruct (lookup_lt_is_Some_2 l j Hj) as [x Hx].
  rewrite Hx. cbn. constructor; [exact Hx|exact IH].
Qed.


Lemma StronglySorted_filter_bool {A} (R : A -> A -> Prop) (f : A -> bool) (l : list A) :
  StronglySorted R l -> StronglySorted R (filter (fun x => f x) l).
Proof.
  induction 1 as [|x l Hs IH Hall]; [constructor|].
  rewrite filter_cons. destruct (decide (f x)); [|exact IH].
  constructor; [exact IH|].
  rewrite Forall_forall in Hall |- *. intros y Hy.
  apply list_elem_of_filter in Hy as [_ Hy]. apply Hall. exact Hy.
Qed.

Lemma zip_seq_sorted {A} (l : list A) :
  forall k n, StronglySorted (fun p q : nat * A => p.1 < q.1) (zip (seq k n) l).
Proof.
  induction l as [|x l IH]; intros k n.
  - destruct n; constructor.
  - destruct n as [|n]; [constructor|]. cbn. constructor; [apply IH|].
    rewrite Forall_forall. intros [i y] Hin. cbn.
    apply list_elem_of_lookup in Hin as [j Hj].
    apply lookup_zip_with_Some in Hj as (i' & y' & [= <- <-] & Hi & _).
    apply lookup_seq in Hi as [-> _]. lia.
Qed.

Lemma Sorted_all {A} (R : A -> A -> Prop) (P : A -> Prop) (l : list A) :
  Forall P l -> (forall x y, P y -> R x y) -> Sorted R l.
Proof.
  intros Hall HR. induction Hall as [|x l _ Hl IH]; constructor; [exact IH|].
  destruct Hl; constructor. apply HR. assumption.
Qed.

(** *** [sort_values], descending, under the contract of [argsort] *)

Section SortValuesFacts.

Context {K : Type}.
Variable lt : K -> K -> bool.
Variable isna : K -> bool.
Variable argsort : list K -> list nat.
Variable key : Row -> K.
Variable df : list Row.

(** The positions of the frame with their keys; those whose key is present,
    in the order handed to [argsort]; those whose key is missing. *)
Abbreviation tagged := (zip (seq 0 (length (map key df))) (map key df)).
Abbreviation live := (rev (filter (fun p : nat * K => negb (isna p.2)) tagged)).
Abbreviation missing := (filter (fun p : nat * K => isna p.2) tagged).
Abbreviation chosen := (omap (fun j => live !! j) (argsort (live.*2))).

Lemma tagged_row (p : nat * K) :
  p ∈ tagged -> exists r, df !! p.1 = Some r /\ key r = p.2.
Proof.
  intros Hp. apply list_elem_of_lookup in Hp as [i Hi].
  apply lookup_zip_with_Some in Hi as (j & x & -> & Hj & Hx).
  apply lookup_seq in Hj as [Hj _]. cbn [Nat.add] in Hj. subst j. cbn [fst snd].
  change (map key df) with (key <$> df) in Hx.
  rewrite list_lookup_fmap in Hx.
  destruct (df !! i) as [r|]; [|discriminate]. injection Hx as <-.
  exists r. split; reflexivity.
Qed.

Lemma live_tagged (p : nat * K) : p ∈ live -> p ∈ tagged /\ isna p.2 = false.
Proof.
  rewrite rev_reverse, elem_of_reverse, list_elem_of_filter.
  intros [Hna Hp]. split; [exact Hp|]. destruct (isna p.2); [destruct Hna|reflexivity].
Qed.

Lemma missing_tagged (p : nat * K) : p ∈ missing -> p ∈ tagged /\ isna p.2 = true.
Proof.
  rewrite list_elem_of_filter.
  intros [Hna Hp]. split; [exact Hp|]. destruct (isna p.2); [reflexivity|destruct Hna].
Qed.

Lemma sort_values_unfold :
  sort_values isna argsort df key false
  = omap (fun i => df !! i) (rev (chosen.*1) ++ missing.*1).
Proof.
  unfold sort_values, nargsort. cbn [negb]. rewrite omap_lookup_fmap. reflexivity.
Qed.

(** The rows at a list of tagged positions: one row each, with the key of
    the tag. *)
Lemma rows_at (l : list (nat * K)) :
  Forall (fun p => p ∈ tagged) l ->
  Forall2 (fun p r => df !! p.1 = Some r /\ key r = p.2)
          l (omap (fun i => df !! i) (l.*1)).
Proof.
  induction 1 as [|p l Hp _ IH]; [constructor|].
  destruct (tagged_row p Hp) as (r & Hr & Hk).
  csimpl. rewrite Hr. csimpl. constructor; [split; assumption|exact IH].
Qed.

Hypothesis argsort_ok : sorts_ascending lt argsort.

Lemma chosen_Permutation : chosen ≡ₚ live.
Proof.
  apply omap_lookup_Permutation.
  destruct (argsort_ok (live.*2)) as [Hperm _].
  rewrite Hperm, length_fmap. reflexivity.
Qed.

(** The sorted frame holds the rows of the frame, each once. *)
Lemma sort_values_Permutation : sort_values isna argsort df key false ≡ₚ df.
Proof.
  rewrite sort_values_unfold.
  transitivity (omap (fun i => df !! i) (seq 0 (length df)));
    [|rewrite omap_lookup_seq; reflexivity].
  f_equiv.
  rewrite <- Permutation_rev, chosen_Permutation, <- Permutation_rev.
  rewrite <- fmap_app, filter_split.
  rewrite fst_zip by (rewrite length_seq; lia).
  rewrite length_map. reflexivity.
Qed.

Lemma argsort_in_range : Forall (fun j => j < length live) (argsort (live.*2)).
Proof.
  destruct (argsort_ok (live.*2)) as [Hperm _].
  rewrite Forall_forall. intros j Hj. rewrite Hperm in Hj.
  apply elem_of_seq in Hj. rewrite length_fmap in Hj. lia.
Qed.

(** The positions [argsort] returns, paired with the tags they select. *)
Lemma chosen_Forall2 :
  Forall2 (fun j p => live !! j = Some p) (argsort (live.*2)) chosen.
Proof. apply omap_lookup_Forall2, argsort_in_range. Qed.

Lemma below_live (i j : nat) (p q : nat * K) :
  live !! i = Some p -> live !! j = Some q ->
  below lt (live.*2) i j = lt p.2 q.2.
Proof.
  intros Hp Hq. unfold below. rewrite !list_lookup_fmap, Hp, Hq. reflexivity.
Qed.

Lemma chosen_sorted : Sorted (fun p q : nat * K => lt q.2 p.2 = false) chosen.
Proof.
  destruct (argsort_ok (live.*2)) as [_ Hsorted].
  eapply Sorted_Forall2; [apply chosen_Forall2| |exact Hsorted].
  intros i j p q Hp Hq Hij. cbn in Hij.
  rewrite (below_live j i q p Hq Hp) in Hij. exact Hij.
Qed.

Lemma selection_tagged : Forall (fun p => p ∈ tagged) (rev chosen ++ missing).
Proof.
  rewrite Forall_app. split; rewrite Forall_forall; intros p Hp.
  - rewrite rev_reverse, elem_of_reverse, chosen_Permutation in Hp.
    apply live_tagged in Hp as [Hp _]. exact Hp.
  - apply missing_tagged in Hp as [Hp _]. exact Hp.
Qed.

Lemma sort_values_rows :
  Forall2 (fun p r => df !! p.1 = Some r /\ key r = p.2)
          (rev chosen ++ missing) (sort_values isna argsort df key false).
Proof.
  rewrite sort_values_unfold.
  change (rev (chosen.*1)) with (rev (map fst chosen)).
  rewrite <- map_rev.
  change (map fst (rev chosen)) with ((rev chosen).*1).
  rewrite <- fmap_app. apply rows_at, selection_tagged.
Qed.

(** A missing key is below nothing and nothing is below it. *)
Hypothesis lt_missing : forall a b, isna b = true -> lt a b = false.

(** The sorted frame is in non-increasing order of the key, the rows with a
    missing key last. *)
Lemma sort_values_descending :
  descending lt key (sort_values isna argsort df key false).
Proof.
  unfold descending.
  eapply (Sorted_Forall2 _ (fun p q : nat * K => lt p.2 q.2 = false));
    [apply sort_values_rows| |].
  - intros p q r r' [_ Hr] [_ Hr'] Hpq. rewrite Hr, Hr'. exact Hpq.
  - apply Sorted_app_all.
    + rewrite rev_reverse.
      apply (Sorted_reverse (fun p q : nat * K => lt q.2 p.2 = false)).
      exact chosen_sorted.
    + apply (Sorted_all _ (fun p => isna p.2 = true)).
      * rewrite Forall_forall. intros p Hp. apply missing_tagged in Hp as [_ Hp].
        exact Hp.
      * intros x y Hy. apply lt_missing. exact Hy.
    + intros x y _ Hy. apply missing_tagged in Hy as [_ Hy].
      apply lt_missing. exact Hy.
Qed.

(** With a stable [argsort], and row labels that grow along the frame, rows
    with keys of the same rank stay in the order of their labels. *)
Lemma sort_values_ties :
  stable lt argsort ->
  StronglySorted (fun r r' => row_label r < row_label r') df ->
  ties_keep_order lt isna key (sort_values isna argsort df key false).
Proof.
  intros Hstable Hlabels P Q r1 r2 Hr1 Hr2 HPQ Hna1 Hna2 _ H21.
  pose proof sort_values_rows as Hrows.
  destruct (Forall2_lookup_r _ _ _ _ _ Hrows Hr1) as (p1 & Hp1 & Hd1 & Hk1).
  destruct (Forall2_lookup_r _ _ _ _ _ Hrows Hr2) as (p2 & Hp2 & Hd2 & Hk2).
  assert (Q < length (rev chosen)) as HQ.
  { destruct (Nat.lt_ge_cases Q (length (rev chosen))) as [|Hge]; [assumption|].
    rewrite lookup_app_r in Hp2 by exact Hge.
    apply list_elem_of_lookup_2, missing_tagged in Hp2 as [_ Hp2].
    congruence. }
  rewrite lookup_app_l in Hp1 by lia. rewrite lookup_app_l in Hp2 by exact HQ.
  rewrite rev_reverse in Hp1, Hp2, HQ. rewrite length_reverse in HQ.
  apply reverse_lookup_Some in Hp1 as [Hp1 _].
  apply reverse_lookup_Some in Hp2 as [Hp2 _].
  destruct (Forall2_lookup_r _ _ _ _ _ chosen_Forall2 Hp1) as (j1 & Ha1 & Hl1).
  destruct (Forall2_lookup_r _ _ _ _ _ chosen_Forall2 Hp2) as (j2 & Ha2 & Hl2).
  assert (j2 < j1) as Hj.
  { apply (Hstable (live.*2) _ _ j2 j1 Ha2 Ha1); [lia|].
    rewrite (below_live j2 j1 p2 p1 Hl2 Hl1), <- Hk1, <- Hk2. exact H21. }
  rewrite rev_reverse in Hl1, Hl2.
  apply reverse_lookup_Some in Hl1 as [Hl1 Hb1].
  apply reverse_lookup_Some in Hl2 as [Hl2 Hb2].
  assert (p1.1 < p2.1) as Hpos.
  { eapply (StronglySorted_lookup (fun p q : nat * K => p.1 < q.1));
      [|exact Hl1|exact Hl2|lia].
    apply (StronglySorted_filter_bool _ (fun p => negb (isna p.2))), zip_seq_sorted. }
  exact (StronglySorted_lookup _ _ _ _ _ _ Hlabels Hd1 Hd2 Hpos).
Qed.

End SortValuesFacts.

(** *** The two insertion sorts of [Platform] *)

Section InsertionFacts.

Context {K : Type}.
Variable lt : K -> K -> bool.
Hypothesis lt_asym : forall a b, lt a b = true -> lt b a = false.

Variable keys : list K.

Abbreviation ascending := (fun i j : nat => below lt keys j i = false).

Lemma below_asym (i j : nat) : below lt keys i j = true -> below lt keys j i = false.
Proof.
  unfold below. destruct (keys !! i), (keys !! j); try discriminate; try reflexivity.
  apply lt_asym.
Qed.

Lemma place_after_Permutation (i : nat) (placed : list nat) :
  Platform.place_after lt keys i placed ≡ₚ i :: placed.
Proof.
  induction placed as [|j rest IH]; [reflexivity|]. cbn.
  destruct (Platform.key_lt lt keys i j); [reflexivity|].
  rewrite IH. apply perm_swap.
Qed.

Lemma fold_place_Permutation (place : nat -> list nat -> list nat) :
  (forall i placed, place i placed ≡ₚ i :: placed) ->
  forall l placed, fold_left (fun acc i => place i acc) l placed ≡ₚ l ++ placed.
Proof.
  intros Hplace. induction l as [|i l IH]; intros placed; [reflexivity|].
  cbn. rewrite IH, Hplace. symmetry. apply Permutation_middle.
Qed.

Lemma place_after_Sorted (i : nat) (placed : list nat) :
  Sorted ascending placed -> Sorted ascending (Platform.place_after lt keys i placed).
Proof.
  induction 1 as [|j rest Hs IH Hhd]; [repeat constructor|]. cbn.
  change (Platform.key_lt lt keys i j) with (below lt keys i j).
  destruct (below lt keys i j) eqn:Hij.
  - constructor; [constructor; assumption|]. constructor. apply below_asym. exact Hij.
  - constructor; [exact IH|].
    destruct Hhd as [|k rest' Hjk]; cbn; [constructor; exact Hij|].
    change (Platform.key_lt lt keys i k) with (below lt keys i k).
    destruct (below lt keys i k); constructor; assumption.
Qed.

Lemma fold_place_Sorted (place : nat -> list nat -> list nat) :
  (forall i placed, Sorted ascending placed -> Sorted ascending (place i placed)) ->
  forall l placed,
    Sorted ascending placed ->
    Sorted ascending (fold_left (fun acc i => place i acc) l placed).
Proof.
  intros Hplace. induction l as [|i l IH]; intros placed Hs; [exact Hs|].
  cbn. apply IH, Hplace, Hs.
Qed.

End InsertionFacts.

Lemma argsort_stable_ok {K} (lt : K -> K -> bool) :
  (forall a b, lt a b = true -> lt b a = false) ->
  sorts_ascending lt (Platform.argsort_stable lt).
Proof.
  intros Hasym keys. unfold Platform.argsort_stable. split.
  - rewrite (fold_place_Permutation (Platform.place_after lt keys));
      [rewrite app_nil_r; reflexivity|apply place_after_Permutation].
  - apply (fold_place_Sorted lt keys (Platform.place_after lt keys));
      [apply place_after_Sorted; exact Hasym|constructor].
Qed.

(** [argsort_stable] is stable, for a comparison that ranks the keys. *)
Section StableFacts.

Context {K : Type}.
Variable lt : K -> K -> bool.
Hypothesis lt_asym : forall a b, lt a b = true -> lt b a = false.
Hypothesis lt_rank : forall a b c, lt a c = true -> lt a b = true \/ lt b c = true.

Variable keys : list K.

(** [a] may come before [b]: the key of [b] is not smaller, and when the
    keys have the same rank, [a] is the smaller position. *)
Abbreviation in_order :=
  (fun a b : nat => below lt keys b a = false
                    /\ (below lt keys a b = false -> a < b)).

Lemma below_rank (a b c : nat) :
  b < length keys ->
  below lt keys a c = true -> below lt keys a b = true \/ below lt keys b c = true.
Proof.
  intros Hb. unfold below.
  destruct (lookup_lt_is_Some_2 keys b Hb) as [kb ->].
  destruct (keys !! a), (keys !! c); try discriminate. apply lt_rank.
Qed.

Lemma place_after_in_order (i : nat) (placed : list nat) :
  i < length keys ->
  Forall (fun a => a < i) placed ->
  Forall (fun a => a < length keys) placed ->
  StronglySorted in_order placed ->
  StronglySorted in_order (Platform.place_after lt keys i placed).
Proof.
  intros Hi Hlt Hrange Hs.
  induction Hs as [|j rest Hs IH Hall]; [repeat constructor|]. cbn.
  apply Forall_cons in Hlt as [Hji Hlt]. apply Forall_cons in Hrange as [Hj Hrange].
  change (Platform.key_lt lt keys i j) with (below lt keys i j).
  destruct (below lt keys i j) eqn:Hij.
  - constructor; [constructor; assumption|].
    constructor.
    + split; [apply (below_asym lt lt_asym); exact Hij|]. congruence.
    + rewrite Forall_forall in Hall |- *. intros b Hb.
      destruct (Hall b Hb) as [Hbj _].
      assert (below lt keys i b = true) as Hib.
      { destruct (below_rank i b j) as [H|H]; [|exact Hij|exact H|congruence].
        rewrite Forall_forall in Hrange. apply Hrange. exact Hb. }
      split; [apply (below_asym lt lt_asym); exact Hib|congruence].
  - constructor; [apply IH; assumption|].
    rewrite Forall_forall. intros b Hb.
    rewrite (place_after_Permutation lt keys i rest) in Hb.
    apply elem_of_cons in Hb as [->|Hb].
    + split; [exact Hij|]. intros _. exact Hji.
    + rewrite Forall_forall in Hall. apply Hall. exact Hb.
Qed.

Lemma fold_place_after_in_order :
  forall m k placed,
    k + m <= length keys ->
    Forall (fun a => a < k) placed ->
    StronglySorted in_order placed ->
    StronglySorted in_order
      (fold_left (fun acc i => Platform.place_after lt keys i acc) (seq k m) placed).
Proof.
  induction m as [|m IH]; intros k placed Hk Hlt Hs; [exact Hs|].
  cbn. apply IH; [lia| |].
  - rewrite Forall_forall. intros a Ha.
    rewrite (place_after_Permutation lt keys k placed) in Ha.
    apply elem_of_cons in Ha as [->|Ha]; [lia|].
    rewrite Forall_forall in Hlt. specialize (Hlt a Ha). lia.
  - apply place_after_in_order; [lia|exact Hlt| |exact Hs].
    eapply Forall_impl; [exact Hlt|]. intros a Ha. cbn in Ha. lia.
Qed.

End StableFacts.

Lemma argsort_stable_stable {K} (lt : K -> K -> bool) :
  (forall a b, lt a b = true -> lt b a = false) ->
  (forall a b c, lt a c = true -> lt a b = true \/ lt b c = true) ->
  stable lt (Platform.argsort_stable lt).
Proof.
  intros Hasym Hrank keys p q i j Hp Hq Hpq Hij.
  assert (StronglySorted
            (fun a b : nat => below lt keys b a = false
                              /\ (below lt keys a b = false -> a < b))
            (Platform.argsort_stable lt keys)) as Hs.
  { apply (fold_place_after_in_order lt Hasym Hrank keys);
      [cbn; lia|constructor|constructor]. }
  destruct (StronglySorted_lookup _ _ _ _ _ _ Hs Hp Hq Hpq) as [_ Hties].
  apply Hties. exact Hij.
Qed.

Lemma Zltb_asym (a b : Z) : (a <? b)%Z = true -> (b <? a)%Z = false.
Proof. intros H%Z.ltb_lt. apply Z.ltb_ge. lia. Qed.

Lemma Zltb_rank (a b c : Z) :
  (a <? c)%Z = true -> (a <? b)%Z = true \/ (b <? c)%Z = true.
Proof.
  intros H%Z.ltb_lt. destruct (Z.ltb_spec a b); [left; reflexivity|].
  right. apply Z.ltb_lt. lia.
Qed.

(** *** Comparisons of binary64 values *)

Lemma SFltb_asym (a b : spec_float) : SFltb a b = true -> SFltb b a = false.
Proof.
  unfold SFltb, SFcompare.
  destruct a as [sa|sa| |sa ma ea], b as [sb|sb| |sb mb eb];
    try destruct sa; try destruct sb; try reflexivity; try discriminate.
  all: rewrite (Z.compare_antisym ea eb); destruct (ea ?= eb)%Z; cbn;
    try reflexivity; try discriminate.
  all: change (PosDef.Pos.compare_cont Eq mb ma) with (Pos.compare mb ma);
    change (PosDef.Pos.compare_cont Eq ma mb) with (Pos.compare ma mb);
    rewrite (Pos.compare_antisym ma mb); destruct (Pos.compare ma mb); cbn;
    try reflexivity; discriminate.
Qed.

Lemma ltb_asym (a b : float) : (a <? b)%float = true -> (b <? a)%float = false.
Proof. rewrite !FloatAxioms.ltb_spec. apply SFltb_asym. Qed.

Lemma SFeqb_self_false (a : spec_float) : SFeqb a a = false -> a = S754_nan.
Proof.
  unfold SFeqb, SFcompare. destruct a as [s|s| |s m e]; try reflexivity.
  - discriminate.
  - destruct s; discriminate.
  - rewrite Z.compare_refl, Pos.compare_cont_refl. destruct s; discriminate.
Qed.

(** Nothing is below NaN. *)
Lemma ltb_nan_r (a b : float) : Np.isnan b = true -> (a <? b)%float = false.
Proof.
  unfold Np.isnan, is_nan. rewrite FloatAxioms.eqb_spec, FloatAxioms.ltb_spec. intros H.
  apply Bool.negb_true_iff, SFeqb_self_false in H. rewrite H.
  unfold SFltb. destruct (Prim2SF a); reflexivity.
Qed.

(** *** The five rankings *)

Lemma lookup_StronglySorted {A} (R : A -> A -> Prop) (l : list A) :
  (forall i j x y, l !! i = Some x -> l !! j = Some y -> i < j -> R x y) ->
  StronglySorted R l.
Proof.
  induction l as [|a l IH]; intros H; constructor.
  - apply IH. intros i j x y Hi Hj Hij. apply (H (S i) (S j)); [exact Hi|exact Hj|lia].
  - rewrite Forall_forall. intros y Hy.
    apply list_elem_of_lookup in Hy as [j Hj].
    apply (H 0 (S j)); [reflexivity|exact Hj|lia].
Qed.

Lemma valid_rows_labels (stats_list : list TickerStats) (window : Window) :
  StronglySorted (fun r r' => row_label r < row_label r')
                 (valid_rows stats_list window).
Proof.
  apply lookup_StronglySorted. intros i j x y Hi Hj Hij.
  unfold valid_rows in Hi, Hj.
  apply list_lookup_imap_Some in Hi as (tw & _ & ->).
  apply list_lookup_imap_Some in Hj as (tw' & _ & ->).
  exact Hij.
Qed.

Lemma consistency_rows_labels (df : list Row) :
  StronglySorted (fun r r' => row_label r < row_label r') df ->
  StronglySorted (fun r r' => row_label r < row_label r') (consistency_rows df).
Proof.
  apply (StronglySorted_filter_bool _
           (fun r => negb (Np.isnan (float_column consistency_score r))
                     && negb (float_column consistency_score r =? infinity)%float)).
Qed.

(** Each category of [rank_results] holds the five tables of its frame. *)
Lemma rank_results_tables
    (argsort_float : list float -> list nat) (argsort_int : list Z -> list nat)
    (agg : Aggregated) (window : Window) (cat : string)
    (tables : list (string * Table)) :
  (cat, tables) ∈ rank_results argsort_float argsort_int agg window ->
  exists stats_list,
    stats_list ∈ [agg_all agg; agg_stocks agg; agg_etfs agg]
    /\ tables = category_rankings argsort_float argsort_int
                  (valid_rows stats_list window).
Proof.
  unfold rank_results. intros Hin.
  apply list_elem_of_omap in Hin as ([c stats_list] & Hc & Hsome).
  cbn [fst snd] in Hsome.
  destruct (valid_rows stats_list window) as [|r df] eqn:E; [discriminate|].
  injection Hsome as <- <-. exists stats_list. split; [|rewrite E; reflexivity].
  rewrite !elem_of_cons, elem_of_nil in Hc. rewrite !elem_of_cons.
  destruct Hc as [[= _ ->]|[[= _ ->]|[[= _ ->]|[]]]]; auto.
Qed.

(** The labels of a table are those of the sorted frame, in its order. *)
Lemma select_labels (cols : list string) (df : list Row) :
  (select cols df).*1 = row_label <$> df.
Proof. unfold select. induction df as [|r df IH]; [reflexivity|]. cbn. f_equal. exact IH. Qed.

Section Rankings.

Variable argsort_float : list float -> list nat.
Variable argsort_int : list Z -> list nat.


End Rankings.

End RankFacts.

(** ** The ranker on two tied tickers *)

Module RankRuns.

Import Analyzer Statements RankFacts.


End RankRuns.

Module FloatFacts.

Local Open Scope float_scope.

Lemma SFltb_trans (a b c : spec_float) :
  SFltb a b = true -> SFltb b c = true -> SFltb a c = true.
Proof.
  unfold SFltb.
  destruct a as [sa|sa| |sa ma ea], b as [sb|sb| |sb mb eb], c as [sc|sc| |sc mc ec];
    cbn [SFcompare];
    repeat match goal with s : bool |- _ => destruct s end;
    try discriminate; try reflexivity.
  all: change (Pos.compare_cont Eq) with Pos.compare.
  all: repeat match goal with
       | |- context [(?x ?= ?y)%Z] => destruct (Z.compare_spec x y)
       | |- context [(?x ?= ?y)%positive] => destruct (Pos.compare_spec x y)
       end; cbn [CompOpp]; intros; try reflexivity; try discriminate; exfalso; lia.
Qed.

Lemma ltb_trans (a b c : float) :
  (a <? b) = true -> (b <? c) = true -> (a <? c) = true.
Proof. rewrite !FloatAxioms.ltb_spec. apply SFltb_trans. Qed.

(** *** NaN: what it is, and how it spreads *)

Lemma is_nan_spec (x : float) : is_nan x = true <-> Prim2SF x = S754_nan.
Proof.
  unfold is_nan. rewrite FloatAxioms.eqb_spec, Bool.negb_true_iff. split.
  - apply RankFacts.SFeqb_self_false.
  - intros ->. reflexivity.
Qed.

Lemma add_nan_l (x y : float) : is_nan x = true -> is_nan (x + y) = true.
Proof. rewrite !is_nan_spec, FloatAxioms.add_spec. intros ->. reflexivity. Qed.

Lemma add_nan_r (x y : float) : is_nan y = true -> is_nan (x + y) = true.
Proof.
  rewrite !is_nan_spec, FloatAxioms.add_spec. intros ->.
  destruct (Prim2SF x); reflexivity.
Qed.

Lemma sub_nan_l (x y : float) : is_nan x = true -> is_nan (x - y) = true.
Proof. rewrite !is_nan_spec, FloatAxioms.sub_spec. intros ->. reflexivity. Qed.

Lemma sub_nan_r (x y : float) : is_nan y = true -> is_nan (x - y) = true.
Proof.
  rewrite !is_nan_spec, FloatAxioms.sub_spec. intros ->.
  destruct (Prim2SF x); reflexivity.
Qed.

Lemma mul_nan_l (x y : float) : is_nan x = true -> is_nan (x * y) = true.
Proof. rewrite !is_nan_spec, FloatAxioms.mul_spec. intros ->. reflexivity. Qed.

Lemma div_nan_l (x y : float) : is_nan x = true -> is_nan (x / y) = true.
Proof. rewrite !is_nan_spec, FloatAxioms.div_spec. intros ->. reflexivity. Qed.

Lemma sqrt_nan (x : float) : is_nan x = true -> is_nan (PrimFloat.sqrt x) = true.
Proof. rewrite !is_nan_spec, FloatAxioms.sqrt_spec. intros ->. reflexivity. Qed.

(** Equal to plus infinity is infinite. *)
Lemma eqb_infinity (x : float) : (x =? infinity) = true -> is_infinity x = true.
Proof.
  unfold is_infinity. rewrite !FloatAxioms.eqb_spec, FloatAxioms.abs_spec.
  change (Prim2SF infinity) with (S754_infinity false).
  destruct (Prim2SF x) as [s|s| |s m e]; try discriminate.
  destruct s; [discriminate|reflexivity].
Qed.

End FloatFacts.



Module WindowFacts.

Import Analyzer Statements Properties.

Local Open Scope float_scope.

Section Engine.

Variable ln : float -> float.
Variable resample_B : list Bar -> list Bar.

Abbreviation filtered := (filtered_daily ln resample_B).
Abbreviation compute := (compute_intraday_stats ln resample_B).

(** Each window of a record is the window record of a non-empty trailing
    slice of the filtered daily series. *)
Lemma record_windows (data : DataFrame) (name : string) (st : TickerStats)
    (window : Window) :
  compute (Some data) name = Some st ->
  get_window st window =
    if (window_threshold window <=? length (filtered data))%nat
    then _compute_window_stats (Np.lastn (window_length window) (filtered data))
    else None.
Proof.
  intros Hst. apply EngineFacts.compute_intraday_stats_some in Hst.
  destruct Hst as (H5 & _ & _ & Ht & H3 & H7 & H30 & H60 & H180).
  unfold MIN_DAYS_REQUIRED in H5.
  destruct window; cbn [get_window window_threshold window_length];
    try assumption.
  - rewrite Ht. destruct (Nat.leb_spec 1 (length (filtered data))); [reflexivity|lia].
  - rewrite H3. destruct (Nat.leb_spec 3 (length (filtered data))); [reflexivity|lia].
Qed.

Lemma window_slice (data : DataFrame) (name : string) (st : TickerStats)
    (window : Window) (w : WindowStats) :
  compute (Some data) name = Some st ->
  get_window st window = Some w ->
  window_threshold window <= length (filtered data)
  /\ _compute_window_stats (Np.lastn (window_length window) (filtered data)) = Some w.
Proof.
  intros Hst Hw. rewrite (record_windows _ _ _ _ Hst) in Hw.
  destruct (Nat.leb_spec (window_threshold window) (length (filtered data)));
    [|discriminate].
  split; assumption.
Qed.

(** X3. A record the engine returns carries the ticker it was asked for
    and, as total_days, the number of valid daily rows, which is at least
    5. Each of the six windows is present exactly when total_days reaches
    its threshold (1, 3, 7, 30, 60 and 180), and a window that is present
    counts as many days as its length (1, 3, 7, 30, 90 and 252) allows:
    the smaller of its length and total_days. *)
Theorem windows_by_total_days (data : DataFrame) (name : string) (st : TickerStats) :
  compute (Some data) name = Some st ->
  ticker st = name
  /\ MIN_DAYS_REQUIRED <= total_days st
  /\ total_days st = length (filtered data)
  /\ forall window,
       (is_Some (get_window st window) <-> window_threshold window <= total_days st)
       /\ forall w, get_window st window = Some w ->
            days_in_window w
            = PyInt (Z.of_nat (Nat.min (window_length window) (total_days st))).
Proof.
  intros Hst.
  pose proof (EngineFacts.compute_intraday_stats_some _ _ _ _ _ Hst)
    as (H5 & Hname & Hdays & _).
  split; [exact Hname|]. split; [rewrite Hdays; exact H5|]. split; [exact Hdays|].
  intros window. rewrite Hdays. split; [split|].
  - intros [w Hw]. apply (window_slice _ _ _ _ _ Hst Hw).
  - intros Hlen. rewrite (record_windows _ _ _ _ Hst).
    destruct (Nat.leb_spec (window_threshold window) (length (filtered data))); [|lia].
    destruct (EngineFacts.window_stats_present
                (Np.lastn (window_length window) (filtered data))) as (w & Hw & _).
    + apply EngineFacts.lastn_nonempty; [destruct window; cbn; lia|].
      intros E. rewrite E in Hlen. destruct window; cbn in Hlen; lia.
    + rewrite Hw. eauto.
  - intros w Hw. destruct (window_slice _ _ _ _ _ Hst Hw) as [Hlen Hslice].
    destruct (EngineFacts.window_stats_present
                (Np.lastn (window_length window) (filtered data))) as (w' & Hw' & Hd).
    + apply EngineFacts.lastn_nonempty; [destruct window; cbn; lia|].
      intros E. rewrite E in Hlen. destruct window; cbn in Hlen; lia.
    + rewrite Hslice in Hw'. injection Hw' as <-.
      rewrite Hd, EngineFacts.lastn_length. reflexivity.
Qed.

(** The window record of a single row. *)
Lemma single_row_window (r : DailyRow) (w : WindowStats) :
  _compute_window_stats [r] = Some w ->
  days_in_window w = PyInt 1
  /\ std_intraday_range w = PyFloat 0
  /\ daily_std_dev w = PyFloat 0
  /\ consistency_score w = PyFloat 0
  /\ realized_volatility w = PyFloat 0
  /\ extreme_move_days w = PyInt 0
  /\ ultra_extreme_move_days w = PyInt 0.
Proof.
  intros [= <-].
  cbn [days_in_window std_intraday_range daily_std_dev consistency_score
       realized_volatility extreme_move_days ultra_extreme_move_days
       map length Nat.ltb Nat.leb num_float].
  repeat split; try reflexivity.
  destruct (negb (Np.isnan (LogReturn r))) eqn:E.
  - rewrite filter_cons_True by (rewrite E; exact I). reflexivity.
  - rewrite filter_cons_False by (rewrite E; exact id). reflexivity.
Qed.

Lemma lastn_one {A} (l : list A) :
  l <> [] -> exists x, Np.lastn 1 l = [x].
Proof.
  intros Hne. destruct (Np.lastn 1 l) as [|x [|y rest]] eqn:E.
  - apply EngineFacts.lastn_nonempty in E; [contradiction|lia|exact Hne].
  - eauto.
  - apply (f_equal length) in E. rewrite EngineFacts.lastn_length in E.
    cbn [length] in E. lia.
Qed.

(** X4. In every record the engine returns, the today window is present
    and is taken from one row: it counts one day, and the standard
    deviation of the range, the daily standard deviation, the consistency
    score, the realized volatility and the two counters of extreme moves
    are all zero. *)
Theorem today_window_has_no_spread (data : DataFrame) (name : string)
    (st : TickerStats) :
  compute (Some data) name = Some st ->
  exists w,
    today st = Some w
    /\ days_in_window w = PyInt 1
    /\ std_intraday_range w = PyFloat 0
    /\ daily_std_dev w = PyFloat 0
    /\ consistency_score w = PyFloat 0
    /\ realized_volatility w = PyFloat 0
    /\ extreme_move_days w = PyInt 0
    /\ ultra_extreme_move_days w = PyInt 0.
Proof.
  intros Hst.
  pose proof (EngineFacts.compute_intraday_stats_some _ _ _ _ _ Hst)
    as (H5 & _ & _ & Ht & _).
  unfold MIN_DAYS_REQUIRED in H5.
  destruct (lastn_one (filtered data)) as [r Hr].
  { intros E. rewrite E in H5. cbn in H5. lia. }
  rewrite Hr in Ht.
  destruct (EngineFacts.window_stats_present [r]) as (w & Hw & _); [discriminate|].
  exists w. split; [congruence|]. apply (single_row_window r w Hw).
Qed.

Lemma window_checked_fields (data : DataFrame) (name : string)
    (st : TickerStats) (window : Window) (w : WindowStats) :
  compute (Some data) name = Some st ->
  get_window st window = Some w ->
  Forall (fun n => num_finite n = true) (checked_fields w).
Proof.
  intros Hst Hw.
  destruct (window_slice _ _ _ _ _ Hst Hw) as [_ Hslice].
  apply (EngineFacts.checked_fields_finite _ _ Hslice).
Qed.

(** X5. In every window of every record the engine returns, the sixteen
    fields that the engine guards or counts are finite, whatever the
    history: the average and the standard deviation of the range, the daily
    standard deviation, the realized volatility, the consistency score, the
    four counters, the number of days and the six percentiles. *)
Theorem checked_fields_are_finite (data : DataFrame) (name : string)
    (st : TickerStats) :
  compute (Some data) name = Some st ->
  forall window w,
    get_window st window = Some w ->
    Forall (fun n => num_finite n = true) (checked_fields w).
Proof. intros Hst window w Hw. apply (window_checked_fields _ _ _ _ _ Hst Hw). Qed.

End Engine.

Lemma count_gt_le_length (xs : list float) (t : float) :
  Np.count_gt xs t <= length xs.
Proof. unfold Np.count_gt. apply length_filter. Qed.

Lemma count_gt_antitone (xs : list float) (t1 t2 : float) :
  (t1 <? t2) = true -> Np.count_gt xs t2 <= Np.count_gt xs t1.
Proof.
  intros Ht. unfold Np.count_gt.
  induction xs as [|x xs IH]; [reflexivity|].
  rewrite !filter_cons.
  destruct (decide (t2 <? x)) as [H2|H2].
  - destruct (decide (t1 <? x)) as [H1|H1]; [cbn [length]; lia|].
    exfalso. apply H1. apply Is_true_true. apply Is_true_true in H2.
    apply (FloatFacts.ltb_trans _ _ _ Ht H2).
  - destruct (decide (t1 <? x)); cbn [length]; lia.
Qed.

(** X6. The four counters of a window are counts of rows of the window:
    each is a non-negative integer not above the number of rows, which is
    what days_in_window holds, and the days with a swing above 3% are at
    most the days with a swing above 2%. *)
Theorem counters_within_window (rows : list DailyRow) (w : WindowStats) :
  _compute_window_stats rows = Some w ->
  exists swing2 swing3 extreme ultra : nat,
    swing_2pct_days w = NpInt64 (Z.of_nat swing2)
    /\ swing_3pct_days w = NpInt64 (Z.of_nat swing3)
    /\ extreme_move_days w = PyInt (Z.of_nat extreme)
    /\ ultra_extreme_move_days w = PyInt (Z.of_nat ultra)
    /\ days_in_window w = PyInt (Z.of_nat (length rows))
    /\ swing3 <= swing2 /\ swing2 <= length rows
    /\ extreme <= length rows /\ ultra <= length rows.
Proof.
  destruct rows as [|r rows]; [discriminate|].
  intros [= <-].
  set (ranges := map IntradayRange (r :: rows)).
  assert (length ranges = length (r :: rows)) as Hlen by apply length_map.
  exists (Np.count_gt ranges 2), (Np.count_gt ranges 3).
  cbn [swing_2pct_days swing_3pct_days extreme_move_days ultra_extreme_move_days
       days_in_window].
  fold ranges.
  set (usable := (_ && _ && _)%bool).
  set (mean_ok := negb (_ || _)).
  assert ((2 <? 3) = true) as H23 by reflexivity.
  pose proof (count_gt_antitone ranges 2 3 H23) as Hswing.
  pose proof (count_gt_le_length ranges 2) as Hle.
  destruct usable, mean_ok; [eexists _, _|exists 0%nat, 0%nat..];
    repeat split; try reflexivity; try assumption; try lia;
    try (rewrite <- Hlen; apply count_gt_le_length).
Qed.


Lemma filter_all {A} (P : A -> Prop) `{forall x, Decision (P x)} (l : list A) :
  Forall P l -> filter P l = l.
Proof.
  induction 1 as [|x l Hx _ IH]; [reflexivity|].
  rewrite filter_cons_True by exact Hx. rewrite IH. reflexivity.
Qed.

(** A finite float is neither NaN nor equal to plus infinity. *)
Lemma finite_float (x : float) :
  Np.finite x = true -> Np.isnan x = false /\ (x =? infinity) = false.
Proof.
  unfold Np.finite. intros H.
  apply Bool.negb_true_iff, Bool.orb_false_iff in H as [Hnan Hinf].
  split; [exact Hnan|].
  destruct (x =? infinity) eqn:E; [|reflexivity].
  apply FloatFacts.eqb_infinity in E. unfold Np.isinf in Hinf. congruence.
Qed.

(** The mean range and the consistency score of a window record are
    floats. *)
Lemma float_fields (rows : list DailyRow) (w : WindowStats) :
  _compute_window_stats rows = Some w ->
  exists a c : float,
    (avg_intraday_range w = PyFloat a \/ avg_intraday_range w = NpFloat64 a)
    /\ (consistency_score w = PyFloat c \/ consistency_score w = NpFloat64 c).
Proof.
  destruct rows as [|r rows]; [discriminate|].
  intros [= <-]. cbn [avg_intraday_range consistency_score].
  match goal with
  | |- exists a c, (?A = _ \/ _) /\ (?C = _ \/ _) =>
    assert (exists a, A = PyFloat a \/ A = NpFloat64 a) as [a Ha];
      [|assert (exists c, C = PyFloat c \/ C = NpFloat64 c) as [c Hc]; [|eauto]]
  end.
  - match goal with |- context [if ?b then PyFloat 0 else _] => destruct b end; eauto.
  - match goal with
    | |- context [if ?b then sanitize ?x else _] =>
      destruct b; [unfold sanitize; destruct (Np.isnan x || Np.isinf x)|]; eauto
    end.
Qed.


Section Ranking.

Variable ln : float -> float.
Variable resample_B : list Bar -> list Bar.

Lemma valid_rows_stats (stats_list : list TickerStats) (window : Window) (r : Row) :
  r ∈ valid_rows stats_list window ->
  exists st, st ∈ stats_list /\ get_window st window = Some (row_stats r).
Proof.
  unfold valid_rows. intros Hr.
  apply list_elem_of_lookup in Hr as [i Hi].
  apply list_lookup_imap_Some in Hi as ([name w] & Htw & ->).
  apply list_elem_of_lookup_2, list_elem_of_omap in Htw as (st & Hst & Hget).
  exists st. split; [exact Hst|].
  destruct (get_window st window) as [w'|]; [|discriminate].
  cbn in Hget. injection Hget as _ <-. reflexivity.
Qed.

(** X13. On rows that come from records of the engine, the filter of the
    most_consistent ranking (a consistency score that is neither NaN nor
    infinite) removes no row, and no row has NaN for its average range: the
    five rankings list the same tickers. *)
Theorem consistency_filter_keeps_engine_rows
    (stats_list : list TickerStats) (window : Window) :
  Forall (engine_record ln resample_B) stats_list ->
  consistency_rows (valid_rows stats_list window) = valid_rows stats_list window
  /\ Forall (fun r => Np.isnan (float_column avg_intraday_range r) = false)
            (valid_rows stats_list window).
Proof.
  intros Hengine.
  assert (forall r, r ∈ valid_rows stats_list window ->
            Forall (fun n => num_finite n = true) (checked_fields (row_stats r)))
    as Hfinite.
  { intros r Hr. destruct (valid_rows_stats _ _ _ Hr) as (st & Hst & Hw).
    rewrite Forall_forall in Hengine.
    destruct (Hengine st Hst) as (data & name & Hrun).
    apply (window_checked_fields ln resample_B data name st window _ Hrun Hw). }
  assert (forall r, r ∈ valid_rows stats_list window ->
            exists a c : float,
              (avg_intraday_range (row_stats r) = PyFloat a
               \/ avg_intraday_range (row_stats r) = NpFloat64 a)
              /\ (consistency_score (row_stats r) = PyFloat c
                  \/ consistency_score (row_stats r) = NpFloat64 c)) as Hshape.
  { intros r Hr. destruct (valid_rows_stats _ _ _ Hr) as (st & Hst & Hw).
    rewrite Forall_forall in Hengine.
    destruct (Hengine st Hst) as (data & name & Hrun).
    destruct (window_slice ln resample_B _ _ _ _ _ Hrun Hw) as [_ Hslice].
    apply (float_fields _ _ Hslice). }
  assert (forall r, r ∈ valid_rows stats_list window ->
            Np.isnan (float_column avg_intraday_range r) = false
            /\ Np.isnan (float_column consistency_score r) = false
            /\ (float_column consistency_score r =? infinity) = false) as Hkeys.
  { intros r Hr. specialize (Hfinite r Hr).
    destruct (Hshape r Hr) as (a & c & Ha & Hc).
    unfold checked_fields in Hfinite.
    apply Forall_cons in Hfinite as [Havg Hfinite].
    do 3 apply Forall_cons in Hfinite as [_ Hfinite].
    apply Forall_cons in Hfinite as [Hcons _].
    unfold float_column.
    split; [|split].
    - destruct Ha as [Ha|Ha]; rewrite Ha in *; apply (finite_float a Havg).
    - destruct Hc as [Hc|Hc]; rewrite Hc in *; apply (finite_float c Hcons).
    - destruct Hc as [Hc|Hc]; rewrite Hc in *; apply (finite_float c Hcons). }
  split.
  - unfold consistency_rows. apply filter_all. rewrite Forall_forall.
    intros r Hr. destruct (Hkeys r Hr) as (_ & Hnan & Hinf).
    cbn zeta. rewrite Hnan, Hinf. exact I.
  - rewrite Forall_forall. intros r Hr. apply (Hkeys r Hr).
Qed.


End Ranking.

End WindowFacts.

Module CacheFrame.

Import Analyzer Statements Properties.

Section Cache.

Variable ln : float -> float.
Variable resample_B : list Bar -> list Bar.

Abbreviation compute := (compute_intraday_stats ln resample_B).
Abbreviation run := (process_ticker ln resample_B).

(** X7. A call of the analyzer's process_ticker leaves every cache entry
    other than that of its own ticker as it was, and a call without a cache
    leaves none behind. A call that does not fetch leaves the cache as it
    was; after any call the cache is either unchanged or has the entry of
    the ticker set to the time of the store and the value returned. *)
Theorem process_ticker_writes_own_entry
    (fetch : string -> string -> option DataFrame) (now_lookup now_store : Z)
    (name : string) (cache : option (gmap string CacheEntry)) :
  let p := run fetch now_lookup now_store name cache in
  only_entry_written name cache (cache_after p)
  /\ (fetched p = false -> cache_after p = cache)
  /\ (cache_after p = cache
      \/ exists c, cache = Some c
           /\ cache_after p
              = Some (<[name := {| timestamp := Some now_store; stats := returned p |}]> c)).
Proof.
  cbn zeta. unfold process_ticker.
  destruct (match cache with
            | Some c => _
            | None => None
            end) as [cached|].
  - cbn [cache_after fetched returned]. split; [|split; [reflexivity|left; reflexivity]].
    destruct cache; cbn; [reflexivity|exact I].
  - destruct (fetch name "2mo") as [data|]; cbn [cache_after fetched returned].
    + split; [|split; [discriminate|]].
      * destruct cache as [c|]; cbn; [|exact I].
        intros other Hother. apply lookup_insert_ne. congruence.
      * destruct cache as [c|]; [right; eauto|left; reflexivity].
    + split; [|split; [discriminate|left; reflexivity]].
      destruct cache; cbn; [reflexivity|exact I].
Qed.

(** X8. When the cache holds an entry for the ticker that is an hour old
    or older, the call fetches again. If the fetch gives no data the call
    returns None and the old entry stays in the cache; if it gives data the
    call returns the statistics computed from it and puts them in the
    cache, with the time of the store, in place of the old entry. *)
Theorem expired_entry_is_refetched
    (fetch : string -> string -> option DataFrame) (now_lookup now_store : Z)
    (name : string) (cache : gmap string CacheEntry) (e : CacheEntry) :
  cache !! name = Some e ->
  (CACHE_EXPIRY_US <= now_lookup - default T2000 (timestamp e))%Z ->
  let p := run fetch now_lookup now_store name (Some cache) in
  fetched p = true
  /\ (fetch name "2mo" = None -> returned p = None /\ cache_after p = Some cache)
  /\ (forall data,
        fetch name "2mo" = Some data ->
        returned p = compute (Some data) name
        /\ cache_after p
           = Some (<[name := {| timestamp := Some now_store;
                                stats := compute (Some data) name |}]> cache)).
Proof.
  intros He Hage. cbn zeta.
  assert (no_fresh_entry cache name now_lookup) as Hmiss
    by (unfold no_fresh_entry; rewrite He; exact Hage).
  destruct (fetch name "2mo") as [data|] eqn:Hfetch.
  - rewrite (CacheFacts.process_ticker_miss ln resample_B fetch _ _ _ _ data Hmiss Hfetch).
    cbn [fetched returned cache_after]. split; [reflexivity|].
    split; [discriminate|]. intros data' [= <-]. split; reflexivity.
  - unfold process_ticker. rewrite He.
    apply Z.ltb_ge in Hage. rewrite Hage.
    destruct (bool_decide (cache = ∅)); rewrite Hfetch;
      cbn [fetched returned cache_after];
      (split; [reflexivity|]); (split; [split; reflexivity|discriminate]).
Qed.

(** X9. After a call that fetched data for a ticker without a fresh entry,
    every later lookup of the ticker made less than an hour after the store
    returns what the first call returned, makes no fetch and leaves the
    cache as it is, whatever the provider would answer by then. *)
Theorem stored_result_is_served
    (fetch : string -> string -> option DataFrame) (now_lookup now_store : Z)
    (name : string) (cache : gmap string CacheEntry) (data : DataFrame)
    (later : list Lookup) :
  no_fresh_entry cache name now_lookup ->
  fetch name "2mo" = Some data ->
  Forall (fun l : Lookup => (l.1.1 - now_store < CACHE_EXPIRY_US)%Z) later ->
  let first := run fetch now_lookup now_store name (Some cache) in
  returned first = compute (Some data) name
  /\ Forall (fun p => returned p = returned first
                      /\ fetched p = false
                      /\ cache_after p = cache_after first)
            (lookups ln resample_B name (cache_after first) later).
Proof.
  intros Hmiss Hfetch Hlater first. subst first.
  rewrite (CacheFacts.process_ticker_miss ln resample_B _ _ _ _ _ data Hmiss Hfetch).
  cbn [returned fetched cache_after]. split; [reflexivity|].
  set (written := Some (<[name := _]> cache)).
  induction Hlater as [|l rest Hl _ IH]; [constructor|].
  cbn [lookups].
  assert (lookup_with ln resample_B name written l
          = {| returned := compute (Some data) name;
               cache_after := written; fetched := false |}) as ->.
  { unfold lookup_with, written.
    rewrite (CacheFacts.process_ticker_hit ln resample_B l.2 l.1.1 l.1.2 name _
               {| timestamp := Some now_store; stats := compute (Some data) name |});
      [reflexivity|apply lookup_insert_eq|exact Hl]. }
  constructor; [repeat split|exact IH].
Qed.

End Cache.

End CacheFrame.

Module AggregateFacts.

Import Analyzer Statements.

Lemma aggregate_results_parts
    (all_stats : list (option TickerStats))
    (ticker_types : gmap string (list string)) :
  let agg := aggregate_results all_stats ticker_types in
  let etfs := default [] (ticker_types !! "etfs") in
  (forall s, s ∈ agg_all agg <-> Some s ∈ all_stats /\ ticker s <> "")
  /\ sublist (agg_all agg) (omap id all_stats)
  /\ (forall s, s ∈ agg_etfs agg <-> s ∈ agg_all agg /\ ticker s ∈ etfs)
  /\ (forall s, s ∈ agg_stocks agg <-> s ∈ agg_all agg /\ ticker s ∉ etfs)
  /\ sublist (agg_etfs agg) (agg_all agg)
  /\ sublist (agg_stocks agg) (agg_all agg)
  /\ agg_etfs agg ++ agg_stocks agg ≡ₚ agg_all agg.
Proof.
  cbn zeta. unfold aggregate_results. cbn [agg_all agg_etfs agg_stocks].
  set (etfs := default [] (ticker_types !! "etfs")).
  set (kept := filter _ (omap id all_stats)).
  assert (forall s : TickerStats,
            bool_decide (ticker s ∈ (list_to_set etfs : gset string)) = true
            <-> ticker s ∈ etfs) as Hetf.
  { intros s. rewrite bool_decide_eq_true, elem_of_list_to_set. reflexivity. }
  split; [|split; [|split; [|split; [|split; [|split]]]]].
  - intros s. unfold kept. rewrite list_elem_of_filter, list_elem_of_omap.
    split.
    + intros [Hne (x & Hx & Hid)]. cbn in Hid. subst x. split; [exact Hx|].
      intros E. rewrite E in Hne. cbn in Hne. exact Hne.
    + intros [Hs Hne]. split; [|exists (Some s); split; [exact Hs|reflexivity]].
      destruct (String.eqb_spec (ticker s) ""); [contradiction|exact I].
  - apply sublist_filter.
  - intros s. rewrite list_elem_of_filter, <- Hetf.
    rewrite Is_true_true. tauto.
  - intros s. rewrite list_elem_of_filter, <- Hetf.
    rewrite Is_true_true, Bool.negb_true_iff, Bool.not_true_iff_false. tauto.
  - apply sublist_filter.
  - apply sublist_filter.
  - rewrite <- (filter_app_complement
                  (fun s : TickerStats =>
                     bool_decide (ticker s ∈ (list_to_set etfs : gset string))) kept)
      at 3.
    apply Permutation_app; [reflexivity|].
    apply Permutation_refl'. apply list_filter_iff. intros s.
    rewrite Is_true_true, Bool.negb_true_iff, Is_true_true,
      Bool.not_true_iff_false. reflexivity.
Qed.

(** X10. aggregate_results keeps under 'all' the records that are present
    and have a non-empty ticker, each as often as the input lists it and in
    the order of the input; 'etfs' has those of them whose ticker is in
    the list of ETFs and 'stocks' the others, again each as often and in
    the same order, so that the two together are a rearrangement of
    'all'. *)
Theorem aggregate_results_partition
    (all_stats : list (option TickerStats))
    (ticker_types : gmap string (list string)) :
  let agg := aggregate_results all_stats ticker_types in
  let etfs := default [] (ticker_types !! "etfs") in
  agg_all agg = filter (fun s => ticker s <> "") (omap id all_stats)
  /\ agg_etfs agg = filter (fun s => ticker s ∈ etfs) (agg_all agg)
  /\ agg_stocks agg = filter (fun s => ticker s ∉ etfs) (agg_all agg)
  /\ (forall s, s ∈ agg_all agg <-> Some s ∈ all_stats /\ ticker s <> "")
  /\ sublist (agg_all agg) (omap id all_stats)
  /\ (forall s, s ∈ agg_etfs agg <-> s ∈ agg_all agg /\ ticker s ∈ etfs)
  /\ (forall s, s ∈ agg_stocks agg <-> s ∈ agg_all agg /\ ticker s ∉ etfs)
  /\ sublist (agg_etfs agg) (agg_all agg)
  /\ sublist (agg_stocks agg) (agg_all agg)
  /\ agg_etfs agg ++ agg_stocks agg ≡ₚ agg_all agg.
Proof.
  cbn zeta. split; [|split; [|split; [|apply aggregate_results_parts]]];
    unfold aggregate_results; cbn [agg_all agg_etfs agg_stocks];
    apply list_filter_iff; intros s.
  - rewrite Is_true_true, Bool.negb_true_iff.
    destruct (String.eqb_spec (ticker s) ""); split; congruence.
  - rewrite Is_true_true, bool_decide_eq_true, elem_of_list_to_set. reflexivity.
  - rewrite Is_true_true, Bool.negb_true_iff, bool_decide_eq_false,
      elem_of_list_to_set. reflexivity.
Qed.

End AggregateFacts.

Module RankCategories.

Import Analyzer Statements Properties.

Section Ranker.

Variable argsort_float : list float -> list nat.
Variable argsort_int : list Z -> list nat.

Abbreviation rank := (rank_results argsort_float argsort_int).

Lemma valid_rows_nil (stats_list : list TickerStats) (window : Window) :
  valid_rows stats_list window = []
  <-> forall st, st ∈ stats_list -> get_window st window = None.
Proof.
  unfold valid_rows. split.
  - intros E st Hst.
    destruct (get_window st window) as [w|] eqn:Hw; [|reflexivity].
    apply (f_equal length) in E. rewrite length_imap in E.
    apply length_zero_iff_nil in E.
    assert ((ticker st, w) ∈ omap (fun stat => pair (ticker stat) <$> get_window stat window)
                                  stats_list) as Hin.
    { apply list_elem_of_omap. exists st. split; [exact Hst|]. rewrite Hw. reflexivity. }
    rewrite E in Hin. inversion Hin.
  - intros Hnone.
    assert (omap (fun stat => pair (ticker stat) <$> get_window stat window) stats_list = [])
      as ->; [|reflexivity].
    induction stats_list as [|st rest IH]; [reflexivity|].
    cbn [omap list_omap]. rewrite (Hnone st) by constructor. cbn.
    apply IH. intros st' Hst'. apply Hnone. constructor. exact Hst'.
Qed.

Lemma valid_rows_some (stats_list : list TickerStats) (window : Window) :
  valid_rows stats_list window <> []
  <-> exists st, st ∈ stats_list /\ is_Some (get_window st window).
Proof.
  rewrite valid_rows_nil. split.
  - intros Hne.
    destruct (decide (Exists (fun st => is_Some (get_window st window)) stats_list))
      as [Hex|Hex].
    + apply Exists_exists in Hex. exact Hex.
    + exfalso. apply Hne. intros st Hst.
      destruct (get_window st window) as [w|] eqn:Hw; [|reflexivity].
      exfalso. apply Hex, Exists_exists. exists st. rewrite Hw. eauto.
  - intros (st & Hst & [w Hw]) Hnone. rewrite (Hnone st Hst) in Hw. discriminate.
Qed.

Lemma rank_results_keys (agg : Aggregated) (window : Window) :
  (rank agg window).*1
  = filter (fun category => valid_rows (category_stats agg category) window <> [])
           CATEGORIES.
Proof.
  unfold rank_results, CATEGORIES. cbn [omap list_omap fst snd].
  rewrite !filter_cons, filter_nil.
  change (category_stats agg "all") with (agg_all agg).
  change (category_stats agg "stocks") with (agg_stocks agg).
  change (category_stats agg "etfs") with (agg_etfs agg).
  destruct (valid_rows (agg_all agg) window),
           (valid_rows (agg_stocks agg) window),
           (valid_rows (agg_etfs agg) window);
    repeat case_decide; try congruence; try reflexivity.
Qed.

Lemma rank_results_keys_tables (agg : Aggregated) (window : Window) :
  sublist (rank agg window).*1 CATEGORIES
  /\ (forall category,
        category ∈ (rank agg window).*1
        <-> category ∈ CATEGORIES
            /\ exists st, st ∈ category_stats agg category
                          /\ is_Some (get_window st window))
  /\ (forall category tables,
        (category, tables) ∈ rank agg window -> tables.*1 = RANKING_TYPES).
Proof.
  split; [|split].
  - rewrite rank_results_keys. apply sublist_filter.
  - intros category. rewrite rank_results_keys, list_elem_of_filter, valid_rows_some.
    tauto.
  - intros category tables Hin.
    destruct (RankFacts.rank_results_tables _ _ _ _ _ _ Hin) as (stats_list & _ & ->).
    reflexivity.
Qed.

(** X11. rank_results has an entry for a category exactly when the category
    is one of all, stocks and etfs and one of its records has the window;
    the entries come in that order, and each has the five rankings, in the
    order highest_avg_range, most_consistent, most_2pct_swings,
    most_3pct_swings, most_extreme_moves. *)
Theorem rank_results_categories (agg : Aggregated) (window : Window) :
  sublist (rank agg window).*1 CATEGORIES
  /\ (forall category,
        category ∈ (rank agg window).*1
        <-> category ∈ CATEGORIES
            /\ exists st, st ∈ category_stats agg category
                          /\ is_Some (get_window st window))
  /\ (forall category tables,
        (category, tables) ∈ rank agg window -> tables.*1 = RANKING_TYPES).
Proof. apply rank_results_keys_tables. Qed.

(** X12. On the output of aggregate_results, rank_results returns an empty
    dictionary exactly when no record that is present and has a ticker has
    the window. *)
Theorem no_ranking_without_window
    (all_stats : list (option TickerStats))
    (ticker_types : gmap string (list string)) (window : Window) :
  rank (aggregate_results all_stats ticker_types) window = []
  <-> forall st, Some st ∈ all_stats -> ticker st <> "" -> get_window st window = None.
Proof.
  pose proof (AggregateFacts.aggregate_results_parts all_stats ticker_types)
    as (Hall & _ & Hetfs & Hstocks & _).
  set (agg := aggregate_results all_stats ticker_types) in *.
  split.
  - intros Hnil st Hst Hname.
    destruct (get_window st window) as [w|] eqn:Hw; [|reflexivity]. exfalso.
    assert ("all" ∈ (rank agg window).*1) as Hin.
    { apply rank_results_keys_tables. split; [constructor|].
      exists st. split; [|rewrite Hw; eauto].
      change (category_stats agg "all") with (agg_all agg).
      apply Hall. split; assumption. }
    rewrite Hnil in Hin. inversion Hin.
  - intros Hnone.
    destruct (rank agg window) as [|[category tables] rest] eqn:E; [reflexivity|].
    exfalso.
    assert (category ∈ (rank agg window).*1) as Hin by (rewrite E; constructor).
    apply rank_results_keys_tables in Hin as (Hcat & st & Hst & [w Hw]).
    assert (st ∈ agg_all agg) as Hin.
    { unfold CATEGORIES in Hcat. rewrite !elem_of_cons, elem_of_nil in Hcat.
      destruct Hcat as [->|[->|[->|[]]]].
      - exact Hst.
      - apply Hstocks in Hst. tauto.
      - apply Hetfs in Hst. tauto. }
    apply Hall in Hin as [Hin Hname]. rewrite (Hnone st Hin Hname) in Hw. discriminate.
Qed.

End Ranker.

End RankCategories.

Module ConvertFacts.

Import Analyzer Statements Properties.

Lemma convert_plain (v : pyval) : plain (_convert_numpy_types v) = true.
Proof.
  induction v as [ |b|s|n|items IH|items IH|entries IH]
    using PersistenceFacts.pyval_nested_ind; try reflexivity.
  - destruct n; reflexivity.
  - cbn [_convert_numpy_types plain]. rewrite forallb_forall.
    intros x Hx. apply in_map_iff in Hx as (y & <- & Hy).
    rewrite Forall_forall in IH. apply IH, list_elem_of_In, Hy.
  - cbn [_convert_numpy_types plain]. rewrite forallb_forall.
    intros x Hx. apply in_map_iff in Hx as (y & <- & Hy).
    rewrite Forall_forall in IH. apply IH, list_elem_of_In, Hy.
  - cbn [_convert_numpy_types plain]. rewrite forallb_forall.
    intros x Hx. apply in_map_iff in Hx as (y & <- & Hy). cbn [snd].
    rewrite Forall_forall in IH. apply (IH y), list_elem_of_In, Hy.
Qed.

Lemma convert_of_plain (v : pyval) : plain v = true -> _convert_numpy_types v = v.
Proof.
  induction v as [ |b|s|n|items IH|items IH|entries IH]
    using PersistenceFacts.pyval_nested_ind; try reflexivity.
  - destruct n; cbn; congruence.
  - cbn [_convert_numpy_types plain]. rewrite forallb_forall. intros Hall. f_equal.
    rewrite <- (map_id items) at 2. apply map_ext_Forall.
    rewrite Forall_forall in IH |- *. intros x Hx.
    apply IH; [exact Hx|]. apply Hall, list_elem_of_In, Hx.
  - discriminate.
  - cbn [_convert_numpy_types plain]. rewrite forallb_forall. intros Hall. f_equal.
    rewrite <- (map_id entries) at 2. apply map_ext_Forall.
    rewrite Forall_forall in IH |- *. intros [k x] Hx. cbn [fst snd]. f_equal.
    apply (IH (k, x)); [exact Hx|]. apply (Hall (k, x)), list_elem_of_In, Hx.
Qed.

Lemma dump_load_plain (v : pyval) : plain v = true -> json_load (json_dump v) = v.
Proof.
  intros Hplain. rewrite <- (convert_of_plain v Hplain) at 1.
  rewrite PersistenceFacts.convert_dump_load.
  induction v as [ |b|s|n|items IH|items IH|entries IH]
    using PersistenceFacts.pyval_nested_ind; try reflexivity.
  - destruct n; cbn in *; congruence.
  - cbn [native plain] in *. rewrite forallb_forall in Hplain. f_equal.
    rewrite <- (map_id items) at 2. apply map_ext_Forall.
    rewrite Forall_forall in IH |- *. intros x Hx.
    apply IH; [exact Hx|]. apply Hplain, list_elem_of_In, Hx.
  - discriminate.
  - cbn [native plain] in *. rewrite forallb_forall in Hplain. f_equal.
    rewrite <- (map_id entries) at 2. apply map_ext_Forall.
    rewrite Forall_forall in IH |- *. intros [k x] Hx. cbn [fst snd]. f_equal.
    apply (IH (k, x)); [exact Hx|]. apply (Hplain (k, x)), list_elem_of_In, Hx.
Qed.

(** X16. _convert_numpy_types returns a value made of Python's own types
    only; converting twice is converting once; a value is left as it is
    exactly when it is already made of Python's own types; and the
    converted value comes back unchanged from a JSON dump and load. *)
Theorem convert_numpy_types_normalizes (v : pyval) :
  plain (_convert_numpy_types v) = true
  /\ _convert_numpy_types (_convert_numpy_types v) = _convert_numpy_types v
  /\ (plain v = true <-> _convert_numpy_types v = v)
  /\ json_load (json_dump (_convert_numpy_types v)) = _convert_numpy_types v.
Proof.
  split; [apply convert_plain|]. split; [apply convert_of_plain, convert_plain|].
  split; [split; [apply convert_of_plain|]|apply dump_load_plain, convert_plain].
  intros E. rewrite <- E. apply convert_plain.
Qed.

End ConvertFacts.

Module ZscoreFacts.

Import Analyzer Statements Scanner Properties.

Local Open Scope float_scope.

Lemma length_diff (xs : list float) : length (Np.diff xs) = (length xs - 1)%nat.
Proof.
  unfold Np.diff. rewrite length_zip_with. destruct xs; cbn [tail length]; lia.
Qed.

Lemma sum_nan_from (xs : list float) (acc : float) :
  Np.isnan acc = true \/ Exists (fun x => Np.isnan x = true) xs ->
  Np.isnan (fold_left PrimFloat.add xs acc) = true.
Proof.
  revert acc. induction xs as [|x xs IH]; intros acc [Hacc|Hex]; cbn [fold_left].
  - exact Hacc.
  - inversion Hex.
  - apply IH. left. apply FloatFacts.add_nan_l. exact Hacc.
  - apply IH. inversion Hex as [? ? Hx|? ? Hrest]; subst.
    + left. apply FloatFacts.add_nan_r. exact Hx.
    + right. exact Hrest.
Qed.

Lemma sum_nan (xs : list float) :
  Exists (fun x => Np.isnan x = true) xs -> Np.isnan (Np.sum xs) = true.
Proof. intros H. apply sum_nan_from. right. exact H. Qed.

(** One NaN in an array makes its standard deviation NaN. *)
Lemma std_nan (xs : list float) :
  Exists (fun x => Np.isnan x = true) xs -> Np.isnan (Np.std_ddof1 xs) = true.
Proof.
  intros Hex. unfold Np.std_ddof1.
  apply FloatFacts.sqrt_nan, FloatFacts.div_nan_l, sum_nan.
  apply Exists_exists in Hex as (x & Hx & Hnan).
  apply Exists_exists. exists ((x - Np.mean xs) * (x - Np.mean xs)).
  split.
  - apply list_elem_of_In, in_map_iff. exists x. split; [reflexivity|].
    apply list_elem_of_In. exact Hx.
  - apply FloatFacts.mul_nan_l, FloatFacts.sub_nan_l. exact Hnan.
Qed.

(** The logarithm of a bad close is NaN. *)
Lemma log_bad_close (ln : float -> float) (c : float) :
  bad_close c = true -> Np.isnan (Np.log ln c) = true.
Proof.
  unfold bad_close, Np.log. intros H.
  destruct (Np.isnan c); [reflexivity|]. cbn [orb] in H. rewrite H. reflexivity.
Qed.

(** [diff] on the last elements of an array. *)
Lemma diff_cons (x y : float) (xs : list float) :
  Np.diff (x :: y :: xs) = (y - x) :: Np.diff (y :: xs).
Proof. reflexivity. Qed.

Lemma diff_drop (n : nat) (xs : list float) :
  Np.diff (drop n xs) = drop n (Np.diff xs).
Proof.
  revert xs. induction n as [|n IH]; intros xs; [rewrite !drop_0; reflexivity|].
  destruct xs as [|x [|y xs]]; [reflexivity|destruct n; reflexivity|].
  rewrite diff_cons. cbn [drop]. apply IH.
Qed.

Lemma diff_lastn (n : nat) (xs : list float) :
  (n < length xs)%nat -> Np.diff (Np.lastn (S n) xs) = Np.lastn n (Np.diff xs).
Proof.
  intros Hn. unfold Np.lastn. rewrite diff_drop, length_diff. f_equal. lia.
Qed.

(** A NaN in an array shows in its differences, unless it stands alone. *)
Lemma diff_nan (xs : list float) :
  (2 <= length xs)%nat ->
  Exists (fun x => Np.isnan x = true) xs ->
  Exists (fun x => Np.isnan x = true) (Np.diff xs).
Proof.
  induction xs as [|x [|y xs] IH]; cbn [length]; intros Hlen Hex; try lia.
  rewrite diff_cons.
  inversion Hex as [? ? Hx|? ? Hrest]; subst.
  - left. apply FloatFacts.sub_nan_r. exact Hx.
  - inversion Hrest as [? ? Hy|? ? Hrest']; subst.
    + left. apply FloatFacts.sub_nan_l. exact Hy.
    + right. apply IH; [|exact Hrest].
      destruct xs; [inversion Hrest'|cbn [length]; lia].
Qed.

Section Zscore.

Variable ln : float -> float.

Lemma window_size_le (data : DataFrame) :
  (window_size (log_returns_of ln data) <= length (bars data) - 1)%nat.
Proof.
  unfold window_size, log_returns_of. rewrite length_diff, !length_map. lia.
Qed.

(** The trailing returns are the differences of the logarithms of the
    trailing closes. *)
Lemma recent_returns_closes (data : DataFrame) :
  (1 <= length (bars data))%nat ->
  recent_returns_of ln data = Np.diff (map (Np.log ln) (recent_closes_of ln data)).
Proof.
  intros Hlen. unfold recent_returns_of, recent_closes_of.
  rewrite EngineFacts.lastn_map. cbn zeta.
  rewrite diff_lastn; [reflexivity|].
  pose proof (window_size_le data). rewrite !length_map. lia.
Qed.

Lemma recent_closes_length (data : DataFrame) :
  (2 <= length (bars data))%nat ->
  (1 <= window_size (log_returns_of ln data))%nat ->
  (2 <= length (recent_closes_of ln data))%nat.
Proof.
  intros Hlen Hw. unfold recent_closes_of.
  rewrite EngineFacts.lastn_length, length_map. lia.
Qed.

Lemma bad_close_no_zscore (data : DataFrame) :
  Exists (fun c => bad_close c = true) (recent_closes_of ln data) ->
  compute_zscore ln (Some data) = None.
Proof.
  intros Hbad.
  destruct (compute_zscore ln (Some data)) as [[[z pm] st]|] eqn:E; [|reflexivity].
  exfalso. apply ScannerFacts.compute_zscore_some in E.
  destruct E as (Hb & _ & Hw & _ & Hstd & _ & _ & Hnan & _).
  unfold MIN_BARS_REQUIRED in Hb.
  rewrite Hstd, std_nan in Hnan; [discriminate|].
  rewrite recent_returns_closes by lia.
  apply diff_nan.
  - rewrite length_map. apply recent_closes_length; lia.
  - apply Exists_exists in Hbad as (c & Hc & Hbad).
    apply Exists_exists. exists (Np.log ln c). split.
    + apply list_elem_of_In, in_map_iff. exists c. split; [reflexivity|].
      apply list_elem_of_In. exact Hc.
    + apply log_bad_close. exact Hbad.
Qed.

(** X19. When one of the closes behind the trailing window of returns is NaN
    or negative, compute_zscore returns None, and process_ticker returns no
    alert and leaves the scanner as it was. *)
Theorem bad_close_gives_no_alert (data : DataFrame) :
  Exists (fun c => bad_close c = true) (recent_closes_of ln data) ->
  compute_zscore ln (Some data) = None
  /\ forall self clock name,
       process_ticker ln self (Returned (Some data)) clock name = (None, self).
Proof.
  intros Hbad. pose proof (bad_close_no_zscore data Hbad) as Hnone.
  split; [exact Hnone|]. intros self clock name.
  apply ScannerFacts.no_zscore_no_alert. exact Hnone.
Qed.

Lemma last_f_cons (x y : float) (xs : list float) :
  last_f (x :: y :: xs) = last_f (y :: xs).
Proof. reflexivity. Qed.

Lemma last_diff (xs : list float) :
  (2 <= length xs)%nat ->
  last_f (Np.diff xs) = last_f xs - last_but_one xs.
Proof.
  induction xs as [|x [|y xs] IH]; cbn [length]; intros Hlen; try lia.
  destruct xs as [|z xs]; [reflexivity|].
  rewrite diff_cons, last_f_cons.
  change (Np.diff (y :: z :: xs)) with ((z - y) :: Np.diff (z :: xs)).
  change (last_f ((y - x) :: (z - y) :: Np.diff (z :: xs)))
    with (last_f ((z - y) :: Np.diff (z :: xs))).
  change ((z - y) :: Np.diff (z :: xs)) with (Np.diff (y :: z :: xs)).
  rewrite IH by (cbn [length]; lia). f_equal.
  unfold last_but_one. cbn [length]. replace (S (S (S (length xs))) - 2)%nat
    with (S (length xs)) by lia.
  replace (S (S (length xs)) - 2)%nat with (length xs) by lia. reflexivity.
Qed.

Lemma last_f_map (f : float -> float) (xs : list float) :
  xs <> [] -> last_f (map f xs) = f (last_f xs).
Proof.
  induction xs as [|x [|y xs] IH]; intros Hne; [congruence|reflexivity|].
  cbn [map]. rewrite !last_f_cons. apply IH. discriminate.
Qed.

Lemma last_but_one_map (f : float -> float) (xs : list float) :
  (2 <= length xs)%nat -> last_but_one (map f xs) = f (last_but_one xs).
Proof.
  intros Hlen. unfold last_but_one. rewrite length_map.
  rewrite (nth_indep _ nan (f nan)) by (rewrite length_map; lia).
  apply map_nth.
Qed.

(** X18. compute_zscore returns None for a history of 100 bars or fewer.
    When it returns a Z-score, the statistics it returns say what it was
    taken from: bars_used is the number of returns, at most 1560 and at
    least 100; the current and the previous price are the last two closes;
    the current return is the difference of their logarithms; and the
    percent move is their relative difference, times 100. *)
Theorem zscore_window (data : DataFrame) :
  ((length (bars data) <= MIN_BARS_REQUIRED)%nat -> compute_zscore ln (Some data) = None)
  /\ forall z pm st,
       compute_zscore ln (Some data) = Some (z, pm, st) ->
       let closes := map bar_close (bars data) in
       bars_used st = Nat.min (length (bars data) - 1) (VOLATILITY_WINDOW_DAYS * 78)
       /\ (MIN_BARS_REQUIRED <= bars_used st <= 1560)%nat
       /\ current_price st = last_f closes
       /\ previous_price st = last_but_one closes
       /\ current_return st
          = Np.log ln (current_price st) - Np.log ln (previous_price st)
       /\ pm = (current_price st - previous_price st) / previous_price st * 100.
Proof.
  assert (length (log_returns_of ln data) = (length (bars data) - 1)%nat) as Hret
    by (unfold log_returns_of; rewrite length_diff, !length_map; reflexivity).
  split.
  - intros Hlen.
    destruct (compute_zscore ln (Some data)) as [[[z pm] st]|] eqn:E; [|reflexivity].
    apply ScannerFacts.compute_zscore_some in E as (_ & Hr & _).
    rewrite Hret in Hr. unfold MIN_BARS_REQUIRED in *. lia.
  - intros z pm st E.
    pose proof (ScannerFacts.compute_zscore_some ln _ _ _ _ E)
      as (Hb & Hr & _ & _ & _ & Hcur & _).
    unfold MIN_BARS_REQUIRED in *. rewrite Hret in Hr.
    revert E. unfold compute_zscore, MIN_BARS_REQUIRED. fold (log_returns_of ln data).
    destruct (length (bars data) <? 100)%nat; [discriminate|].
    destruct (length (log_returns_of ln data) <? 100)%nat; [discriminate|].
    destruct (window_size (log_returns_of ln data) <? 50)%nat; [discriminate|].
    destruct (_ || _)%bool; [discriminate|].
    assert ((2 <=? length (map bar_close (bars data)))%nat = true) as ->
      by (apply Nat.leb_le; rewrite length_map; lia).
    intros [= _ <- <-].
    cbn [bars_used current_price previous_price current_return] in *.
    rewrite EngineFacts.lastn_length. unfold window_size. rewrite Hret.
    unfold VOLATILITY_WINDOW_DAYS.
    split; [lia|]. split; [lia|]. split; [reflexivity|]. split; [reflexivity|].
    split; [|reflexivity].
    unfold log_returns_of. rewrite last_diff by (rewrite !length_map; lia).
    rewrite last_f_map, last_but_one_map; [reflexivity|rewrite length_map; lia|].
    intros Enil. apply (f_equal length) in Enil. rewrite length_map in Enil.
    cbn in Enil. lia.
Qed.

End Zscore.

End ZscoreFacts.

Module LedgerFacts.

Import Analyzer Statements Scanner ScannerLoop Properties.

Section Ledger.

Variable ln : float -> float.

Abbreviation step := (process_ticker ln).

Lemma scanner_eta (self : VolatilityScanner) :
  {| tickers := tickers self; alert_history := alert_history self;
     scan_count := scan_count self; alerts_sent := alerts_sent self;
     errors := errors self |} = self.
Proof. destruct self. reflexivity. Qed.

(** A call of [process_ticker] reads the ledger at its ticker and nowhere
    else. *)
Lemma process_ticker_verdict (self : VolatilityScanner) (fetch : Fetched)
    (clock : Clock) (name : string) :
  step self fetch clock name
  = (verdict ln fetch clock name (alert_history self !! name),
     aftermath fetch clock name
       (verdict ln fetch clock name (alert_history self !! name)) self).
Proof.
  unfold process_ticker, verdict, aftermath.
  destruct fetch as [|[data|]]; [reflexivity| |rewrite scanner_eta; reflexivity].
  destruct (compute_zscore ln (Some data)) as [[[z pm] st]|];
    [|rewrite scanner_eta; reflexivity].
  destruct (Z_SCORE_THRESHOLD <? abs z)%float; cbn [andb];
    [|rewrite scanner_eta; reflexivity].
  destruct (alert_history self !! name) as [last|]; cbn [from_option];
    [|reflexivity].
  destruct (at_cooldown_check clock - last <? ALERT_COOLDOWN_US)%Z; cbn [negb];
    [rewrite scanner_eta|]; reflexivity.
Qed.

(** X20. A call of the scanner's process_ticker changes nothing of the
    scanner but the count of errors, which goes up by one exactly when the
    fetch raised, and the ledger entry of its own ticker. The ledger is
    written exactly when an alert is returned: the entry of the ticker is
    set to the time read for it, and the alert carries the ticker and the
    time read for the alert. *)
Theorem process_ticker_touches_own_ledger_entry (self : VolatilityScanner)
    (fetch : Fetched) (clock : Clock) (name : string) :
  let alert := (step self fetch clock name).1 in
  let self' := (step self fetch clock name).2 in
  tickers self' = tickers self
  /\ scan_count self' = scan_count self
  /\ alerts_sent self' = alerts_sent self
  /\ errors self' = (if fetch is Raised then S (errors self) else errors self)
  /\ (forall other, other <> name ->
        alert_history self' !! other = alert_history self !! other)
  /\ match alert with
     | Some a =>
       alert_ticker a = name
       /\ alert_timestamp a = at_alert clock
       /\ alert_history self' = <[name := at_history_update clock]> (alert_history self)
     | None => alert_history self' = alert_history self
     end.
Proof.
  cbn zeta. rewrite process_ticker_verdict. cbn [fst snd].
  set (alert := verdict ln fetch clock name (alert_history self !! name)).
  unfold aftermath. cbn [tickers scan_count alerts_sent errors alert_history].
  split; [reflexivity|]. split; [reflexivity|]. split; [reflexivity|].
  split; [destruct fetch; reflexivity|]. split.
  - intros other Hother. destruct alert; [|reflexivity].
    apply lookup_insert_ne. congruence.
  - destruct alert as [a|] eqn:E; [|reflexivity].
    split; [|split; [|reflexivity]].
    + unfold alert, verdict in E. destruct fetch as [|[data|]]; try discriminate.
      destruct (compute_zscore ln (Some data)) as [[[z pm] st]|]; [|discriminate].
      destruct (_ && _); [|discriminate]. injection E as <-. reflexivity.
    + unfold alert, verdict in E. destruct fetch as [|[data|]]; try discriminate.
      destruct (compute_zscore ln (Some data)) as [[[z pm] st]|]; [|discriminate].
      destruct (_ && _); [|discriminate]. injection E as <-. reflexivity.
Qed.

(** X21. After a call that returned an alert for a ticker, a later call for
    the ticker whose Z-score exceeds the threshold returns no alert and
    leaves the scanner as it is while less than the cooldown of one hour
    has passed since the time the ledger holds; once the cooldown has
    passed, it returns an alert with that Z-score and records its own
    time. *)
Theorem alert_opens_cooldown (self self' : VolatilityScanner)
    (fetch : Fetched) (clock : Clock) (name : string) (a : Alert) :
  step self fetch clock name = (Some a, self') ->
  forall data' clock' z pm st,
    compute_zscore ln (Some data') = Some (z, pm, st) ->
    (Z_SCORE_THRESHOLD <? abs z)%float = true ->
    let again := step self' (Returned (Some data')) clock' name in
    ((at_cooldown_check clock' - at_history_update clock < ALERT_COOLDOWN_US)%Z ->
     again = (None, self'))
    /\ ((ALERT_COOLDOWN_US <= at_cooldown_check clock' - at_history_update clock)%Z ->
        exists a',
          again.1 = Some a'
          /\ alert_zscore a' = z
          /\ alert_history again.2 !! name = Some (at_history_update clock')).
Proof.
  intros Hrun data' clock' z pm st Hz Habove.
  assert (alert_history self' !! name = Some (at_history_update clock)) as Hledger.
  { rewrite process_ticker_verdict in Hrun. injection Hrun as Halert <-.
    unfold aftermath. cbn [alert_history]. rewrite Halert. apply lookup_insert_eq. }
  cbn zeta. rewrite process_ticker_verdict. unfold verdict.
  rewrite Hz, Habove, Hledger. cbn [from_option andb]. split.
  - intros Hcool. apply Z.ltb_lt in Hcool. rewrite Hcool. cbn [negb].
    unfold aftermath. rewrite scanner_eta. reflexivity.
  - intros Hover. apply Z.ltb_ge in Hover. rewrite Hover. cbn [negb fst snd].
    eexists. split; [reflexivity|]. split; [reflexivity|].
    unfold aftermath. cbn [alert_history]. apply lookup_insert_eq.
Qed.

(** X24. The cleanup at the end of scan_cycle keeps, with their times, the
    ledger entries that are less than two hours old, and no other. It
    changes the outcome of no later call: for a call made at or after the
    cleanup, process_ticker returns the same alert, or none, on the cleaned
    ledger as on the ledger before the cleanup. *)
Theorem cleanup_keeps_cooldowns (now : Z) (self : VolatilityScanner) :
  (forall name v,
     alert_history (cleanup_alert_history now self) !! name = Some v
     <-> alert_history self !! name = Some v /\ (now - v < CLEANUP_AGE_US)%Z)
  /\ forall fetch clock name,
       (now <= at_cooldown_check clock)%Z ->
       (step (cleanup_alert_history now self) fetch clock name).1
       = (step self fetch clock name).1.
Proof.
  assert (forall name v,
            alert_history (cleanup_alert_history now self) !! name = Some v
            <-> alert_history self !! name = Some v /\ (now - v < CLEANUP_AGE_US)%Z)
    as Hkept.
  { intros name v. unfold cleanup_alert_history. cbn [alert_history].
    rewrite map_lookup_filter_Some. cbn [snd]. split; intros [? ?]; split; auto; lia. }
  split; [exact Hkept|].
  intros fetch clock name Hnow. rewrite !process_ticker_verdict. cbn [fst].
  unfold verdict. destruct fetch as [|[data|]]; try reflexivity.
  destruct (compute_zscore ln (Some data)) as [[[z pm] st]|]; [|reflexivity].
  destruct (Z_SCORE_THRESHOLD <? abs z)%float; [|reflexivity]. cbn [andb].
  assert (from_option (fun t => (at_cooldown_check clock - t <? ALERT_COOLDOWN_US)%Z)
            false (alert_history (cleanup_alert_history now self) !! name)
          = from_option (fun t => (at_cooldown_check clock - t <? ALERT_COOLDOWN_US)%Z)
              false (alert_history self !! name)) as ->; [|reflexivity].
  destruct (alert_history self !! name) as [v|] eqn:Hv.
  - destruct (decide (now - v < CLEANUP_AGE_US)%Z) as [Hyoung|Hold].
    + rewrite (proj2 (Hkept name v)) by (split; assumption). reflexivity.
    + destruct (alert_history (cleanup_alert_history now self) !! name) as [v'|] eqn:Hv'.
      * apply Hkept in Hv' as [Hv' _]. rewrite Hv in Hv'. injection Hv' as <-. reflexivity.
      * cbn [from_option]. symmetry. apply Z.ltb_ge.
        unfold CLEANUP_AGE_US, ALERT_COOLDOWN_US, ALERT_COOLDOWN_HOURS in *. lia.
  - destruct (alert_history (cleanup_alert_history now self) !! name) as [v'|] eqn:Hv';
      [|reflexivity].
    apply Hkept in Hv' as [Hv' _]. rewrite Hv in Hv'. discriminate.
Qed.

End Ledger.

End LedgerFacts.

Module LoopFacts.

Import Analyzer Statements Scanner ScannerLoop Properties.

(** *** Batches *)

Section Batches.

Context {A : Type}.
Variable size : nat.
Hypothesis size_positive : 0 < size.
Variable xs : list A.

Abbreviation slice := (fun i : nat => take size (drop i xs)).

Lemma range_from_concat (fuel start : nat) :
  length xs - start <= fuel ->
  concat (map slice (range_from fuel start (length xs) size)) = drop start xs.
Proof.
  revert start. induction fuel as [|fuel IH]; intros start Hfuel; cbn [range_from].
  - rewrite drop_ge by lia. reflexivity.
  - destruct (Nat.ltb_spec start (length xs)) as [Hlt|Hge].
    + cbn [map concat]. rewrite IH by lia.
      rewrite <- (take_drop size (drop start xs)) at 2.
      rewrite drop_drop. reflexivity.
    + rewrite drop_ge by lia. reflexivity.
Qed.

Lemma range_from_length (fuel start stop : nat) :
  stop - start <= fuel ->
  length (range_from fuel start stop size) = (stop - start + size - 1) / size.
Proof.
  revert start. induction fuel as [|fuel IH]; intros start Hfuel; cbn [range_from].
  - replace (stop - start + size - 1) with (size - 1) by lia.
    rewrite Nat.div_small by lia. reflexivity.
  - destruct (Nat.ltb_spec start stop) as [Hlt|Hge].
    + cbn [length]. rewrite IH by lia.
      destruct (Nat.le_gt_cases (start + size) stop) as [Hfull|Hlast].
      * replace (stop - start + size - 1)
          with (stop - (start + size) + size - 1 + 1 * size) by lia.
        rewrite Nat.div_add by lia. lia.
      * replace (stop - (start + size) + size - 1) with (size - 1) by lia.
        rewrite Nat.div_small by lia.
        apply (Nat.div_unique _ _ _ (stop - start - 1)); lia.
    + replace (stop - start + size - 1) with (size - 1) by lia.
      rewrite Nat.div_small by lia. reflexivity.
Qed.

Lemma range_from_bounds (fuel start stop : nat) :
  Forall (fun i => start <= i < stop) (range_from fuel start stop size).
Proof.
  revert start. induction fuel as [|fuel IH]; intros start; cbn [range_from];
    [constructor|].
  destruct (Nat.ltb_spec start stop) as [Hlt|Hge]; [|constructor].
  constructor; [lia|]. eapply Forall_impl; [apply IH|]. cbn. intros i Hi. lia.
Qed.

(** The positions at which a pause follows are all but the last. *)
Lemma range_from_pauses (fuel start stop : nat) :
  stop - start <= fuel ->
  length (filter (fun i => i + size < stop) (range_from fuel start stop size))
  = length (range_from fuel start stop size) - 1.
Proof.
  revert start. induction fuel as [|fuel IH]; intros start Hfuel; cbn [range_from];
    [reflexivity|].
  destruct (Nat.ltb_spec start stop) as [Hlt|Hge]; [|reflexivity].
  rewrite filter_cons. cbn [length].
  destruct (decide (start + size < stop)) as [Hmore|Hlast].
  - cbn [length]. rewrite IH by lia.
    destruct fuel as [|fuel']; [lia|]. cbn [range_from].
    destruct (Nat.ltb_spec (start + size) stop); [cbn [length]; lia|lia].
  - rewrite IH by lia.
    destruct fuel as [|fuel']; [reflexivity|]. cbn [range_from].
    destruct (Nat.ltb_spec (start + size) stop); [lia|reflexivity].
Qed.

Lemma range_from_lookup (fuel start stop i j : nat) :
  range_from fuel start stop size !! i = Some j -> j = start + i * size.
Proof.
  revert start i. induction fuel as [|fuel IH]; intros start i; cbn [range_from];
    [discriminate|].
  destruct (Nat.ltb_spec start stop) as [Hlt|Hge]; [|discriminate].
  destruct i as [|i]; cbn.
  - intros [= <-]. lia.
  - intros Hj. apply IH in Hj. lia.
Qed.

(** X23. For a batch size that is positive, the batches of scan_cycle, and
    of the analyzer's main, put end to end give the list of tickers: no
    ticker is skipped or taken twice.
    Their number is the one the progress line announces; no batch is empty
    or longer than the batch size, and every batch but the last is full.
    scan_cycle pauses once after each batch but the last. *)
Theorem batches_cover_the_list :
  concat (batches size xs) = xs
  /\ length (batches size xs) = announced_batches size xs
  /\ Forall (fun batch => 0 < length batch <= size) (batches size xs)
  /\ (forall i batch,
        batches size xs !! i = Some batch ->
        S i < length (batches size xs) -> length batch = size)
  /\ pauses size xs = length (batches size xs) - 1.
Proof.
  unfold batches, range, announced_batches, pauses.
  split; [|split; [|split; [|split]]].
  - rewrite range_from_concat by lia. apply drop_0.
  - rewrite length_map, range_from_length by lia. f_equal. lia.
  - rewrite Forall_map. eapply Forall_impl; [apply range_from_bounds|].
    cbn. intros i Hi. rewrite length_take, length_drop. lia.
  - intros i batch Hi Hnext. rewrite length_map in Hnext.
    apply list_lookup_fmap_Some in Hi as (j & -> & Hj).
    pose proof (range_from_lookup _ _ _ _ _ Hj) as ->.
    destruct (lookup_lt_is_Some_2 (range_from (length xs) 0 (length xs) size) (S i) Hnext)
      as [j' Hj'].
    pose proof (range_from_lookup _ _ _ _ _ Hj') as ->.
    apply list_elem_of_lookup_2 in Hj'.
    pose proof (range_from_bounds (length xs) 0 (length xs)) as Hb.
    rewrite Forall_forall in Hb. apply Hb in Hj'.
    rewrite length_take, length_drop. cbn in *. lia.
  - rewrite length_map. unfold range. apply range_from_pauses. lia.
Qed.

End Batches.


(** *** The coroutines of a batch *)

(** In a batch of distinct tickers a ticker has one position. *)
Lemma calls_same_ticker (calls : list Call) (i j : nat) (name : string)
    (f g : Fetched) :
  NoDup calls.*1 -> calls !! i = Some (name, f) -> calls !! j = Some (name, g) ->
  i = j.
Proof.
  intros Hnodup Hi Hj.
  apply (NoDup_lookup _ i j name Hnodup); rewrite list_lookup_fmap.
  - exact (f_equal (fmap fst) Hi).
  - exact (f_equal (fmap fst) Hj).
Qed.

Lemma imap_pairs_snd (order : list nat) :
  (imap (fun k i : nat => (k, i)) order).*2 = order.
Proof.
  assert (forall f : nat -> nat -> nat * nat,
            (forall k i, (f k i).2 = i) -> (imap f order).*2 = order) as H.
  { induction order as [|i order IH]; intros f Hf; [reflexivity|].
    cbn. rewrite Hf. f_equal. apply IH. intros k j. apply Hf. }
  apply H. reflexivity.
Qed.

Lemma elem_of_imap_pairs (order : list nat) (k i : nat) :
  (k, i) ∈ imap (fun k i : nat => (k, i)) order <-> order !! k = Some i.
Proof.
  rewrite elem_of_lookup_imap. split.
  - intros (k' & i' & [= -> ->] & H). exact H.
  - intros H. exists k, i. split; [reflexivity|exact H].
Qed.

(** What is kept of the results of the positions of a list comes in the
    order of the list. *)
Lemma omap_seq_sublist {A B} (g : nat -> option A) (h : A -> B) (l : list B)
    (start : nat) :
  (forall i a, g (start + i) = Some a -> l !! i = Some (h a)) ->
  sublist (h <$> omap g (seq start (length l))) l.
Proof.
  revert start. induction l as [|x l IH]; intros start Hg; [constructor|].
  assert (forall i a, g (S start + i) = Some a -> l !! i = Some (h a)) as Hrest.
  { intros i a Ha. apply (Hg (S i) a). rewrite <- Ha. f_equal. lia. }
  cbn [length seq]. cbn [omap list_omap]. destruct (g start) as [a|] eqn:E.
  - cbn [fmap list_fmap]. pose proof (Hg 0 a) as H0. rewrite Nat.add_0_r in H0.
    specialize (H0 E). injection H0 as ->. apply sublist_skip, IH, Hrest.
  - apply sublist_cons, IH, Hrest.
Qed.

(** The positions of a list, looked up one by one. *)
Lemma lookup_seq_all {A} (l : list A) :
  (fun i => l !! i) <$> seq 0 (length l) = Some <$> l.
Proof.
  apply list_eq. intros i. rewrite !list_lookup_fmap.
  destruct (l !! i) as [x|] eqn:E.
  - rewrite (lookup_seq_lt _ _ _ (lookup_lt_Some _ _ _ E)). cbn. rewrite E. reflexivity.
  - rewrite lookup_seq_ge by (apply lookup_ge_None; exact E). reflexivity.
Qed.

Lemma length_filter_fmap {A B} (f : A -> B) (p : B -> bool) (l : list A) :
  length (filter (fun x => p (f x)) l) = length (filter p (f <$> l)).
Proof.
  induction l as [|x l IH]; [reflexivity|]. cbn [fmap list_fmap].
  rewrite !filter_cons. destruct (decide _); cbn [length]; rewrite IH; reflexivity.
Qed.

Section Batch.

Variable ln : float -> float.
Variable clocks : nat -> Clock.

Lemma aftermath_ledger_elsewhere (fetch : Fetched) (clock : Clock)
    (name other : string) (alert : option Alert) (self : VolatilityScanner) :
  other <> name ->
  alert_history (aftermath fetch clock name alert self) !! other
  = alert_history self !! other.
Proof.
  intros Hother. unfold aftermath. cbn [alert_history].
  destruct alert; [|reflexivity]. apply lookup_insert_ne. congruence.
Qed.

Lemma aftermath_ledger_own (fetch : Fetched) (clock : Clock)
    (name : string) (alert : option Alert) (self : VolatilityScanner) :
  alert_history (aftermath fetch clock name alert self) !! name
  = match alert with
    | Some _ => Some (at_history_update clock)
    | None => alert_history self !! name
    end.
Proof.
  unfold aftermath. cbn [alert_history].
  destruct alert; [apply lookup_insert_eq|reflexivity].
Qed.

Lemma verdict_ticker (fetch : Fetched) (clock : Clock) (name : string)
    (last : option Z) (a : Alert) :
  verdict ln fetch clock name last = Some a -> alert_ticker a = name.
Proof.
  unfold verdict. destruct fetch as [|[data|]]; try discriminate.
  destruct (compute_zscore ln (Some data)) as [[[z pm] st]|]; [|discriminate].
  destruct (_ && _); [|discriminate]. intros [= <-]. reflexivity.
Qed.

(** A coroutine that finds the ledger entry of its ticker as it was before
    the batch decides as it would on the scanner before the batch. *)
Lemma process_ticker_same_entry (self state : VolatilityScanner)
    (fetch : Fetched) (clock : Clock) (name : string) :
  alert_history state !! name = alert_history self !! name ->
  (process_ticker ln state fetch clock name).1
  = (process_ticker ln self fetch clock name).1
  /\ alert_history (process_ticker ln state fetch clock name).2 !! name
     = alert_history (process_ticker ln self fetch clock name).2 !! name.
Proof.
  intros Hsame. rewrite !LedgerFacts.process_ticker_verdict. cbn [fst snd].
  rewrite !aftermath_ledger_own, Hsame. split; reflexivity.
Qed.

(** The scanner and the results after some turns of a batch of distinct
    tickers, no position taking two turns. *)
Lemma turns_done (self : VolatilityScanner) (calls : list Call)
    (turns : list (nat * nat)) :
  NoDup calls.*1 -> NoDup turns.*2 ->
  let state := fold_left (run_call ln clocks calls) turns (∅, self) in
  (forall i r,
     state.1 !! i = Some r
     <-> exists k name fetch,
           (k, i) ∈ turns /\ calls !! i = Some (name, fetch)
           /\ r = (process_ticker ln self fetch (clocks k) name).1)
  /\ (forall k i name fetch,
        (k, i) ∈ turns -> calls !! i = Some (name, fetch) ->
        alert_history state.2 !! name
        = alert_history (process_ticker ln self fetch (clocks k) name).2 !! name)
  /\ (forall name,
        (forall k i fetch, (k, i) ∈ turns -> calls !! i <> Some (name, fetch)) ->
        alert_history state.2 !! name = alert_history self !! name)
  /\ tickers state.2 = tickers self
  /\ scan_count state.2 = scan_count self
  /\ alerts_sent state.2 = alerts_sent self
  /\ errors state.2
     = errors self
       + length (filter (fun turn : nat * nat =>
                           from_option raised false (calls !! turn.2)) turns).
Proof.
  intros Hcalls. induction turns as [|[k i] turns IH] using rev_ind; intros Hturns state.
  { subst state. cbn. split; [|split; [|split]].
    - intros i r. rewrite lookup_empty. split; [discriminate|].
      intros (k & name & fetch & Hin & _). inversion Hin.
    - intros k i name fetch Hin. inversion Hin.
    - reflexivity.
    - repeat split. lia. }
  rewrite fmap_app in Hturns. cbn in Hturns.
  apply NoDup_app in Hturns as (Hturns & Hfresh & _).
  assert (forall k', (k', i) ∉ turns) as Hi.
  { intros k' Hin. apply (Hfresh i); [|constructor].
    apply (list_elem_of_fmap_2 snd turns (k', i)) in Hin. exact Hin. }
  specialize (IH Hturns). cbn zeta in IH.
  destruct IH as (Hres & Hown & Helse & Ht & Hs & Ha & He).
  subst state. rewrite fold_left_app. cbn [fold_left].
  set (state := fold_left (run_call ln clocks calls) turns (∅, self)) in *.
  destruct (calls !! i) as [[name fetch]|] eqn:Hcall.
  - assert (alert_history state.2 !! name = alert_history self !! name) as Hsame.
    { apply Helse. intros k' i' fetch' Hin Hcall'.
      rewrite (calls_same_ticker calls i' i name fetch' fetch Hcalls Hcall' Hcall) in Hin.
      exact (Hi k' Hin). }
    destruct (process_ticker_same_entry self state.2 fetch (clocks k) name Hsame)
      as [Hr Hl].
    pose proof (LedgerFacts.process_ticker_verdict ln state.2 fetch (clocks k) name)
      as Hv.
    destruct (process_ticker ln state.2 fetch (clocks k) name) as [result self'] eqn:E.
    assert (run_call ln clocks calls state (k, i) = (<[i := result]> state.1, self'))
      as Hrun by (unfold run_call; rewrite Hcall, E; reflexivity).
    rewrite Hrun. clear Hrun.
    cbn [fst snd] in *. injection Hv as Hresult Hself'.
    split; [|split; [|split; [|split; [|split; [|split]]]]].
    + intros i' r. destruct (decide (i' = i)) as [->|Hne].
      * rewrite lookup_insert_eq. split.
        -- intros [= <-]. exists k, name, fetch.
           split; [apply elem_of_app; right; constructor|].
           split; [exact Hcall|exact Hr].
        -- intros (k' & name' & fetch' & Hin & Hcall' & ->).
           apply elem_of_app in Hin as [Hin|Hin]; [destruct (Hi k' Hin)|].
           apply list_elem_of_singleton in Hin. injection Hin as ->.
           rewrite Hcall in Hcall'. injection Hcall' as <- <-.
           rewrite Hr. reflexivity.
      * rewrite lookup_insert_ne by congruence. rewrite Hres. split.
        -- intros (k' & name' & fetch' & Hin & Hrest). exists k', name', fetch'.
           split; [apply elem_of_app; left; exact Hin|exact Hrest].
        -- intros (k' & name' & fetch' & Hin & Hrest). exists k', name', fetch'.
           split; [|exact Hrest].
           apply elem_of_app in Hin as [Hin|Hin]; [exact Hin|].
           apply list_elem_of_singleton in Hin. congruence.
    + intros k' i' name' fetch' Hin Hcall'.
      apply elem_of_app in Hin as [Hin|Hin].
      * assert (name' <> name) as Hne.
        { intros ->.
          rewrite (calls_same_ticker calls i' i name fetch' fetch Hcalls Hcall' Hcall)
            in Hin.
          exact (Hi k' Hin). }
        rewrite Hself', aftermath_ledger_elsewhere by exact Hne.
        apply (Hown k' i'); assumption.
      * apply list_elem_of_singleton in Hin. injection Hin as -> ->.
        rewrite Hcall in Hcall'. injection Hcall' as <- <-. exact Hl.
    + intros name' Hfree.
      assert (name' <> name) as Hne.
      { intros ->. apply (Hfree k i fetch); [apply elem_of_app; right; constructor|].
        exact Hcall. }
      rewrite Hself', aftermath_ledger_elsewhere by exact Hne.
      apply Helse. intros k' i' fetch' Hin. apply (Hfree k'), elem_of_app.
      left. exact Hin.
    + rewrite Hself'. exact Ht.
    + rewrite Hself'. exact Hs.
    + rewrite Hself'. exact Ha.
    + rewrite Hself', filter_app, length_app, filter_cons, filter_nil. cbn [snd].
      rewrite Hcall. cbn [from_option aftermath errors]. rewrite He.
      destruct fetch as [|data];
        [change (raised (name, Raised)) with true
        |change (raised (name, Returned data)) with false];
        destruct (decide _) as [H|H]; cbn [length]; try lia.
      * destruct (H I).
      * destruct H.
  - assert (run_call ln clocks calls state (k, i) = state)
      as Hrun by (unfold run_call; rewrite Hcall; reflexivity).
    rewrite Hrun. clear Hrun.
    split; [|split; [|split; [|split; [|split; [|split]]]]]; try assumption.
    + intros i' r. rewrite Hres. split.
      * intros (k' & name' & fetch' & Hin & Hrest). exists k', name', fetch'.
        split; [apply elem_of_app; left; exact Hin|exact Hrest].
      * intros (k' & name' & fetch' & Hin & Hcall' & Hr). exists k', name', fetch'.
        split; [|split; assumption].
        apply elem_of_app in Hin as [Hin|Hin]; [exact Hin|].
        apply list_elem_of_singleton in Hin. injection Hin as -> ->.
        rewrite Hcall in Hcall'. discriminate.
    + intros k' i' name' fetch' Hin Hcall'.
      apply elem_of_app in Hin as [Hin|Hin]; [apply (Hown k' i'); assumption|].
      apply list_elem_of_singleton in Hin. injection Hin as -> ->.
      rewrite Hcall in Hcall'. discriminate.
    + intros name' Hfree. apply Helse.
      intros k' i' fetch' Hin. apply (Hfree k'), elem_of_app. left. exact Hin.
    + rewrite He, filter_app, length_app, filter_cons, filter_nil. cbn [snd].
      rewrite Hcall. cbn [from_option].
      destruct (decide _) as [H|H]; [destruct H|]. cbn [length]. lia.
Qed.

(** X22. In a batch of distinct tickers, in whatever order the coroutines
    get past their fetch, each of them decides as it would alone on the
    scanner as it was before the batch, at the clock readings it takes when
    it runs: it leaves the ledger entry of its ticker as that call would,
    its alert, if any, is among the alerts returned, and every alert
    returned is the alert of such a call. The alerts come in the order of
    the batch. The batch leaves the ledger entries of the other tickers and
    the other counters of the scanner as they were, and counts one error
    for each fetch that raised. *)
Theorem batch_calls_decide_alone (self : VolatilityScanner) (calls : list Call)
    (order : list nat) :
  NoDup calls.*1 ->
  order ≡ₚ seq 0 (length calls) ->
  let out := process_ticker_batch ln clocks self calls order in
  (forall k i name fetch,
     order !! k = Some i -> calls !! i = Some (name, fetch) ->
     let alone := process_ticker ln self fetch (clocks k) name in
     alert_history out.2 !! name = alert_history alone.2 !! name
     /\ forall a, alone.1 = Some a -> a ∈ out.1)
  /\ (forall a,
        a ∈ out.1 ->
        exists k i name fetch,
          order !! k = Some i /\ calls !! i = Some (name, fetch)
          /\ (process_ticker ln self fetch (clocks k) name).1 = Some a)
  /\ sublist (alert_ticker <$> out.1) calls.*1
  /\ (forall name,
        name ∉ calls.*1 -> alert_history out.2 !! name = alert_history self !! name)
  /\ tickers out.2 = tickers self
  /\ scan_count out.2 = scan_count self
  /\ alerts_sent out.2 = alerts_sent self
  /\ errors out.2 = errors self + length (filter raised calls).
Proof.
  intros Hcalls Hperm out. subst out. unfold process_ticker_batch.
  assert (NoDup (imap (fun k i : nat => (k, i)) order).*2) as Hturns.
  { rewrite imap_pairs_snd, Hperm. apply NoDup_seq. }
  pose proof (turns_done self calls _ Hcalls Hturns) as Hdone. cbn zeta in Hdone.
  destruct (fold_left (run_call ln clocks calls) _ (∅, self)) as [results self'].
  cbn [fst snd] in *.
  destruct Hdone as (Hres & Hown & Helse & Ht & Hs & Ha & He).
  split; [|split; [|split; [|split; [|split; [|split; [|split]]]]]];
    try assumption.
  - intros k i name fetch Hk Hcall. cbn zeta. split.
    + apply (Hown k i); [apply elem_of_imap_pairs; exact Hk|exact Hcall].
    + intros a Halone. apply list_elem_of_omap. exists i. split.
      * apply elem_of_seq. split; [lia|]. apply lookup_lt_Some in Hcall. lia.
      * assert (results !! i = Some (Some a)) as ->; [|reflexivity].
        apply Hres. exists k, name, fetch.
        split; [apply elem_of_imap_pairs; exact Hk|]. split; [exact Hcall|].
        symmetry. exact Halone.
  - intros a Hin. apply list_elem_of_omap in Hin as (i & _ & Hi).
    destruct (results !! i) as [r|] eqn:Hr; [|discriminate]. cbn in Hi. subst r.
    apply Hres in Hr as (k & name & fetch & Hk & Hcall & Halone).
    exists k, i, name, fetch. split; [apply elem_of_imap_pairs; exact Hk|].
    split; [exact Hcall|]. symmetry. exact Halone.
  - rewrite <- (length_fmap fst calls). apply omap_seq_sublist.
    intros i a Hi. cbn in Hi.
    destruct (results !! i) as [r|] eqn:Hr; [|discriminate]. cbn in Hi. subst r.
    apply Hres in Hr as (k & name & fetch & Hk & Hcall & Halone).
    rewrite list_lookup_fmap, Hcall. cbn. f_equal. symmetry.
    rewrite LedgerFacts.process_ticker_verdict in Halone. cbn in Halone.
    symmetry in Halone. exact (verdict_ticker _ _ _ _ _ Halone).
  - intros name Hname. apply Helse. intros k i fetch _ Hcall. apply Hname.
    apply list_elem_of_fmap. exists (name, fetch). split; [reflexivity|].
    apply list_elem_of_lookup_2 in Hcall. exact Hcall.
  - rewrite He. f_equal.
    rewrite (length_filter_fmap snd (fun i => from_option raised false (calls !! i))).
    rewrite imap_pairs_snd, Hperm.
    rewrite (length_filter_fmap (fun i => calls !! i) (from_option raised false)).
    rewrite lookup_seq_all.
    rewrite <- (length_filter_fmap Some (from_option raised false)). reflexivity.
Qed.

End Batch.

(** *** Retries *)

(** X17. The scanner's fetcher makes between one and three requests and
    sleeps 2 and then 4 seconds between them; every request before the last
    one raised. It returns a frame only when the last request answered with
    a frame that has a row and a Close column, and returns that frame. When
    the last request raised, three requests were made and nothing is
    returned. *)
Theorem get_intraday_data_gives_up (provider : nat -> Attempt) :
  let f := get_intraday_data provider in
  (1 <= requests f <= MAX_RETRIES)
  /\ sleeps f = take (requests f - 1) [2; 4]
  /\ (forall k, k < requests f - 1 -> provider k = Fails)
  /\ (forall data,
        fetch_result f = Some data ->
        exists h, provider (requests f - 1) = Answers h
                  /\ data = frame h /\ bars data <> [] /\ "Close" ∈ columns h)
  /\ (provider (requests f - 1) = Fails -> requests f = MAX_RETRIES /\ fetch_result f = None).
Proof.
  cbn zeta. unfold get_intraday_data, MAX_RETRIES. cbn [retry_from].
  destruct (provider 0) as [|h0] eqn:E0; cbn;
    [destruct (provider 1) as [|h1] eqn:E1; cbn;
     [destruct (provider 2) as [|h2] eqn:E2; cbn|]|].
  all: split; [lia|]; split; [reflexivity|]; split;
    [intros k Hk; repeat (destruct k as [|k]; [assumption|]); lia|].
  all: split; [|rewrite ?E0, ?E1, ?E2; try discriminate; auto].
  all: intros data; try discriminate.
  all: destruct (empty _) eqn:Hempty; try discriminate.
  all: case_bool_decide; try discriminate.
  all: intros [= <-]; eexists; split; [eassumption|]; split; [reflexivity|].
  all: split; [|assumption].
  all: unfold empty in Hempty; apply Bool.orb_false_iff in Hempty as [Hrows _].
  all: apply bool_decide_eq_false in Hrows; exact Hrows.
Qed.

End LoopFacts.

Module ResampleFacts.

Import Analyzer Statements Properties.

Lemma nth_Forall {A} (P : A -> Prop) (l : list A) (i : nat) (d : A) :
  Forall P l -> i < length l -> P (nth i l d).
Proof.
  intros Hall Hi. rewrite Forall_forall in Hall. apply Hall.
  apply list_elem_of_In, nth_In. exact Hi.
Qed.

(** The median gap lies where all the gaps lie. *)
Lemma median_gap_between (ts : list Z) (P : Z -> Prop) (m : Z) :
  Forall P (time_diffs ts) ->
  median_gap_twice ts = Some m ->
  exists a b, P a /\ P b /\ m = (a + b)%Z.
Proof.
  unfold median_gap_twice. intros Hall.
  set (d := merge_sort Z.le (time_diffs ts)).
  assert (Forall P d) as Hd.
  { unfold d. rewrite merge_sort_Permutation. exact Hall. }
  destruct (Nat.eqb_spec (length d) 0) as [|Hne]; [discriminate|].
  destruct (Nat.even (length d)) eqn:Heven; intros E%(inj Some); subst m.
  - exists (nth (length d / 2 - 1) d 0%Z), (nth (length d / 2) d 0%Z).
    assert (length d / 2 < length d) by (apply Nat.div_lt; lia).
    split; [apply nth_Forall; [exact Hd|lia]|].
    split; [apply nth_Forall; [exact Hd|lia]|reflexivity].
  - exists (nth (length d / 2) d 0%Z), (nth (length d / 2) d 0%Z).
    assert (length d / 2 < length d) by (apply Nat.div_lt; lia).
    split; [apply nth_Forall; [exact Hd|lia]|].
    split; [apply nth_Forall; [exact Hd|lia]|lia].
Qed.

Lemma median_gap_some (ts : list Z) :
  time_diffs ts <> [] -> is_Some (median_gap_twice ts).
Proof.
  intros Hne. unfold median_gap_twice.
  destruct (Nat.eqb_spec (length (merge_sort Z.le (time_diffs ts))) 0) as [E|_].
  - exfalso. apply Hne. apply length_zero_iff_nil.
    rewrite <- E. symmetry. apply Permutation_length, merge_sort_Permutation.
  - destruct (Nat.even _); eauto.
Qed.

Section Resample.

Variable resample_B : list Bar -> list Bar.

(** X2. The engine takes the rows as they are when the index is not a
    datetime index, and when every gap between consecutive rows is an hour
    or more; it resamples them to business days when the index is a
    datetime index and every gap between consecutive rows is below an
    hour. *)
Theorem resampling_follows_the_gaps (data : DataFrame) :
  let gaps := time_diffs (map bar_time (bars data)) in
  (datetime_index data = false -> to_daily resample_B data = bars data)
  /\ (Forall (fun gap => HOUR_NS <= gap)%Z gaps -> to_daily resample_B data = bars data)
  /\ (datetime_index data = true -> gaps <> [] ->
      Forall (fun gap => gap < HOUR_NS)%Z gaps ->
      to_daily resample_B data = resample_B (bars data)).
Proof.
  cbn zeta. unfold to_daily, looks_intraday. split; [|split].
  - intros ->. reflexivity.
  - intros Hall. destruct (datetime_index data); [|reflexivity].
    destruct (median_gap_twice (map bar_time (bars data))) as [m|] eqn:E; [|reflexivity].
    destruct (median_gap_between _ _ _ Hall E) as (a & b & Ha & Hb & ->).
    destruct (Z.ltb_spec (a + b) (2 * HOUR_NS)); [lia|reflexivity].
  - intros -> Hne Hall.
    destruct (median_gap_some _ Hne) as [m E]. rewrite E.
    destruct (median_gap_between _ _ _ Hall E) as (a & b & Ha & Hb & ->).
    destruct (Z.ltb_spec (a + b) (2 * HOUR_NS)); [reflexivity|lia].
Qed.

End Resample.

End ResampleFacts.

Module AnalyzerIOFacts.

Import Analyzer Statements ScannerLoop AnalyzerIO Properties.

(** X1. The analyzer's fetcher asks the provider for five-minute bars first,
    over 60 days when the period is 2mo or 3mo, and for daily bars of the
    period itself exactly when that first request raises or comes back
    empty; it makes no other request. A frame it returns is the answer to
    the last request made, has a row, and has the columns Open, High, Low
    and Close. *)
Theorem get_intraday_data_requests (history : Request -> Attempt) (period : string) :
  let d := get_intraday_data history period in
  let intraday :=
    {| interval := Some "5m";
       period := if bool_decide (period = "2mo" \/ period = "3mo") then "60d" else period |} in
  let daily := {| interval := None; period := period |} in
  (asked d = [intraday] \/ asked d = [intraday; daily])
  /\ (asked d = [intraday; daily]
      <-> history intraday = Fails
          \/ exists h, history intraday = Answers h /\ empty h = true)
  /\ (forall data,
        downloaded d = Some data ->
        exists request h,
          last (asked d) = Some request
          /\ history request = Answers h
          /\ data = frame h
          /\ bars data <> []
          /\ Forall (fun col => col ∈ columns h) REQUIRED_COLS).
Proof.
  cbn zeta. unfold get_intraday_data.
  assert ((if bool_decide (period ∈ ["2mo"; "3mo"]) then "60d" else period)
          = (if bool_decide (period = "2mo" \/ period = "3mo") then "60d" else period))
    as ->.
  { apply (f_equal (fun b : bool => if b then "60d" else period)).
    apply bool_decide_ext. rewrite !elem_of_cons, elem_of_nil. tauto. }
  set (intraday := {| interval := Some "5m"; period := _ |}).
  set (daily := {| interval := None; period := period |}).
  assert (forall h data,
            empty h = false ->
            (if forallb (fun col => bool_decide (col ∈ columns h)) REQUIRED_COLS
             then Some (frame h) else None) = Some data ->
            data = frame h /\ bars data <> []
            /\ Forall (fun col => col ∈ columns h) REQUIRED_COLS) as Hchecked.
  { intros h data Hempty Hdata.
    destruct (forallb _ REQUIRED_COLS) eqn:Hcols; [|discriminate].
    injection Hdata as <-. split; [reflexivity|]. split.
    - unfold empty in Hempty. apply Bool.orb_false_iff in Hempty as [Hrows _].
      apply bool_decide_eq_false in Hrows. exact Hrows.
    - rewrite forallb_forall in Hcols. rewrite Forall_forall. intros col Hcol.
      apply (bool_decide_eq_true_1 (col ∈ columns h)), Hcols, list_elem_of_In, Hcol. }
  destruct (history intraday) as [|h] eqn:E1; [|destruct (empty h) eqn:Hempty];
    cbn [asked downloaded].
  - split; [right; reflexivity|]. split; [split; [left; reflexivity|reflexivity]|].
    intros data Hdata. destruct (history daily) as [|h'] eqn:E2; [discriminate|].
    destruct (empty h') eqn:Hempty'; [discriminate|].
    exists daily, h'. split; [reflexivity|]. split; [exact E2|].
    apply (Hchecked h' data Hempty' Hdata).
  - split; [right; reflexivity|].
    split; [split; [right; eauto|reflexivity]|].
    intros data Hdata. destruct (history daily) as [|h'] eqn:E2; [discriminate|].
    destruct (empty h') eqn:Hempty'; [discriminate|].
    exists daily, h'. split; [reflexivity|]. split; [exact E2|].
    apply (Hchecked h' data Hempty' Hdata).
  - split; [left; reflexivity|]. split.
    + split; [discriminate|]. intros [?|(h' & [= <-] & Hh')]; congruence.
    + intros data Hdata. exists intraday, h. split; [reflexivity|]. split; [exact E1|].
      apply (Hchecked h data Hempty Hdata).
Qed.

Lemma lookup_key_elem {V} (key : string) (d : list (string * V)) (v : V) :
  lookup_key key d = Some v -> (key, v) ∈ d.
Proof.
  unfold lookup_key. destruct (List.find _ d) as [[k v']|] eqn:E; [|discriminate].
  intros [= <-]. apply find_some in E as [Hin Hk]. cbn in Hk.
  apply String.eqb_eq in Hk. subst k. apply list_elem_of_In. exact Hin.
Qed.

Lemma dashboard_files_NoDup : NoDup dashboard_files.*1.
Proof. apply (bool_decide_eq_true_1 (NoDup dashboard_files.*1)). vm_compute. reflexivity. Qed.

Lemma dashboard_file (window : Window) (category ranking_type : string) :
  category ∈ CATEGORIES -> ranking_type ∈ RANKING_TYPES ->
  (path_join "output" (csv_name category ranking_type (window_name window)),
   (window_name window, category, ranking_type)) ∈ dashboard_files.
Proof.
  unfold CATEGORIES, RANKING_TYPES. rewrite !elem_of_cons, !elem_of_nil.
  intros Hc Hr.
  destruct Hc as [->|[->|[->|[]]]];
    destruct Hr as [->|[->|[->|[->|[->|[]]]]]];
    destruct window;
    match goal with
    | |- ?x ∈ ?l => apply (bool_decide_eq_true_1 (x ∈ l)); vm_compute; reflexivity
    end.
Qed.

Section Exports.

Variable argsort_float : list float -> list nat.
Variable argsort_int : list Z -> list nat.

(** X15. Every file export_to_csv writes into the directory output for a
    ranked window is one of the paths the dashboard looks for, and the
    dashboard reads it as the same window, category and ranking; the file
    holds a table of the rankings that is not empty. The paths the
    dashboard looks for are pairwise distinct. *)
Theorem exported_files_are_the_dashboards (agg : Aggregated) (window : Window) :
  let ranked := rank_results argsort_float argsort_int agg window in
  let files := export_to_csv ranked (window_name window) "output" in
  (forall path table,
     (path, table) ∈ files ->
     exists category ranking_type tables,
       (path, (window_name window, category, ranking_type)) ∈ dashboard_files
       /\ (category, tables) ∈ ranked
       /\ (ranking_type, table) ∈ tables
       /\ table_empty table = false)
  /\ NoDup dashboard_files.*1.
Proof.
  cbn zeta. split; [|apply dashboard_files_NoDup].
  intros path table Hin. unfold export_to_csv in Hin.
  apply list_elem_of_In, in_flat_map in Hin as (category & Hcat & Hin).
  destruct (lookup_key category _) as [tables|] eqn:Hlookup; [|inversion Hin].
  apply lookup_key_elem in Hlookup.
  apply list_elem_of_In, list_elem_of_omap in Hin as ([ranking_type table'] & Hentry & Hsome).
  cbn [fst snd] in Hsome.
  destruct (table_empty table') eqn:Hempty; [discriminate|].
  injection Hsome as <- <-.
  exists category, ranking_type, tables.
  split; [|split; [exact Hlookup|split; [exact Hentry|exact Hempty]]].
  apply dashboard_file.
  - apply list_elem_of_In. exact Hcat.
  - destruct (RankFacts.rank_results_tables _ _ _ _ _ _ Hlookup) as (stats_list & _ & ->).
    apply (list_elem_of_fmap_2 fst) in Hentry. exact Hentry.
Qed.

(** X14. Every row of each of the five ranking tables has exactly the
    columns the ranker selects for that ranking, in the order in which it
    names them: every column it selects is a field of the window records. *)
Theorem ranking_tables_columns (df : list Row) :
  forall ranking_type table,
    (ranking_type, table) ∈ category_rankings argsort_float argsort_int df ->
    Forall (fun row : nat * list (string * cell) =>
              row.2.*1 = ranking_columns ranking_type)
           table.
Proof.
  intros ranking_type table Hin. unfold category_rankings in Hin.
  rewrite !elem_of_cons, elem_of_nil in Hin.
  destruct Hin as [[= -> ->]|[[= -> ->]|[[= -> ->]|[[= -> ->]|[[= -> ->]|[]]]]]];
    unfold select; rewrite Forall_map; apply Forall_forall; intros r _;
    reflexivity.
Qed.

End Exports.

End AnalyzerIOFacts.

Module InsightFacts.

Import Analyzer AnalyzerIO Insights Properties.

Local Open Scope float_scope.

(** Comparisons with the thresholds of the analysis. *)
Lemma gt_weaken (x a b : float) : (b <? a) = true -> gt x a = true -> gt x b = true.
Proof. unfold gt. intros Hba Hax. apply (FloatFacts.ltb_trans _ _ _ Hba Hax). Qed.

Lemma lt_gt_clash (x a b : float) :
  (b <? a) = false -> lt x a = true -> gt x b = true -> False.
Proof.
  unfold lt, gt. intros Hab Hxa Hbx.
  rewrite (FloatFacts.ltb_trans _ _ _ Hbx Hxa) in Hab. discriminate.
Qed.

Lemma elem_of_if (b : bool) (x t : string) :
  x ∈ (if b then [t] else []) <-> b = true /\ x = t.
Proof.
  destruct b.
  - rewrite list_elem_of_singleton. split; [auto|tauto].
  - rewrite elem_of_nil. split; [tauto|intros [? _]; discriminate].
Qed.

Lemma map_if {A B} (f : A -> B) (b : bool) (x : A) :
  map f (if b then [x] else []) = if b then [f x] else [].
Proof. destruct b; reflexivity. Qed.

(** A signal type that none of the alternatives can be. *)
Ltac no_such_signal :=
  repeat match goal with
         | H : _ \/ _ |- _ => destruct H
         | H : _ /\ _ |- _ => destruct H
         | H : _ ∈ [] |- _ => inversion H
         | H : (_ && false)%bool = true |- _ => rewrite Bool.andb_false_r in H
         end;
  discriminate.

Section Analysis.

Variable format : string -> num -> string.

Abbreviation analyze := (analyze_ticker_metrics format).

(** What an analysis of a dictionary with entries is made of. *)
Lemma analysis_labels (ticker window : string) (metrics : Metrics) (a : Analysis) :
  metrics <> [] ->
  analyze ticker metrics window = Some a ->
  exists (avg cons : num) (swing extreme momentum : bool),
    number (get metrics "avg_intraday_range") = Some avg
    /\ number (get metrics "consistency_score") = Some cons
    /\ risk_assessment a
       = (if gt (num_float avg) 5 then RISK_VERY_HIGH
          else if gt (num_float avg) 3 then RISK_HIGH
          else if gt (num_float avg) 1.5 then RISK_MODERATE
          else RISK_LOW)
    /\ opportunities a
       = (if gt (num_float avg) 5 then []
          else if gt (num_float avg) 3 then []
          else if gt (num_float avg) 1.5 then []
          else ["✅ Low volatility suggests stable price action. Suitable for conservative strategies."])
    /\ volatility_profile a
       = (if gt (num_float cons) 5 then PROFILE_CONSISTENT
          else if gt (num_float cons) 2 then PROFILE_MODERATE
          else PROFILE_INCONSISTENT)
    /\ signal_types a
       = (if swing then ["SWING_TRADING"] else [])
         ++ (if extreme then ["EXTREME_MOVE"] else [])
         ++ (if gt (num_float cons) 4 && gt (num_float avg) 2
             then ["MEAN_REVERSION"] else [])
         ++ (if lt (num_float avg) 1 && gt (num_float cons) 3
             then ["LOW_VOLATILITY"] else [])
         ++ (if momentum && gt (num_float avg) 4 then ["MOMENTUM"] else []).
Proof.
  intros Hne. unfold analyze_ticker_metrics.
  destruct metrics as [|entry rest]; [congruence|].
  set (metrics := entry :: rest).
  destruct (number (get metrics "avg_intraday_range")) as [avg|]; [|discriminate].
  destruct (number (get metrics "std_intraday_range")) as [std|]; [|discriminate].
  destruct (number (get metrics "consistency_score")) as [cons|]; [|discriminate].
  destruct (number (get metrics "ultra_extreme_move_days")) as [ultra|]; [|discriminate].
  destruct (number (get metrics "realized_volatility")) as [realized|]; [|discriminate].
  destruct (number (get metrics "days_in_window")) as [days|]; [|discriminate].
  cbn [mbind option_bind].
  set (counted := gt (num_float days) 0).
  destruct (if counted then _ else _) as [[[swing2 swing3] extreme]|]; [|discriminate].
  cbn [mbind option_bind]. intros [= <-].
  exists avg, cons.
  exists (counted && gt (num_float swing2) (num_float days * 0.5)),
         (counted && gt (num_float extreme) (num_float days * ONE_TENTH)),
         (counted && gt (num_float swing3) (num_float days * THREE_TENTHS)).
  split; [reflexivity|]. split; [reflexivity|].
  unfold signal_types.
  cbn [risk_assessment opportunities volatility_profile trading_signals].
  split; [destruct (gt (num_float avg) 5), (gt (num_float avg) 3),
                   (gt (num_float avg) 1.5); reflexivity|].
  split; [destruct (gt (num_float avg) 5), (gt (num_float avg) 3),
                   (gt (num_float avg) 1.5); reflexivity|].
  split; [destruct (gt (num_float cons) 5), (gt (num_float cons) 2); reflexivity|].
  rewrite !map_app, !map_if. cbn [map signal_type].
  do 4 f_equal.
  destruct counted, (gt (num_float avg) 4),
    (gt (num_float swing3) (num_float days * THREE_TENTHS)); reflexivity.
Qed.

(** X25. The trading signals of an analysis come in the order SWING_TRADING,
    EXTREME_MOVE, MEAN_REVERSION, LOW_VOLATILITY, MOMENTUM, each at most
    once, and agree with its labels: a MOMENTUM signal comes with a risk
    that is very high or high; a MEAN_REVERSION signal with a risk that is
    not low and a profile that is not inconsistent; a LOW_VOLATILITY signal
    with a low risk, a profile that is not inconsistent, and neither of the
    other two. *)
Theorem signals_agree_with_labels (ticker window : string) (metrics : Metrics)
    (a : Analysis) :
  exact_integers metrics ->
  analyze ticker metrics window = Some a ->
  sublist (signal_types a) SIGNAL_TYPES
  /\ ("MOMENTUM" ∈ signal_types a ->
      (risk_assessment a = RISK_VERY_HIGH \/ risk_assessment a = RISK_HIGH))
  /\ ("MEAN_REVERSION" ∈ signal_types a ->
      risk_assessment a <> RISK_LOW
      /\ volatility_profile a <> PROFILE_INCONSISTENT)
  /\ ("LOW_VOLATILITY" ∈ signal_types a ->
      risk_assessment a = RISK_LOW
      /\ volatility_profile a <> PROFILE_INCONSISTENT
      /\ ("MEAN_REVERSION" ∉ signal_types a)
      /\ ("MOMENTUM" ∉ signal_types a)).
Proof.
  intros _ Hrun. destruct metrics as [|entry rest] eqn:Hmetrics.
  { injection Hrun as <-. unfold signal_types. cbn.
    split; [apply sublist_nil_l|].
    split; [|split]; intros Hin; inversion Hin. }
  rewrite <- Hmetrics in Hrun.
  destruct (analysis_labels ticker window metrics a) as
    (avg & cons & swing & extreme & momentum & _ & _ & Hrisk & _ & Hprofile & Htypes);
    [rewrite Hmetrics; discriminate|exact Hrun|].
  rewrite Htypes, Hrisk, Hprofile. clear Htypes Hrisk Hprofile Hrun.
  set (x := num_float avg). set (c := num_float cons).
  assert (gt x 4 = true -> gt x 3 = true) as H43 by (apply gt_weaken; reflexivity).
  assert (gt x 2 = true -> gt x 1.5 = true) as H21 by (apply gt_weaken; reflexivity).
  assert (gt c 4 = true -> gt c 2 = true) as C42 by (apply gt_weaken; reflexivity).
  assert (gt c 3 = true -> gt c 2 = true) as C32 by (apply gt_weaken; reflexivity).
  assert (lt x 1 = true -> gt x 5 = false /\ gt x 4 = false /\ gt x 3 = false
                           /\ gt x 2 = false /\ gt x 1.5 = false) as Hlow.
  { intros Hlt. repeat split.
    all: match goal with
         | |- gt ?y ?b = false =>
           destruct (gt y b) eqn:E; [|reflexivity];
           exfalso; apply (lt_gt_clash y 1 b); [reflexivity|exact Hlt|exact E]
         end. }
  split; [|split; [|split]].
  - unfold SIGNAL_TYPES.
    destruct swing, extreme, (gt c 4 && gt x 2), (lt x 1 && gt c 3),
      (momentum && gt x 4); cbn [app];
      repeat first [apply sublist_nil_l | apply sublist_skip | apply sublist_cons].
  - rewrite !elem_of_app, !elem_of_if.
    intros [[_ [=]]|[[_ [=]]|[[_ [=]]|[[_ [=]]|[Hm _]]]]].
    apply andb_prop in Hm as [_ H4]. specialize (H43 H4).
    destruct (gt x 5); [left; reflexivity|]. rewrite H43. right. reflexivity.
  - rewrite !elem_of_app, !elem_of_if.
    intros [[_ [=]]|[[_ [=]]|[[Hm _]|[[_ [=]]|[_ [=]]]]]].
    apply andb_prop in Hm as [H4 H2]. specialize (H21 H2). specialize (C42 H4).
    split.
    + destruct (gt x 5); [discriminate|]. destruct (gt x 3); [discriminate|].
      rewrite H21. discriminate.
    + destruct (gt c 5); [discriminate|]. rewrite C42. discriminate.
  - rewrite !elem_of_app, !elem_of_if.
    intros [[_ [=]]|[[_ [=]]|[[_ [=]]|[[Hm _]|[_ [=]]]]]].
    apply andb_prop in Hm as [Hlt H3]. specialize (C32 H3).
    destruct (Hlow Hlt) as (L5 & L4 & L3 & L2 & L1).
    rewrite L5, L4, L3, L2, L1, Bool.andb_false_r.
    split; [reflexivity|]. split.
    + destruct (gt c 5); [discriminate|]. rewrite C32. discriminate.
    + split; intros Hin; no_such_signal.
Qed.

(** X26. When a metrics dictionary that is not empty has no average range,
    or has NaN for it, the analysis labels the ticker as of low risk and
    stable, offers it for conservative strategies, and gives neither a
    MEAN_REVERSION nor a MOMENTUM signal. *)
Theorem unknown_average_reads_as_low_risk (ticker window : string)
    (metrics : Metrics) (a : Analysis) :
  metrics <> [] ->
  exact_integers metrics ->
  average_unknown metrics ->
  analyze ticker metrics window = Some a ->
  risk_assessment a = RISK_LOW
  /\ opportunities a
     = ["✅ Low volatility suggests stable price action. Suitable for conservative strategies."]
  /\ ("MEAN_REVERSION" ∉ signal_types a)
  /\ ("MOMENTUM" ∉ signal_types a).
Proof.
  intros Hne _ Hunknown Hrun.
  destruct (analysis_labels ticker window metrics a Hne Hrun) as
    (avg & cons & swing & extreme & momentum & Havg & _ & Hrisk & Hopp & _ & Htypes).
  assert (Forall (fun b => gt (num_float avg) b = false) [5; 4; 3; 2; 1.5]) as Hgt.
  { unfold get in Havg. destruct Hunknown as [Hnone|(n & Hsome & Hnan)].
    - rewrite Hnone in Havg. injection Havg as <-.
      repeat constructor.
    - rewrite Hsome in Havg. injection Havg as <-.
      repeat constructor; apply RankFacts.ltb_nan_r; exact Hnan. }
  apply Forall_cons in Hgt as [H5 Hgt]. apply Forall_cons in Hgt as [H4 Hgt].
  apply Forall_cons in Hgt as [H3 Hgt]. apply Forall_cons in Hgt as [H2 Hgt].
  apply Forall_cons in Hgt as [H1 _].
  rewrite Hrisk, Hopp, Htypes, H5, H4, H3, H2, H1, Bool.andb_false_r.
  split; [reflexivity|]. split; [reflexivity|].
  split; intros Hin; rewrite !elem_of_app, ?elem_of_if in Hin; no_such_signal.
Qed.


End Analysis.

End InsightFacts.

Module DashboardFacts.

Import Analyzer AnalyzerIO Insights Dashboard Properties.

Lemma dict_set_Forall {V} (P : string * V -> Prop) (d : list (string * V))
    (k : string) (v : V) :
  Forall P d -> P (k, v) -> Forall P (dict_set d k v).
Proof.
  intros Hd Hv. unfold dict_set. destruct (existsb _ d).
  - rewrite Forall_map. eapply Forall_impl; [exact Hd|].
    intros kv Hkv. cbn. destruct (String.eqb kv.1 k); assumption.
  - apply Forall_app. split; [exact Hd|]. constructor; [exact Hv|constructor].
Qed.

Lemma dict_update_Forall {V} (P : string * V -> Prop) (other d : list (string * V)) :
  Forall P d -> Forall P other -> Forall P (dict_update d other).
Proof.
  unfold dict_update. revert d.
  induction other as [|[k v] other IH]; intros d Hd Hother; [exact Hd|].
  cbn [fold_left fst snd]. apply Forall_cons in Hother as [Hkv Hother].
  apply IH; [|exact Hother]. apply dict_set_Forall; assumption.
Qed.

Lemma to_dict_keys (df : Frame) (row : list cell) :
  Forall (fun kv : string * cell => kv.1 ∈ frame_columns df) (to_dict df row).
Proof.
  unfold to_dict. rewrite Forall_forall. intros [k c] Hin.
  apply elem_of_zip_l in Hin. exact Hin.
Qed.

Lemma ranking_columns_within (layout : string) :
  layout ∈ RANKING_TYPES -> Forall (fun c => c ∈ RANKING_COLUMNS) (ranking_columns layout).
Proof.
  unfold RANKING_TYPES. rewrite !elem_of_cons, elem_of_nil.
  intros [->|[->|[->|[->|[->|[]]]]]]; cbn;
    repeat constructor;
    match goal with
    | |- ?x ∈ ?l => apply (bool_decide_eq_true_1 (x ∈ l)); vm_compute; reflexivity
    end.
Qed.

(** A key that a dictionary does not have reads as the default. *)
Lemma get_absent (metrics : Metrics) (key : string) :
  Forall (fun kv : string * cell => kv.1 <> key) metrics ->
  get metrics key = CNum (PyInt 0).
Proof.
  intros Habsent. unfold get, lookup_key.
  destruct (List.find _ metrics) as [[k c]|] eqn:E; [|reflexivity].
  apply find_some in E as [Hin Hk]. cbn in Hk. apply String.eqb_eq in Hk.
  rewrite Forall_forall in Habsent. apply list_elem_of_In, Habsent in Hin.
  cbn in Hin. congruence.
Qed.

Lemma note_table_within (ticker : string) (found : list (string * Metrics))
    (entry : string * Frame) :
  (exists layout, layout ∈ RANKING_TYPES
                  /\ frame_columns entry.2 = ranking_columns layout) ->
  Forall (fun e : string * Metrics => within_rankings e.2) found ->
  Forall (fun e : string * Metrics => within_rankings e.2) (note_table ticker found entry).
Proof.
  intros (layout & Hlayout & Hcols) Hfound. destruct entry as [ranking_type df].
  unfold note_table. cbn [snd] in Hcols.
  destruct (negb (frame_empty df) && _); [|exact Hfound].
  destruct (rows_of ticker df) as [|row rows]; [exact Hfound|].
  apply dict_set_Forall; [exact Hfound|]. cbn [snd]. unfold within_rankings.
  eapply Forall_impl; [apply to_dict_keys|]. cbn. intros kv Hkv.
  rewrite Hcols in Hkv. pose proof (ranking_columns_within layout Hlayout) as Hall.
  rewrite Forall_forall in Hall. apply Hall. exact Hkv.
Qed.

Lemma all_metrics_within (metrics_dict : list (string * Metrics)) :
  Forall (fun e : string * Metrics => within_rankings e.2) metrics_dict ->
  within_rankings (all_metrics metrics_dict).
Proof.
  unfold all_metrics. intros Hall.
  assert (forall acc, within_rankings acc ->
            within_rankings
              (fold_left (fun acc ranking_data => dict_update acc ranking_data)
                         (map snd metrics_dict) acc)) as Hfold.
  { induction Hall as [|e rest He _ IH]; intros acc Hacc; [exact Hacc|].
    cbn [map fold_left]. apply IH. apply dict_update_Forall; assumption. }
  apply Hfold. constructor.
Qed.

Lemma get_ticker_metrics_within (ticker window : string) (results : Results)
    (metrics_dict : list (string * Metrics)) :
  ranking_layouts results ->
  lookup_key window (get_ticker_metrics ticker results) = Some metrics_dict ->
  Forall (fun e : string * Metrics => within_rankings e.2) metrics_dict.
Proof.
  intros Hlayouts Hlookup. apply AnalyzerIOFacts.lookup_key_elem in Hlookup.
  unfold get_ticker_metrics in Hlookup.
  apply list_elem_of_fmap in Hlookup as ([w categories] & [= -> ->] & Hin).
  cbn [fst snd].
  assert (forall cats found,
            (forall category rankings, (category, rankings) ∈ cats ->
               (category, rankings) ∈ categories) ->
            Forall (fun e : string * Metrics => within_rankings e.2) found ->
            Forall (fun e : string * Metrics => within_rankings e.2)
              (fold_left
                 (fun found (by_category : string * list (string * Frame)) =>
                    fold_left (note_table ticker) by_category.2 found)
                 cats found)) as Hcats.
  { induction cats as [|[category rankings] cats IH]; intros found Hsub Hfound;
      [exact Hfound|].
    cbn [fold_left snd]. apply IH.
    - intros c r Hc. apply Hsub. right. exact Hc.
    - assert (forall tables found',
                (forall rt df, (rt, df) ∈ tables -> (rt, df) ∈ rankings) ->
                Forall (fun e : string * Metrics => within_rankings e.2) found' ->
                Forall (fun e : string * Metrics => within_rankings e.2)
                  (fold_left (note_table ticker) tables found')) as Htables.
      { induction tables as [|[rt df] tables IHt]; intros found' Hsub' Hfound';
          [exact Hfound'|].
        cbn [fold_left]. apply IHt.
        - intros rt' df' H'. apply Hsub'. right. exact H'.
        - apply note_table_within; [|exact Hfound']. cbn [snd].
          apply (Hlayouts w categories category rankings rt df Hin).
          + apply Hsub. left.
          + apply Hsub'. left. }
      apply Htables; [auto|exact Hfound]. }
  apply Hcats; [auto|constructor].
Qed.

(** X27. The metrics dictionary the dashboard builds for a ticker and a
    window, from tables laid out as the ranker lays them out, has none but
    the eight columns of the ranking tables as keys. The fifteen other
    fields of a window record, realized_volatility and
    ultra_extreme_move_days among them, are not in it: the analysis reads
    each of them as 0. *)
Theorem dashboard_sees_ranking_columns_only (ticker window : string)
    (results : Results) (metrics_dict : list (string * Metrics)) :
  ranking_layouts results ->
  lookup_key window (get_ticker_metrics ticker results) = Some metrics_dict ->
  Forall (fun kv : string * cell => kv.1 ∈ RANKING_COLUMNS) (all_metrics metrics_dict)
  /\ Forall (fun key => get (all_metrics metrics_dict) key = CNum (PyInt 0))
            UNRANKED_FIELDS.
Proof.
  intros Hlayouts Hlookup.
  pose proof (all_metrics_within _
                (get_ticker_metrics_within _ _ _ _ Hlayouts Hlookup)) as Hwithin.
  split; [exact Hwithin|].
  rewrite Forall_forall. intros key Hkey. apply get_absent.
  eapply Forall_impl; [exact Hwithin|]. cbn. intros kv Hkv E. rewrite E in Hkv.
  revert Hkey Hkv. unfold UNRANKED_FIELDS, RANKING_COLUMNS.
  rewrite !elem_of_cons, !elem_of_nil.
  intros Hkey Hkv.
  repeat (destruct Hkey as [Hkey|Hkey];
          [rewrite Hkey in Hkv;
           repeat (destruct Hkv as [Hkv|Hkv]; [discriminate|]); destruct Hkv|]).
  destruct Hkey.
Qed.

End DashboardFacts.

Module FurtherRuns.

Import Analyzer Statements Scanner ScannerLoop AnalyzerIO Insights Dashboard
  Properties Examples.

Local Open Scope float_scope.

(** The engine returns a record for sixty and for five ordinary days, and
    for the history with a zero open. *)
Lemma sixty_days_record :
  exists st, Scenario.stats_of Scenario.sixty_days "X" = Some st.
Proof.
  apply (EngineFacts.compute_intraday_stats_guards Platform.ln Platform.resample_B
           Scenario.sixty_days "X"); vm_compute; lia.
Qed.

Lemma five_days_record (name : string) :
  exists st, Scenario.stats_of Scenario.five_days name = Some st.
Proof.
  apply (EngineFacts.compute_intraday_stats_guards Platform.ln Platform.resample_B
           Scenario.five_days name); vm_compute; lia.
Qed.

(** X3 at sixty ordinary days: the record carries the ticker, total_days is
    60, the last_3_months window is present, the last_1_year window is
    absent, and the last_30_days window counts 30 days. *)
Lemma windows_by_total_days_witness :
  exists st,
    Scenario.stats_of Scenario.sixty_days "X" = Some st
    /\ ticker st = "X"
    /\ total_days st = 60%nat
    /\ is_Some (get_window st Wlast_3_months)
    /\ ~ is_Some (get_window st Wlast_1_year)
    /\ forall w, get_window st Wlast_30_days = Some w -> days_in_window w = PyInt 30.
Proof.
  destruct sixty_days_record as [st Hst]. exists st. split; [exact Hst|].
  destruct (WindowFacts.windows_by_total_days Platform.ln Platform.resample_B
              Scenario.sixty_days "X" st Hst) as (Hname & _ & Hdays & Hwin).
  assert (length (filtered_daily Platform.ln Platform.resample_B Scenario.sixty_days)
          = 60%nat) as Hlen by (vm_compute; reflexivity).
  rewrite Hlen in Hdays. rewrite Hdays in Hwin.
  split; [exact Hname|]. split; [exact Hdays|].
  split; [apply (Hwin Wlast_3_months); vm_compute; lia|].
  split; [intros H%(Hwin Wlast_1_year); vm_compute in H; lia|].
  intros w Hw. exact (proj2 (Hwin Wlast_30_days) w Hw).
Defined.

(** X4 at five ordinary days: the today window counts one day and has no
    spread. *)
Lemma today_window_has_no_spread_witness :
  exists st w,
    Scenario.stats_of Scenario.five_days "X" = Some st
    /\ today st = Some w
    /\ days_in_window w = PyInt 1
    /\ std_intraday_range w = PyFloat 0
    /\ consistency_score w = PyFloat 0.
Proof.
  destruct (five_days_record "X") as [st Hst].
  destruct (WindowFacts.today_window_has_no_spread Platform.ln Platform.resample_B
              Scenario.five_days "X" st Hst)
    as (w & Hw & Hdays & Hstd & _ & Hcons & _).
  exists st, w. repeat split; assumption.
Defined.

(** X5 at the history whose last row has a zero open: the sixteen checked
    fields of every window are finite. *)
Lemma checked_fields_are_finite_witness :
  exists st,
    Scenario.stats_of Scenario.zero_open_history "X" = Some st
    /\ forall window w,
         get_window st window = Some w ->
         Forall (fun n => num_finite n = true) (checked_fields w).
Proof.
  destruct (EngineRuns.zero_open_history_record Platform.ln Platform.resample_B "X")
    as (st & Hst & _).
  exists st. split; [exact Hst|].
  exact (WindowFacts.checked_fields_are_finite Platform.ln Platform.resample_B
           Scenario.zero_open_history "X" st Hst).
Defined.

(** X6 at the window of five ordinary days. *)
Lemma counters_within_window_witness :
  let rows := filtered_daily Platform.ln Platform.resample_B Scenario.five_days in
  exists w (swing2 swing3 : nat),
    _compute_window_stats rows = Some w
    /\ swing_2pct_days w = NpInt64 (Z.of_nat swing2)
    /\ swing_3pct_days w = NpInt64 (Z.of_nat swing3)
    /\ (swing3 <= swing2 <= 5)%nat.
Proof.
  intros rows.
  assert (length rows = 5%nat) as Hlen by (vm_compute; reflexivity).
  destruct (EngineFacts.window_stats_present rows) as (w & Hw & _).
  { intros E. rewrite E in Hlen. discriminate Hlen. }
  destruct (WindowFacts.counters_within_window rows w Hw)
    as (swing2 & swing3 & _ & _ & H2 & H3 & _ & _ & _ & H32 & H2n & _).
  exists w, swing2, swing3. rewrite Hlen in H2n. repeat split; assumption.
Defined.

Lemma twin_records_engine :
  Forall (engine_record Platform.ln Platform.resample_B) twin_records.
Proof.
  unfold twin_records, Scenario.twins.
  destruct (five_days_record "AAA") as [a Ha], (five_days_record "BBB") as [b Hb].
  rewrite Ha, Hb. cbn [omap id].
  repeat constructor.
  - exists Scenario.five_days, "AAA". exact Ha.
  - exists Scenario.five_days, "BBB". exact Hb.
Qed.

(** X13 at the records of the two twins: the filter keeps both rows. *)
Lemma consistency_filter_keeps_engine_rows_witness :
  consistency_rows (valid_rows twin_records Wtoday) = valid_rows twin_records Wtoday
  /\ length (valid_rows twin_records Wtoday) = 2%nat.
Proof.
  split.
  - exact (proj1 (WindowFacts.consistency_filter_keeps_engine_rows
                    Platform.ln Platform.resample_B twin_records Wtoday
                    twin_records_engine)).
  - vm_compute. reflexivity.
Defined.

(** X8 an hour after noon, with the provider down: the entry written at
    noon is not served, the call fetches, returns None and leaves the entry
    in the cache. *)
Lemma expired_entry_is_refetched_witness :
  let p :=
    Analyzer.process_ticker Platform.ln Platform.resample_B no_answer
      (Scenario.noon + HOUR_US) (Scenario.noon + HOUR_US + 1) "AAA"
      (Some noon_cache) in
  is_Some (noon_cache !! "AAA")
  /\ fetched p = true /\ returned p = None /\ cache_after p = Some noon_cache.
Proof.
  intros p.
  destruct (CacheFrame.expired_entry_is_refetched Platform.ln Platform.resample_B
              no_answer (Scenario.noon + HOUR_US) (Scenario.noon + HOUR_US + 1)
              "AAA" noon_cache
              {| timestamp := Some Scenario.noon;
                 stats := Scenario.stats_of Scenario.five_days "AAA" |})
    as (Hfetched & Hnone & _).
  - apply lookup_singleton_eq.
  - vm_compute. discriminate.
  - fold p in Hfetched, Hnone. destruct (Hnone eq_refl) as [Hret Hcache].
    split; [|repeat split; assumption].
    unfold noon_cache. rewrite lookup_singleton_eq. eexists; reflexivity.
Defined.

(** X9 on an empty cache, for five ordinary days: the result stored at noon
    is served one and fifty-nine minutes later, when the provider would
    answer with another history, or not at all. *)
Lemma stored_result_is_served_witness :
  let later : list Lookup :=
    [ (Scenario.noon + 60 * 10 ^ 6, Scenario.noon + 61 * 10 ^ 6,
       Scenario.always Scenario.three_valid_rows)%Z;
      (Scenario.noon + 3540 * 10 ^ 6, Scenario.noon + 3541 * 10 ^ 6, no_answer)%Z ] in
  let first :=
    Analyzer.process_ticker Platform.ln Platform.resample_B
      (Scenario.always Scenario.five_days)
      (Scenario.noon - 1) Scenario.noon "AAA" (Some ∅) in
  is_Some (returned first)
  /\ returned first = Scenario.stats_of Scenario.five_days "AAA"
  /\ Forall (fun p => returned p = returned first
                      /\ fetched p = false
                      /\ cache_after p = cache_after first)
            (lookups Platform.ln Platform.resample_B "AAA" (cache_after first) later).
Proof.
  intros later first.
  destruct (CacheFrame.stored_result_is_served Platform.ln Platform.resample_B
              (Scenario.always Scenario.five_days)
              (Scenario.noon - 1) Scenario.noon "AAA" ∅
              Scenario.five_days later)
    as (Hret & Hlater).
  - unfold no_fresh_entry. rewrite lookup_empty. exact I.
  - reflexivity.
  - subst later.
    constructor; [vm_compute; reflexivity|].
    constructor; [vm_compute; reflexivity|].
    constructor.
  - fold first in Hret, Hlater. split; [|split; [exact Hret|exact Hlater]].
    rewrite Hret. apply (five_days_record "AAA").
Defined.

(** X19 at a history of 112 bars with a negative close last but one. *)
Lemma bad_close_gives_no_alert_witness :
  let data := Scenario.closes_history negative_closes in
  (MIN_BARS_REQUIRED < length (bars data))%nat
  /\ compute_zscore Platform.ln (Some data) = None
  /\ process_ticker Platform.ln Scenario.fresh_scanner (Returned (Some data))
       (Scenario.clock_after 0) "AAA"
     = (None, Scenario.fresh_scanner).
Proof.
  intros data.
  assert (recent_closes_of Platform.ln data = negative_closes) as Hrecent
    by (vm_compute; reflexivity).
  destruct (ZscoreFacts.bad_close_gives_no_alert Platform.ln data) as [Hnone Halert].
  - rewrite Hrecent. apply Exists_exists. exists (-8).
    split; [|reflexivity].
    unfold negative_closes. apply elem_of_app. right. apply list_elem_of_here.
  - split; [vm_compute; lia|]. split; [exact Hnone|]. apply Halert.
Defined.

(** X21 after an alert at noon: the spike is suppressed an hour later, less
    two seconds, and alerts again a minute after that. *)
Lemma alert_opens_cooldown_witness :
  let spike := Scenario.closes_history Scenario.spike_closes in
  exists a self',
    process_ticker Platform.ln Scenario.fresh_scanner (Returned (Some spike))
      (Scenario.clock_after 0) "AAA"
    = (Some a, self')
    /\ process_ticker Platform.ln self' (Returned (Some spike))
         (Scenario.clock_after 60) "AAA"
       = (None, self')
    /\ is_Some (process_ticker Platform.ln self' (Returned (Some spike))
                  (Scenario.clock_after 61) "AAA").1.
Proof.
  intros spike.
  destruct ScannerRuns.spike_zscore as (z & pm & st & E & Habove).
  destruct (ScannerFacts.first_trigger_alerts Platform.ln Scenario.fresh_scanner
              spike (Scenario.clock_after 0) "AAA" z pm st E Habove)
    as (a & self' & Hrun & _); [reflexivity|].
  exists a, self'. split; [exact Hrun|].
  pose proof (LedgerFacts.alert_opens_cooldown Platform.ln Scenario.fresh_scanner
                self' (Returned (Some spike)) (Scenario.clock_after 0) "AAA" a Hrun
                spike) as Hcool.
  split.
  - apply (proj1 (Hcool (Scenario.clock_after 60) z pm st E Habove)).
    vm_compute. reflexivity.
  - destruct (proj2 (Hcool (Scenario.clock_after 61) z pm st E Habove))
      as (a' & Ha' & _).
    + vm_compute. discriminate.
    + rewrite Ha'. eexists; reflexivity.
Defined.

(** X23 at 120 tickers and batches of 50: three batches, of 50, 50 and 20
    tickers, and two pauses. *)
Lemma batches_cover_the_list_witness :
  let tickers := seq 0 120 in
  (0 < BATCH_SIZE)%nat
  /\ concat (batches BATCH_SIZE tickers) = tickers
  /\ length (batches BATCH_SIZE tickers) = 3%nat
  /\ map length (batches BATCH_SIZE tickers) = [50; 50; 20]%nat
  /\ pauses BATCH_SIZE tickers = 2%nat.
Proof.
  intros tickers.
  assert (0 < BATCH_SIZE)%nat as Hsize by (unfold BATCH_SIZE; lia).
  destruct (LoopFacts.batches_cover_the_list BATCH_SIZE Hsize tickers)
    as (Hconcat & Hlen & _ & _ & Hpauses).
  assert (announced_batches BATCH_SIZE tickers = 3%nat) as H3 by reflexivity.
  rewrite H3 in Hlen. rewrite Hlen in Hpauses.
  split; [exact Hsize|]. split; [exact Hconcat|]. split; [exact Hlen|].
  split; [vm_compute; reflexivity|exact Hpauses].
Defined.

(** X22 at a batch of two tickers of which the second gets past its fetch
    first: both alert, in the order of the batch, each records the time it
    read when it ran, and no other entry of the ledger is written. *)
Lemma batch_calls_decide_alone_witness :
  let out :=
    process_ticker_batch Platform.ln minute_clocks Scenario.fresh_scanner
      two_calls [1; 0]%nat in
  alert_ticker <$> out.1 = ["AAA"; "BBB"]
  /\ alert_history out.2 !! "BBB" = Some (at_history_update (minute_clocks 0))
  /\ alert_history out.2 !! "AAA" = Some (at_history_update (minute_clocks 1))
  /\ alert_history out.2 !! "CCC" = None
  /\ errors out.2 = 0%nat.
Proof.
  intros out.
  destruct (LoopFacts.batch_calls_decide_alone Platform.ln minute_clocks
              Scenario.fresh_scanner two_calls [1; 0]%nat)
    as (Hown & _ & _ & Helse & _ & _ & _ & He).
  - unfold two_calls. cbn [fmap list_fmap fst].
    apply NoDup_cons. split; [|apply NoDup_singleton].
    intros E%list_elem_of_singleton. discriminate E.
  - apply perm_swap.
  - fold out in Hown, Helse, He.
    split; [vm_compute; reflexivity|].
    split; [|split; [|split]].
    + rewrite (proj1 (Hown 0%nat 1%nat "BBB" _ eq_refl eq_refl)).
      vm_compute. reflexivity.
    + rewrite (proj1 (Hown 1%nat 0%nat "AAA" _ eq_refl eq_refl)).
      vm_compute. reflexivity.
    + rewrite Helse; [reflexivity|].
      unfold two_calls. cbn [fmap list_fmap fst].
      rewrite !elem_of_cons, elem_of_nil. intros [E|[E|[]]]; discriminate E.
    + rewrite He. reflexivity.
Defined.

(** X14 at the most_consistent table of the two twins. *)
Lemma ranking_tables_columns_witness :
  exists table,
    (("most_consistent", table)
     ∈ category_rankings (Platform.argsort_stable PrimFloat.ltb)
         (Platform.argsort_stable Z.ltb) Scenario.twin_rows)
    /\ length table = 2%nat
    /\ Forall (fun row : nat * list (string * cell) =>
                 row.2.*1 = ranking_columns "most_consistent") table.
Proof.
  eexists. split.
  - unfold category_rankings. apply list_elem_of_further, list_elem_of_here.
  - split; [vm_compute; reflexivity|].
    apply (AnalyzerIOFacts.ranking_tables_columns
             (Platform.argsort_stable PrimFloat.ltb) (Platform.argsort_stable Z.ltb)
             Scenario.twin_rows "most_consistent").
    unfold category_rankings. apply list_elem_of_further, list_elem_of_here.
Defined.

(** X25 at a row with an average range of 6% and four days in seven above
    3%: a MOMENTUM signal, and a very high or high risk. *)
Lemma signals_agree_with_labels_witness :
  exists a,
    analyze_ticker_metrics no_format "AAA" busy_metrics "Last 7 Days" = Some a
    /\ "MOMENTUM" ∈ signal_types a
    /\ (risk_assessment a = RISK_VERY_HIGH \/ risk_assessment a = RISK_HIGH).
Proof.
  destruct (analyze_ticker_metrics no_format "AAA" busy_metrics "Last 7 Days")
    as [a|] eqn:E; vm_compute in E; [|discriminate E].
  exists a. split; [reflexivity|].
  destruct (InsightFacts.signals_agree_with_labels no_format "AAA" "Last 7 Days"
              busy_metrics a) as (_ & Hmomentum & _).
  - repeat constructor; vm_compute; discriminate.
  - vm_compute. exact E.
  - assert ("MOMENTUM" ∈ signal_types a) as Hin.
    { injection E as <-. vm_compute. apply list_elem_of_here. }
    split; [exact Hin|exact (Hmomentum Hin)].
Defined.

(** X26 at a row without an average range. *)
Lemma unknown_average_reads_as_low_risk_witness :
  exists a,
    analyze_ticker_metrics no_format "AAA" bare_metrics "Today" = Some a
    /\ risk_assessment a = RISK_LOW
    /\ "MOMENTUM" ∉ signal_types a.
Proof.
  destruct (analyze_ticker_metrics no_format "AAA" bare_metrics "Today")
    as [a|] eqn:E; [|vm_compute in E; discriminate E].
  exists a. split; [reflexivity|].
  destruct (InsightFacts.unknown_average_reads_as_low_risk no_format "AAA" "Today"
              bare_metrics a) as (Hrisk & _ & _ & Hmomentum).
  - discriminate.
  - repeat constructor.
  - left. reflexivity.
  - exact E.
  - split; assumption.
Defined.

Lemma one_table_layout : ranking_layouts one_table.
Proof.
  intros window categories category rankings ranking_type df Hw Hc Hr.
  unfold one_table in Hw.
  apply list_elem_of_singleton in Hw. injection Hw as -> ->.
  apply list_elem_of_singleton in Hc. injection Hc as -> ->.
  apply list_elem_of_singleton in Hr. injection Hr as -> ->.
  exists "highest_avg_range". split; [apply list_elem_of_here|reflexivity].
Qed.

(** X27 at one table: the average range is read from the table, the
    realized volatility and the ultra-extreme days read as 0. *)
Lemma dashboard_sees_ranking_columns_only_witness :
  exists metrics_dict,
    lookup_key "today" (get_ticker_metrics "AAA" one_table) = Some metrics_dict
    /\ get (all_metrics metrics_dict) "avg_intraday_range" = CNum (PyFloat 6)
    /\ get (all_metrics metrics_dict) "realized_volatility" = CNum (PyInt 0)
    /\ get (all_metrics metrics_dict) "ultra_extreme_move_days" = CNum (PyInt 0).
Proof.
  destruct (lookup_key "today" (get_ticker_metrics "AAA" one_table))
    as [metrics_dict|] eqn:E; [|vm_compute in E; discriminate E].
  exists metrics_dict. split; [reflexivity|].
  destruct (DashboardFacts.dashboard_sees_ranking_columns_only "AAA" "today"
              one_table metrics_dict one_table_layout E) as [_ Hzero].
  split; [vm_compute in E; injection E as <-; vm_compute; reflexivity|].
  split.
  - apply (proj1 (Forall_forall _ _) Hzero "realized_volatility").
    unfold UNRANKED_FIELDS. repeat first [left; reflexivity | right].
  - apply (proj1 (Forall_forall _ _) Hzero "ultra_extreme_move_days").
    unfold UNRANKED_FIELDS. repeat first [left; reflexivity | right].
Defined.

End FurtherRuns.
